(** * Echoes backend: the evolution data pipeline

  A shallow embedding of [api/utils.py] (era loading, similarity search,
  centroids, drift, timeline) and of [api/etymology_service.py] (prompt,
  retrying upstream call, response parsing, cached generation), followed
  by the properties of the specification that were checked against it.

  Conventions.
  - Python exceptions are values of [exn]; a computation that may raise
    returns [result A].
  - Scores are binary64 numbers ([PrimFloat.float]).
  - Decoded JSON documents are values of [json]; a Python [dict] decoded
    from JSON is an association list in insertion order.
  - The numeric library (numpy, scikit-learn), the JSON decoder and the
    remote model are not part of the repository: they are interfaces
    ([Numpy], [JsonLib], [upstream]); [Model] gives small executable
    instances on which the closed examples are evaluated. *)

From Stdlib Require Import ZArith List String Ascii Bool Lia Floats Permutation.
Import ListNotations.

Set Implicit Arguments.

(* ------------------------------------------------------------------ *)
(** ** Python values, exceptions and control flow *)

Module Py.

Local Open Scope string_scope.

(** The exception classes that occur in the two modules. [OpenRouterError]
    and [EmbeddingValidationError] are the repository's own. *)
Inductive exn_class : Type :=
| FileNotFoundError
| EmbeddingValidationError
| OpenRouterError
| TimeoutError
| ValueError
| KeyError
| TypeError
| AttributeError
| IndexError
| OtherException.

Definition exn_class_eqb (a b : exn_class) : bool :=
  match a, b with
  | FileNotFoundError, FileNotFoundError
  | EmbeddingValidationError, EmbeddingValidationError
  | OpenRouterError, OpenRouterError
  | TimeoutError, TimeoutError
  | ValueError, ValueError
  | KeyError, KeyError
  | TypeError, TypeError
  | AttributeError, AttributeError
  | IndexError, IndexError
  | OtherException, OtherException => true
  | _, _ => false
  end.

(** An exception object: its class and [str(e)]. *)
Record exn : Type := Exn { exn_cls : exn_class; exn_msg : string }.

Inductive result (A : Type) : Type :=
| Ok (a : A)
| Raise (e : exn).
Arguments Ok {A} a.
Arguments Raise {A} e.

Definition bind {A B} (r : result A) (k : A -> result B) : result B :=
  match r with
  | Ok a => k a
  | Raise e => Raise e
  end.

(** [try: body except (c1, c2, ...) as e: handler e] *)
Definition try_except {A} (body : result A) (classes : list exn_class)
           (handler : exn -> result A) : result A :=
  match body with
  | Ok a => Ok a
  | Raise e =>
      if existsb (exn_class_eqb (exn_cls e)) classes then handler e
      else Raise e
  end.

(** [try: body except Exception as e: handler e]: every class of [exn]
    derives from [Exception]. *)
Definition try_except_Exception {A} (body : result A)
           (handler : exn -> result A) : result A :=
  match body with
  | Ok a => Ok a
  | Raise e => handler e
  end.

Definition is_ok {A} (r : result A) : bool :=
  match r with Ok _ => true | Raise _ => false end.

(** The value a computation returned, if it returned. *)
Definition returned {A} (r : result A) : option A :=
  match r with Ok a => Some a | Raise _ => None end.

(** The class of the exception a computation raised, if it raised. *)
Definition raised {A} (r : result A) : option exn_class :=
  match r with Ok _ => None | Raise e => Some (exn_cls e) end.

(** Decoded JSON. Integers and floats are distinct, as in Python. *)
#[warnings="-register-all"]
Inductive json : Type :=
| JNull
| JBool (b : bool)
| JInt (z : Z)
| JFloat (f : float)
| JStr (s : string)
| JArr (l : list json)
| JObj (kv : list (string * json)).

Fixpoint assoc {V} (k : string) (kv : list (string * V)) : option V :=
  match kv with
  | [] => None
  | (k', v) :: rest => if String.eqb k k' then Some v else assoc k rest
  end.

(** [dict.__setitem__] on an insertion-ordered dictionary. *)
Fixpoint dict_set {V} (k : string) (v : V) (kv : list (string * V))
  : list (string * V) :=
  match kv with
  | [] => [(k, v)]
  | (k', v') :: rest =>
      if String.eqb k k' then (k, v) :: rest
      else (k', v') :: dict_set k v rest
  end.

(** Is [needle] a substring of [s]? ([needle in s] on two [str]). *)
Fixpoint prefixb (p s : string) : bool :=
  match p, s with
  | EmptyString, _ => true
  | String a p', String b s' => Ascii.eqb a b && prefixb p' s'
  | String _ _, EmptyString => false
  end.

Fixpoint substringb (needle s : string) : bool :=
  prefixb needle s ||
  match s with
  | EmptyString => false
  | String _ s' => substringb needle s'
  end.

Definition json_is_str (j : json) (s : string) : bool :=
  match j with
  | JStr s' => String.eqb s s'
  | _ => false
  end.

(** [field in item] for a string [field]: key membership on a dict,
    element membership on a list, substring test on a string, and a
    [TypeError] on anything that is not a container. *)
Definition py_contains (field : string) (item : json) : result bool :=
  match item with
  | JObj kv => Ok (match assoc field kv with Some _ => true | None => false end)
  | JArr l => Ok (existsb (fun j => json_is_str j field) l)
  | JStr s => Ok (substringb field s)
  | _ => Raise (Exn TypeError "argument is not iterable")
  end.

(** [item[key]] for a string [key]. *)
Definition py_getitem (item : json) (key : string) : result json :=
  match item with
  | JObj kv =>
      match assoc key kv with
      | Some v => Ok v
      | None => Raise (Exn KeyError ("'" ++ key ++ "'"))
      end
  | JArr _ => Raise (Exn TypeError "list indices must be integers or slices, not str")
  | JStr _ => Raise (Exn TypeError "string indices must be integers, not 'str'")
  | _ => Raise (Exn TypeError "object is not subscriptable")
  end.

(** [js.get("items", [])]: only a dict has [get]. *)
Definition py_get (js : json) (key : string) (default : json) : result json :=
  match js with
  | JObj kv =>
      Ok (match assoc key kv with Some v => v | None => default end)
  | _ => Raise (Exn AttributeError "object has no attribute 'get'")
  end.

Definition chars_as_json (s : string) : list json :=
  map (fun c => JStr (String c EmptyString)) (list_ascii_of_string s).

(** Iterating a decoded value ([for x in v], [enumerate(v)]): a list
    yields its elements, a dict its keys, a string its characters. *)
Definition py_iter (v : json) : result (list json) :=
  match v with
  | JArr l => Ok l
  | JObj kv => Ok (map (fun p => JStr (fst p)) kv)
  | JStr s => Ok (chars_as_json s)
  | _ => Raise (Exn TypeError "object is not iterable")
  end.

(** Truth value of a decoded JSON value ([if items:], [if not x]). *)
Definition py_truthy (v : json) : bool :=
  match v with
  | JNull => false
  | JBool b => b
  | JInt z => negb (Z.eqb z 0)
  | JFloat f => negb (PrimFloat.eqb f 0%float)
  | JStr s => negb (String.eqb s "")
  | JArr l => match l with [] => false | _ => true end
  | JObj kv => match kv with [] => false | _ => true end
  end.

Definition is_dict (j : json) : bool :=
  match j with JObj _ => true | _ => false end.

(** [xs[:k]] on a list, for any integer [k]: a negative [k] counts from
    the end. *)
Definition slice_to {A} (xs : list A) (k : Z) : list A :=
  if (k <? 0)%Z
  then firstn (Z.to_nat (Z.of_nat (List.length xs) + k)) xs
  else firstn (Z.to_nat k) xs.

(** [xs[1:-1]] *)
Definition slice_1_m1 {A} (xs : list A) : list A :=
  match xs with
  | [] => []
  | _ :: tl => removelast tl
  end.

End Py.

(* ------------------------------------------------------------------ *)
(** ** String methods used by the two modules

    Strings are byte strings; [strip] and [lower] act on the ASCII range,
    as Python's do on ASCII text. On text with other characters Python
    strips and lowers more than these do. *)

Module Str.

Local Open Scope string_scope.
Local Open Scope nat_scope.

(** [c.isspace()] on the ASCII range: tab to carriage return, the four
    separators 28..31, and the space. *)
Definition is_space (c : ascii) : bool :=
  let n := nat_of_ascii c in
  ((9 <=? n) && (n <=? 13)) || ((28 <=? n) && (n <=? 31)) || (n =? 32).

Fixpoint lstrip (s : string) : string :=
  match s with
  | EmptyString => EmptyString
  | String c s' => if is_space c then lstrip s' else s
  end.

(** [rstrip]: a character is kept when something that is not a space
    follows it or it is not a space itself. *)
Fixpoint rstrip (s : string) : string :=
  match s with
  | EmptyString => EmptyString
  | String c s' =>
      match rstrip s' with
      | EmptyString => if is_space c then EmptyString else String c EmptyString
      | r => String c r
      end
  end.

Definition strip (s : string) : string := rstrip (lstrip s).

Definition lower_char (c : ascii) : ascii :=
  let n := nat_of_ascii c in
  if (65 <=? n) && (n <=? 90) then ascii_of_nat (n + 32) else c.

Fixpoint lower (s : string) : string :=
  match s with
  | EmptyString => EmptyString
  | String c s' => String (lower_char c) (lower s')
  end.

Definition startswith (s p : string) : bool := Py.prefixb p s.

Definition newline : ascii := ascii_of_nat 10.

(** [s.split(sep)] for a one-character separator: never returns the empty
    list. *)
Fixpoint split (sep : ascii) (s : string) : list string :=
  match s with
  | EmptyString => [EmptyString]
  | String c s' =>
      if Ascii.eqb c sep then EmptyString :: split sep s'
      else
        match split sep s' with
        | [] => [String c EmptyString]
        | w :: ws => String c w :: ws
        end
  end.

(** [sep.join(parts)] *)
Fixpoint join (sep : string) (parts : list string) : string :=
  match parts with
  | [] => EmptyString
  | [p] => p
  | p :: ps => p ++ sep ++ join sep ps
  end.

(** [s[n:]] *)
Fixpoint drop (n : nat) (s : string) : string :=
  match n, s with
  | O, _ => s
  | S n', EmptyString => EmptyString
  | S n', String _ s' => drop n' s'
  end.

(** [s.replace(old, "")] for a non-empty [old]: occurrences are removed
    left to right, without overlap. [skip] counts the characters of the
    occurrence being removed that are still to be dropped. *)
Fixpoint remove_all_aux (old : string) (skip : nat) (s : string) : string :=
  match s with
  | EmptyString => EmptyString
  | String c s' =>
      match skip with
      | S k => remove_all_aux old k s'
      | O =>
          if Py.prefixb old s
          then remove_all_aux old (String.length old - 1) s'
          else String c (remove_all_aux old 0 s')
      end
  end.

Definition remove_all (old s : string) : string := remove_all_aux old 0 s.

(** Position of the last ['.'] of a name, if any. *)
Fixpoint rindex_dot (s : string) : option nat :=
  match s with
  | EmptyString => None
  | String c s' =>
      match rindex_dot s' with
      | Some i => Some (S i)
      | None => if Ascii.eqb c "."%char then Some 0 else None
      end
  end.

(** [PurePath.suffix]: the last dot-separated part of the name with its
    dot, or the empty string when the dot is the first or the last
    character of the name. *)
Definition suffix (name : string) : string :=
  match rindex_dot name with
  | Some i =>
      if (0 <? i) && (i <? String.length name - 1) then drop i name
      else EmptyString
  | None => EmptyString
  end.

(** Insertion into a list sorted by [String.leb]; [sorted] on a list of
    [str] orders by code point. *)
Fixpoint insert_sorted (x : string) (l : list string) : list string :=
  match l with
  | [] => [x]
  | y :: l' => if String.leb x y then x :: l else y :: insert_sorted x l'
  end.

Definition sorted (l : list string) : list string :=
  fold_right insert_sorted [] l.

(** Decimal rendering of integers, as [str(n)] and f-strings give. *)
Definition digit_char (d : nat) : ascii := ascii_of_nat (48 + d).

Fixpoint nat_digits (fuel n : nat) (acc : string) : string :=
  match fuel with
  | O => acc
  | S fuel' =>
      let acc' := String (digit_char (n mod 10)) acc in
      if n / 10 =? 0 then acc' else nat_digits fuel' (n / 10) acc'
  end.

Definition of_nat (n : nat) : string := nat_digits (S n) n EmptyString.

Definition of_Z (z : Z) : string :=
  if (z <? 0)%Z then "-" ++ of_nat (Z.to_nat (- z)) else of_nat (Z.to_nat z).

End Str.

(* ------------------------------------------------------------------ *)
(** ** [functools.lru_cache]

    The cache of a decorated function: at most [maxsize] entries, the most
    recently used first. A hit moves the entry to the front; a miss runs
    the function and, when it returns (an exception stores nothing), puts
    the result at the front, evicting the least recently used entry when
    the cache is full. *)

Module Lru.

Section Cache.

Variables K V : Type.
Variable eqb : K -> K -> bool.

Definition cache : Type := list (K * V).

Fixpoint lookup (k : K) (c : cache) : option V :=
  match c with
  | [] => None
  | (k', v) :: rest => if eqb k k' then Some v else lookup k rest
  end.

Fixpoint remove (k : K) (c : cache) : cache :=
  match c with
  | [] => []
  | (k', v) :: rest => if eqb k k' then rest else (k', v) :: remove k rest
  end.

(** A hit on [k], whose value is [v]. *)
Definition touch (k : K) (v : V) (c : cache) : cache := (k, v) :: remove k c.

(** Storing the result of a miss. *)
Definition store (maxsize : nat) (k : K) (v : V) (c : cache) : cache :=
  if maxsize <=? List.length c then (k, v) :: removelast c else (k, v) :: c.

Definition keys (c : cache) : list K := map fst c.

(** The keys used more recently than [k]. *)
Fixpoint ahead (k : K) (c : cache) : list K :=
  match c with
  | [] => []
  | (k', _) :: rest => if eqb k k' then [] else k' :: ahead k rest
  end.

End Cache.

End Lru.

(* ------------------------------------------------------------------ *)
(** ** The numeric library as [utils.py] uses it

    numpy and scikit-learn are not part of the repository. The operations
    below are exactly the calls made by [utils.py]; each may raise where
    the library may. *)

Class Numpy : Type := {
  ndarray : Type;
  (** [np.array([])] *)
  np_empty : ndarray;
  (** [np.array(v, dtype=float)] on a decoded JSON value *)
  np_array_float : Py.json -> Py.result ndarray;
  (** [np.array(embs)] on a non-empty list of arrays *)
  np_array_stack : list ndarray -> Py.result ndarray;
  (** [X.size] *)
  np_size : ndarray -> nat;
  (** the array-like [[query_emb]], a list holding one list of floats *)
  np_of_rows : list (list float) -> ndarray;
  (** [sklearn.metrics.pairwise.cosine_similarity(A, B)], as its rows *)
  cosine_similarity : ndarray -> ndarray -> Py.result (list (list float));
  (** [np.argsort(sims)] on a one-dimensional array *)
  np_argsort : list float -> list nat;
  (** [np.mean(X, axis=0)] *)
  np_mean_axis0 : ndarray -> ndarray;
  (** [a.reshape(1, -1)] *)
  np_reshape_1_m1 : ndarray -> Py.result ndarray
}.

(* ------------------------------------------------------------------ *)
(** ** [api/utils.py] *)

Module Utils.

Import Py.
Local Open Scope string_scope.

(** The directory of one concept under [BASE_EMBED_DIR]: its entries by
    name. A file is given by what [json.load] makes of it: a document,
    or a [JSONDecodeError]. A file that is not UTF-8 text, and a
    document nested so deeply that the decoder raises [RecursionError],
    are not among these. *)
Inductive file : Type :=
| FileJson (js : json)
| FileInvalidJson (msg : string).

Definition directory : Type := list (string * file).

(** [filesystem c] is the directory [BASE_EMBED_DIR / c], if it exists.
    Concept names and file names are single path components: a name
    holding [/] or [..], which a path resolves elsewhere, is not
    followed. *)
Definition filesystem : Type := string -> option directory.

(** [str(BASE_EMBED_DIR / concept)] and [str(BASE_EMBED_DIR / concept /
    era_file)], for names that are single path components. *)
Definition concept_path (concept : string) : string :=
  "embeddings/" ++ concept.

Definition era_path (concept era_file : string) : string :=
  concept_path concept ++ "/" ++ era_file.

Definition required_fields : list string := ["id"; "text"; "embedding"].

Definition type_name (j : json) : string :=
  match j with
  | JNull => "<class 'NoneType'>"
  | JBool _ => "<class 'bool'>"
  | JInt _ => "<class 'int'>"
  | JFloat _ => "<class 'float'>"
  | JStr _ => "<class 'str'>"
  | JArr _ => "<class 'list'>"
  | JObj _ => "<class 'dict'>"
  end.

(** The loop [for field in required_fields: if field not in item: raise]. *)
Fixpoint check_required (item : json) (index : nat) (fields : list string)
  : result unit :=
  match fields with
  | [] => Ok tt
  | field :: rest =>
      bind (py_contains field item) (fun present =>
      if present then check_required item index rest
      else Raise (Exn EmbeddingValidationError
                    ("Item at index " ++ Str.of_nat index
                     ++ " missing required field: " ++ field)))
  end.

(** [validate_item(item, index)]. A decoded JSON value is never an
    [np.ndarray], so [isinstance(e, (list, np.ndarray))] is [isinstance(e,
    list)]. The messages are only ever logged; item ids are not
    interpolated in them here. *)
Definition validate_item (item : json) (index : nat) : result unit :=
  bind (check_required item index required_fields) (fun _ =>
  bind (py_getitem item "embedding") (fun emb =>
  match emb with
  | JArr [] =>
      Raise (Exn EmbeddingValidationError "Item has empty embedding")
  | JArr _ => Ok tt
  | _ =>
      Raise (Exn EmbeddingValidationError
               ("Item has invalid embedding type: " ++ type_name emb))
  end)).

(** The first loop of [load_era_items]: validate each item, swallowing
    [EmbeddingValidationError] (logged) and nothing else. *)
Fixpoint validate_all (items : list json) (index : nat) : result unit :=
  match items with
  | [] => Ok tt
  | item :: rest =>
      bind (try_except (validate_item item index)
                       [EmbeddingValidationError] (fun _ => Ok tt))
           (fun _ => validate_all rest (S index))
  end.

(** [all(field in item for field in fields)], left to right, stopping at
    the first absent field. *)
Fixpoint all_fields_in (item : json) (fields : list string) : result bool :=
  match fields with
  | [] => Ok true
  | field :: rest =>
      bind (py_contains field item) (fun present =>
      if present then all_fields_in item rest else Ok false)
  end.

(** The comprehension [[item for item in items if all(...)]]. *)
Fixpoint filter_valid (items : list json) : result (list json) :=
  match items with
  | [] => Ok []
  | item :: rest =>
      bind (all_fields_in item required_fields) (fun keep =>
      bind (filter_valid rest) (fun rest' =>
      Ok (if keep then item :: rest' else rest')))
  end.

(** [load_era_items(concept, era_file)] *)
Definition load_era_items (fs : filesystem) (concept era_file : string)
  : result (list json) :=
  let missing :=
    Raise (Exn FileNotFoundError
             ("Embedding file not found: " ++ era_path concept era_file)) in
  match fs concept with
  | None => missing
  | Some dir =>
      match assoc era_file dir with
      | None => missing
      | Some (FileInvalidJson msg) =>
          Raise (Exn EmbeddingValidationError
                   ("Invalid JSON in " ++ era_path concept era_file
                    ++ ": " ++ msg))
      | Some (FileJson js) =>
          bind (py_get js "items" (JArr [])) (fun items =>
          bind (py_iter items) (fun its =>
          bind (validate_all its 0) (fun _ =>
          filter_valid its)))
      end
  end.

(** One element of the list that [load_all_eras] returns: the dict
    [{"era": ..., "items": ...}]. *)
Record era_data : Type :=
  EraData { era_name : string; era_items : list json }.

(** The loop of [load_all_eras] over the sorted file names. *)
Fixpoint load_eras_loop (fs : filesystem) (concept : string)
         (files : list string) : result (list era_data) :=
  match files with
  | [] => Ok []
  | fn :: rest =>
      bind (try_except
              (bind (load_era_items fs concept fn) (fun its =>
               Ok (match its with
                   | [] => []
                   | _ => [EraData (Str.remove_all ".json" fn) its]
                   end)))
              [FileNotFoundError; EmbeddingValidationError]
              (fun _ => Ok []))
           (fun here =>
      bind (load_eras_loop fs concept rest) (fun later =>
      Ok (here ++ later)%list))
  end.

Definition json_files (dir : directory) : list string :=
  Str.sorted
    (filter (fun name => String.eqb (Str.suffix name) ".json") (map fst dir)).

(** The function that [load_all_eras] decorates. *)
Definition load_all_eras_uncached (fs : filesystem) (concept : string)
  : result (list era_data) :=
  match fs concept with
  | None =>
      Raise (Exn FileNotFoundError
               ("Concept directory not found: " ++ concept_path concept))
  | Some dir =>
      match json_files dir with
      | [] => Ok []
      | files => load_eras_loop fs concept files
      end
  end.

(** Does [load_all_eras] keep the era of this file? It does when
    [load_era_items] returns at least one item. *)
Definition kept (fs : filesystem) (concept fn : string) : bool :=
  match load_era_items fs concept fn with
  | Ok (_ :: _) => true
  | _ => false
  end.

Definition eras_cache : Type := Lru.cache string (list era_data).

(** [@lru_cache(maxsize=128) load_all_eras(concept)]: [fs] is the disk at
    the time of the call, the cache is the state of the process. *)
Definition load_all_eras (fs : filesystem) (concept : string)
           (c : eras_cache) : result (list era_data) * eras_cache :=
  match Lru.lookup String.eqb concept c with
  | Some eras => (Ok eras, Lru.touch String.eqb concept eras c)
  | None =>
      match load_all_eras_uncached fs concept with
      | Ok eras => (Ok eras, Lru.store 128 concept eras c)
      | Raise e => (Raise e, c)
      end
  end.

(** [xs[i]] on a Python list or on the rows of an array. *)
Definition py_index {A} (xs : list A) (i : nat) : result A :=
  match nth_error xs i with
  | Some x => Ok x
  | None => Raise (Exn IndexError "index out of range")
  end.

Section WithNumpy.

Context {NP : Numpy}.

(** The comprehension [[np.array(it["embedding"], dtype=float) for it in
    items]]: the first item that fails raises. *)
Fixpoint embeddings_of (items : list json) : result (list ndarray) :=
  match items with
  | [] => Ok []
  | it :: rest =>
      bind (bind (py_getitem it "embedding") np_array_float) (fun e =>
      bind (embeddings_of rest) (fun es =>
      Ok (e :: es)))
  end.

Definition _to_numpy_embeddings (items : list json) : result ndarray :=
  match items with
  | [] => Ok np_empty
  | _ =>
      try_except
        (bind (embeddings_of items) np_array_stack)
        [KeyError; ValueError; TypeError]
        (fun e =>
           Raise (Exn EmbeddingValidationError
                    ("Failed to convert embeddings to numpy: " ++ exn_msg e)))
  end.

(** One returned element: [{"id": ..., "text": ..., "score": ...}]. *)
Record top_item : Type :=
  TopItem { top_id : json; top_text : json; top_score : float }.

(** The loop [for i in idx: out.append({...})]. *)
Fixpoint collect_top (items : list json) (sims : list float)
         (idx : list nat) : result (list top_item) :=
  match idx with
  | [] => Ok []
  | i :: rest =>
      bind (py_index items i) (fun it =>
      bind (py_getitem it "id") (fun id =>
      bind (py_index items i) (fun it' =>
      bind (py_getitem it' "text") (fun text =>
      bind (py_index sims i) (fun score =>
      bind (collect_top items sims rest) (fun out =>
      Ok (TopItem id text score :: out)))))))
  end.

(** [top_similar_in_era(query_emb, items, top_n)] *)
Definition top_similar_in_era (query_emb : list float) (items : list json)
           (top_n : Z) : result (list top_item) :=
  match items, query_emb with
  | [], _ => Ok []
  | _, [] => Ok []
  | _, _ =>
      try_except
        (bind (_to_numpy_embeddings items) (fun X =>
         if Nat.eqb (np_size X) 0 then Ok []
         else
           bind (cosine_similarity (np_of_rows [query_emb]) X) (fun M =>
           bind (py_index M 0) (fun sims =>
           let actual_top_n := Z.min top_n (Z.of_nat (List.length items)) in
           let idx := slice_to (rev (np_argsort sims)) actual_top_n in
           collect_top items sims idx))))
        [EmbeddingValidationError]
        (fun _ => Ok [])
  end.

(** [compute_centroid(items)] *)
Definition compute_centroid (items : list json) : result (option ndarray) :=
  match items with
  | [] => Ok None
  | _ =>
      try_except
        (bind (_to_numpy_embeddings items) (fun X =>
         if Nat.eqb (np_size X) 0 then Ok None
         else Ok (Some (np_mean_axis0 X))))
        [EmbeddingValidationError]
        (fun _ => Ok None)
  end.

(** The [try] block of [centroid_shift_score]. *)
Definition shift_try_block (centroid_a centroid_b : ndarray) : result float :=
  bind (np_reshape_1_m1 centroid_a) (fun a =>
  bind (np_reshape_1_m1 centroid_b) (fun b =>
  bind (cosine_similarity a b) (fun M =>
  bind (py_index M 0) (fun row =>
  bind (py_index row 0) (fun sim =>
  Ok (1 - sim)%float))))).

(** [centroid_shift_score(centroid_a, centroid_b)] *)
Definition centroid_shift_score (centroid_a centroid_b : option ndarray)
  : result float :=
  match centroid_a, centroid_b with
  | Some ca, Some cb =>
      try_except_Exception (shift_try_block ca cb) (fun _ => Ok 0%float)
  | _, _ => Ok 0%float
  end.

(** One element of the timeline: [{"era": ..., "top": ...,
    "centroid_shift_from_prev": ...}]. *)
Record timeline_entry : Type :=
  TimelineEntry {
    entry_era : string;
    entry_top : list top_item;
    centroid_shift_from_prev : float
  }.

(** The returned dict; [error] is the optional ["error"] key. *)
Record timeline_result : Type :=
  TimelineResult {
    concept : string;
    timeline : list timeline_entry;
    error : option string
  }.

(** The loop of [build_timeline_for_query], [prev_centroid] threaded. *)
Fixpoint timeline_loop (query_emb : list float) (top_n : Z)
         (eras : list era_data) (prev_centroid : option ndarray)
  : result (list timeline_entry) :=
  match eras with
  | [] => Ok []
  | e :: rest =>
      bind (top_similar_in_era query_emb (era_items e) top_n) (fun top =>
      bind (compute_centroid (era_items e)) (fun centroid =>
      bind (match prev_centroid with
            | Some _ => centroid_shift_score prev_centroid centroid
            | None => Ok 0%float
            end) (fun shift =>
      bind (timeline_loop query_emb top_n rest centroid) (fun later =>
      Ok (TimelineEntry (era_name e) top shift :: later)))))
  end.

(** [build_timeline_for_query(concept, query_emb, top_n)] *)
Definition build_timeline_for_query (fs : filesystem) (concept : string)
           (query_emb : list float) (top_n : Z) (c : eras_cache)
  : result timeline_result * eras_cache :=
  match load_all_eras fs concept c with
  | (Raise e, c') =>
      match exn_cls e with
      | FileNotFoundError =>
          (Ok (TimelineResult concept [] (Some (exn_msg e))), c')
      | _ => (Raise e, c')
      end
  | (Ok [], c') => (Ok (TimelineResult concept [] None), c')
  | (Ok eras, c') =>
      (bind (timeline_loop query_emb top_n eras None) (fun result =>
       Ok (TimelineResult concept result None)), c')
  end.

End WithNumpy.

End Utils.

(* ------------------------------------------------------------------ *)
(** ** [api/etymology_service.py] *)

(** [json.loads]: the decoded document, or the message of the
    [JSONDecodeError] it raises. A text nested so deeply that
    [json.loads] raises [RecursionError] instead has no place here. *)
Class JsonDecoder : Type := {
  json_loads : string -> string + Py.json
}.

Module Etymology.

Import Py.
Local Open Scope string_scope.

(** The two settings the service reads. *)
Record settings : Type :=
  Settings { cache_llm_responses : bool; MAX_EXAMPLES_PER_ERA : Z }.

(** What one call of [client.chat.completions.create] followed by
    [response.choices[0].message.content] does inside the [try] block of
    [_call_openrouter]. *)
Inductive api_outcome : Type :=
| Replied (content : option string)
| RaisedTimeout (msg : string)
| RaisedException (msg : string).

(** The remote model: the outcome of the [n]-th request of the process,
    given its prompt. *)
Definition upstream : Type := nat -> string -> api_outcome.

Definition dquote : string := String (ascii_of_nat 34) EmptyString.
Definition quoted (s : string) : string := dquote ++ s ++ dquote.
Definition nl : string := String Str.newline EmptyString.

Definition lines (ls : list string) : string := Str.join nl ls.

(** [_build_prompt(word, eras, num_examples)] *)
Definition _build_prompt (word : string) (eras : list string)
           (num_examples : Z) : string :=
  lines [
    "Analyze how the word " ++ quoted word
      ++ " evolved across different time periods.";
    EmptyString;
    "For each era below, provide " ++ Str.of_Z num_examples
      ++ " contextual examples that show how people understood and used this word during that period. Focus on:";
    "- Semantic changes and shifts in meaning";
    "- Cultural context and connotations";
    "- Historical usage patterns";
    "- Notable differences from other eras";
    EmptyString;
    "Eras: " ++ Str.join ", " eras;
    EmptyString;
    "Requirements:";
    "- Each example should be a complete phrase or short sentence (10-30 words)";
    "- Show authentic period-appropriate usage";
    "- Capture the essence of how meaning changed";
    "- Be historically accurate and specific";
    EmptyString;
    "Format as valid JSON only (no markdown, no preamble):";
    "{";
    "  " ++ quoted "1900s" ++ ": [";
    "    " ++ quoted "example 1 showing meaning/context" ++ ",";
    "    " ++ quoted "example 2 showing meaning/context" ++ ",";
    "    ...";
    "  ],";
    "  " ++ quoted "2020s" ++ ": [";
    "    " ++ quoted "example 1 showing meaning/context" ++ ",";
    "    ...";
    "  ]";
    "}"
  ].

(** The body of [_call_openrouter], before decoration. The state is the
    number of requests sent so far. An empty (or absent) content raises
    [OpenRouterError] inside the [try]; the [except TimeoutError] clause
    re-raises; the [except Exception] clause wraps anything else,
    including that [OpenRouterError], in a new [OpenRouterError]. *)
Definition call_openrouter_once (up : upstream) (prompt : string)
           (calls : nat) : result string * nat :=
  let attempt : result string :=
    match up calls prompt with
    | Replied (Some content) =>
        if String.eqb content EmptyString
        then Raise (Exn OpenRouterError "Empty response from OpenRouter")
        else Ok content
    | Replied None =>
        Raise (Exn OpenRouterError "Empty response from OpenRouter")
    | RaisedTimeout msg => Raise (Exn TimeoutError msg)
    | RaisedException msg => Raise (Exn OtherException msg)
    end in
  (match attempt with
   | Ok content => Ok content
   | Raise e =>
       match exn_cls e with
       | TimeoutError => Raise e
       | _ => Raise (Exn OpenRouterError ("API call failed: " ++ exn_msg e))
       end
   end, S calls).

(** [tenacity.retry(stop=stop_after_attempt(n), retry=..., reraise=True)]
    around a stateful function. After a failed attempt: an exception the
    predicate rejects is raised at once; otherwise, when the attempt was
    the last allowed one, that same exception is re-raised; otherwise the
    function is called again. [remaining] is the number of attempts still
    allowed after the current one. The waits between attempts are not
    part of the state. *)
Fixpoint retry_from {W A} (remaining : nat) (retry_if : exn -> bool)
         (f : W -> result A * W) (w : W) : result A * W :=
  let (r, w') := f w in
  match r with
  | Ok a => (Ok a, w')
  | Raise e =>
      if retry_if e then
        match remaining with
        | O => (Raise e, w')
        | S k => retry_from k retry_if f w'
        end
      else (Raise e, w')
  end.

Definition retry {W A} (stop_after_attempt : nat) (retry_if : exn -> bool)
           (f : W -> result A * W) : W -> result A * W :=
  retry_from (stop_after_attempt - 1) retry_if f.

(** [retry_if_exception_type((OpenRouterError, TimeoutError))] *)
Definition retry_if_exception_type (classes : list exn_class) (e : exn)
  : bool :=
  existsb (exn_class_eqb (exn_cls e)) classes.

(** The failures [_call_openrouter] is retried on. *)
Definition transient : exn -> bool :=
  retry_if_exception_type [OpenRouterError; TimeoutError].

(** [_call_openrouter(prompt)], decorated. *)
Definition _call_openrouter (up : upstream) (prompt : string)
  : nat -> result string * nat :=
  retry 3 (retry_if_exception_type [OpenRouterError; TimeoutError])
        (call_openrouter_once up prompt).

(** The loop of [_parse_response] over [data.items()]. *)
Fixpoint all_str (examples : list json) : option (list string) :=
  match examples with
  | [] => Some []
  | JStr s :: rest =>
      match all_str rest with
      | Some ss => Some (s :: ss)
      | None => None
      end
  | _ :: _ => None
  end.

Fixpoint check_eras (data : list (string * json))
  : result (list (string * list string)) :=
  match data with
  | [] => Ok []
  | (era, examples) :: rest =>
      match examples with
      | JArr l =>
          match all_str l with
          | Some ss =>
              bind (check_eras rest) (fun out => Ok ((era, ss) :: out))
          | None =>
              Raise (Exn ValueError
                       ("Era '" ++ era ++ "' contains non-string examples"))
          end
      | _ =>
          Raise (Exn ValueError ("Era '" ++ era ++ "' does not contain a list"))
      end
  end.

(** The fence stripping at the head of [_parse_response]. *)
Definition strip_fences (content : string) : string :=
  let content := Str.strip content in
  if Str.startswith content "```" then
    let content := Str.join nl (slice_1_m1 (Str.split Str.newline content)) in
    if Str.startswith content "json" then Str.strip (Str.drop 4 content)
    else content
  else content.

Section WithDecoder.

Context {JD : JsonDecoder}.

(** [_parse_response(content)] *)
Definition _parse_response (content : string)
  : result (list (string * list string)) :=
  match json_loads (strip_fences content) with
  | inl msg => Raise (Exn ValueError ("Invalid JSON response: " ++ msg))
  | inr (JObj data) => check_eras data
  | inr _ => Raise (Exn ValueError "Response is not a JSON object")
  end.

(** The key of [_cached_generation]: [(word, eras_tuple, num_examples)]. *)
Definition key : Type := string * list string * Z.

Fixpoint list_eqb (a b : list string) : bool :=
  match a, b with
  | [], [] => true
  | x :: a', y :: b' => String.eqb x y && list_eqb a' b'
  | _, _ => false
  end.

Definition key_eqb (a b : key) : bool :=
  let '(w1, e1, n1) := a in
  let '(w2, e2, n2) := b in
  String.eqb w1 w2 && list_eqb e1 e2 && Z.eqb n1 n2.

(** The state of the service: the cache of [_cached_generation] and the
    number of requests sent upstream. *)
Record state : Type :=
  State { llm_cache : Lru.cache key string; upstream_calls : nat }.

(** [@lru_cache(maxsize=100) _cached_generation(word, eras_tuple,
    num_examples)] *)
Definition _cached_generation (up : upstream) (word : string)
           (eras_tuple : list string) (num_examples : Z) (st : state)
  : result string * state :=
  let k : key := (word, eras_tuple, num_examples) in
  match Lru.lookup key_eqb k (llm_cache st) with
  | Some content =>
      (Ok content,
       State (Lru.touch key_eqb k content (llm_cache st)) (upstream_calls st))
  | None =>
      let prompt := _build_prompt word eras_tuple num_examples in
      match _call_openrouter up prompt (upstream_calls st) with
      | (Ok content, calls) =>
          (Ok content, State (Lru.store 100 k content (llm_cache st)) calls)
      | (Raise e, calls) => (Raise e, State (llm_cache st) calls)
      end
  end.

(** The loop [for era in eras: if not era.strip(): raise]. *)
Fixpoint check_era_names (eras : list string) : result unit :=
  match eras with
  | [] => Ok tt
  | era :: rest =>
      if String.eqb (Str.strip era) EmptyString
      then Raise (Exn ValueError ("Invalid era: '" ++ era ++ "'"))
      else check_era_names rest
  end.

(** [generate_word_evolution(word, eras, num_examples)] *)
Definition generate_word_evolution (cfg : settings) (up : upstream)
           (word : string) (eras : list string) (num_examples : Z)
           (st : state)
  : result (list (string * list string)) * state :=
  if String.eqb word EmptyString || String.eqb (Str.strip word) EmptyString
  then (Raise (Exn ValueError "Word cannot be empty"), st)
  else
    let word := Str.lower (Str.strip word) in
    match eras with
    | [] => (Raise (Exn ValueError "Must provide at least one era"), st)
    | _ =>
        if (num_examples <? 1)%Z
           || (MAX_EXAMPLES_PER_ERA cfg <? num_examples)%Z
        then (Raise (Exn ValueError
                       ("num_examples must be between 1 and "
                        ++ Str.of_Z (MAX_EXAMPLES_PER_ERA cfg))), st)
        else
          match check_era_names eras with
          | Raise e => (Raise e, st)
          | Ok _ =>
              let '(content, st') :=
                if cache_llm_responses cfg
                then _cached_generation up word eras num_examples st
                else
                  let prompt := _build_prompt word eras num_examples in
                  let '(r, calls) :=
                    _call_openrouter up prompt (upstream_calls st) in
                  (r, State (llm_cache st) calls) in
              (try_except
                 (bind content _parse_response)
                 [OpenRouterError; TimeoutError; ValueError]
                 (fun e => Raise e),
               st')
          end
    end.

End WithDecoder.

End Etymology.

(* ------------------------------------------------------------------ *)
(** ** Executable instances of the library interfaces

    Used to evaluate the closed examples; the general theorems hold for
    every instance. *)

Module Model.

Import Py.
Local Open Scope string_scope.

(** *** Arrays of rank at most two *)

Inductive arr : Type :=
| Scalar (x : float)
| Vector (v : list float)
| Matrix (rows : list (list float)).

(** The nearest binary64 number to an integer; Python raises
    [OverflowError] when there is none. *)
Definition float_of_Z (z : Z) : result float :=
  let f := SF2Prim (binary_normalize 53 1024 z 0 false) in
  if PrimFloat.is_infinity f
  then Raise (Exn OtherException "int too large to convert to float")
  else Ok f.

Definition float_of_nat (n : nat) : float :=
  SF2Prim (binary_normalize 53 1024 (Z.of_nat n) 0 false).

(** One cell of [np.array(..., dtype=float)]. *)
Definition cell (j : json) : result float :=
  match j with
  | JInt z => float_of_Z z
  | JFloat f => Ok f
  | JBool b => Ok (if b then 1%float else 0%float)
  | JNull => Ok PrimFloat.nan
  | JStr _ => Raise (Exn ValueError "could not convert string to float")
  | JArr _ =>
      Raise (Exn ValueError "setting an array element with a sequence")
  | JObj _ =>
      Raise (Exn TypeError "float() argument must be a string or a real number, not 'dict'")
  end.

Fixpoint cells (l : list json) : result (list float) :=
  match l with
  | [] => Ok []
  | j :: rest =>
      bind (cell j) (fun x => bind (cells rest) (fun xs => Ok (x :: xs)))
  end.

(** [np.array(v, dtype=float)] for scalars and flat lists; a nested list
    is outside this instance and raises. *)
Definition array_float (j : json) : result arr :=
  match j with
  | JArr l => bind (cells l) (fun v => Ok (Vector v))
  | _ => bind (cell j) (fun x => Ok (Scalar x))
  end.

Fixpoint all_vectors (n : nat) (embs : list arr) : option (list (list float)) :=
  match embs with
  | [] => Some []
  | Vector v :: rest =>
      if Nat.eqb (List.length v) n then
        match all_vectors n rest with
        | Some rows => Some (v :: rows)
        | None => None
        end
      else None
  | _ :: _ => None
  end.

Fixpoint all_scalars (embs : list arr) : option (list float) :=
  match embs with
  | [] => Some []
  | Scalar x :: rest =>
      match all_scalars rest with
      | Some xs => Some (x :: xs)
      | None => None
      end
  | _ :: _ => None
  end.

(** [np.array(embs)]: equal-length vectors stack into a matrix, scalars
    into a vector; ragged input raises [ValueError]. *)
Definition array_stack (embs : list arr) : result arr :=
  let ragged :=
    Raise (Exn ValueError "setting an array element with a sequence. The requested array has an inhomogeneous shape") in
  match embs with
  | [] => Ok (Vector [])
  | Vector v :: _ =>
      match all_vectors (List.length v) embs with
      | Some rows => Ok (Matrix rows)
      | None => ragged
      end
  | Scalar _ :: _ =>
      match all_scalars embs with
      | Some xs => Ok (Vector xs)
      | None => ragged
      end
  | Matrix _ :: _ => ragged
  end.

Definition size (a : arr) : nat :=
  match a with
  | Scalar _ => 1
  | Vector v => List.length v
  | Matrix rows => List.length (List.concat rows)
  end.

Definition fsum (v : list float) : float :=
  fold_left PrimFloat.add v 0%float.

Definition dot (u v : list float) : float :=
  fsum (map (fun p => PrimFloat.mul (fst p) (snd p)) (combine u v)).

(** [sklearn.preprocessing.normalize]: a row divided by its Euclidean
    norm, a row of zero norm left as it is. *)
Definition normalize (v : list float) : list float :=
  let n := PrimFloat.sqrt (dot v v) in
  let n := if PrimFloat.eqb n 0%float then 1%float else n in
  map (fun x => PrimFloat.div x n) v.

Definition finite (x : float) : bool :=
  negb (PrimFloat.is_nan x) && negb (PrimFloat.is_infinity x).

(** What [check_pairwise_arrays] demands of one argument: rank two, at
    least one row, at least one column, equal row lengths, finite
    entries. *)
Definition checked_rows (a : arr) : option (nat * list (list float)) :=
  match a with
  | Matrix (r :: rows) =>
      let d := List.length r in
      if negb (Nat.eqb d 0)
         && forallb (fun r' => Nat.eqb (List.length r') d) rows
         && forallb (forallb finite) (r :: rows)
      then Some (d, r :: rows)
      else None
  | _ => None
  end.

(** [cosine_similarity(A, B)]: normalised rows of [A] against normalised
    rows of [B]. *)
Definition cosine (a b : arr) : result (list (list float)) :=
  match checked_rows a, checked_rows b with
  | Some (da, ra), Some (db, rb) =>
      if Nat.eqb da db then
        let rb' := map normalize rb in
        Ok (map (fun x => map (dot (normalize x)) rb') ra)
      else Raise (Exn ValueError "Incompatible dimension for X and Y matrices")
  | _, _ => Raise (Exn ValueError "Expected 2D array of finite values")
  end.

(** A stable ascending sort of the positions of [sims]. *)
Fixpoint insert_index (sims : list float) (i : nat) (sorted : list nat)
  : list nat :=
  match sorted with
  | [] => [i]
  | j :: rest =>
      if PrimFloat.ltb (nth i sims 0%float) (nth j sims 0%float)
      then i :: sorted
      else j :: insert_index sims i rest
  end.

Definition argsort (sims : list float) : list nat :=
  fold_left (fun acc i => insert_index sims i acc)
            (seq 0 (List.length sims)) [].

Fixpoint column_sums (acc : list float) (rows : list (list float))
  : list float :=
  match rows with
  | [] => acc
  | r :: rest =>
      column_sums (map (fun p => PrimFloat.add (fst p) (snd p))
                       (combine acc r)) rest
  end.

(** [np.mean(X, axis=0)] *)
Definition mean_axis0 (a : arr) : arr :=
  match a with
  | Scalar x => Scalar x
  | Vector v =>
      Scalar (PrimFloat.div (fsum v) (float_of_nat (List.length v)))
  | Matrix [] => Vector []
  | Matrix (r :: rest) =>
      let n := float_of_nat (S (List.length rest)) in
      Vector (map (fun s => PrimFloat.div s n) (column_sums r rest))
  end.

Definition reshape_1_m1 (a : arr) : result arr :=
  match a with
  | Scalar x => Ok (Matrix [[x]])
  | Vector v => Ok (Matrix [v])
  | Matrix rows => Ok (Matrix [List.concat rows])
  end.

Definition small_numpy : Numpy := {|
  ndarray := arr;
  np_empty := Vector [];
  np_array_float := array_float;
  np_array_stack := array_stack;
  np_size := size;
  np_of_rows := Matrix;
  cosine_similarity := cosine;
  np_argsort := argsort;
  np_mean_axis0 := mean_axis0;
  np_reshape_1_m1 := reshape_1_m1
|}.

(** *** A JSON decoder

    Decodes the fragment of JSON made of objects, arrays, strings with
    the two-character escapes, integers and the three literals. Numbers
    with a fraction or an exponent and [\u] escapes are outside the
    fragment and are reported as undecodable. *)

Inductive token : Type :=
| TLBrace | TRBrace | TLBracket | TRBracket | TColon | TComma
| TString (s : string)
| TInt (z : Z)
| TTrue | TFalse | TNull.

Definition is_json_space (c : ascii) : bool :=
  let n := nat_of_ascii c in
  Nat.eqb n 32 || Nat.eqb n 9 || Nat.eqb n 10 || Nat.eqb n 13.

Definition is_digit (c : ascii) : bool :=
  let n := nat_of_ascii c in Nat.leb 48 n && Nat.leb n 57.

Definition unescape (c : ascii) : option ascii :=
  let n := nat_of_ascii c in
  if Nat.eqb n 34 then Some c                      (* quote *)
  else if Nat.eqb n 92 then Some c                 (* backslash *)
  else if Nat.eqb n 47 then Some c                 (* slash *)
  else if Nat.eqb n 98 then Some (ascii_of_nat 8)  (* b *)
  else if Nat.eqb n 102 then Some (ascii_of_nat 12) (* f *)
  else if Nat.eqb n 110 then Some (ascii_of_nat 10) (* n *)
  else if Nat.eqb n 114 then Some (ascii_of_nat 13) (* r *)
  else if Nat.eqb n 116 then Some (ascii_of_nat 9)  (* t *)
  else None.

(** The body of a string literal, after its opening quote: the decoded
    text and what follows the closing quote. *)
Fixpoint lex_string (s : string) : option (string * string) :=
  match s with
  | EmptyString => None
  | String c rest =>
      let n := nat_of_ascii c in
      if Nat.eqb n 34 then Some (EmptyString, rest)
      else if Nat.ltb n 32 then None
      else if Nat.eqb n 92 then
        match rest with
        | String e rest' =>
            match unescape e, lex_string rest' with
            | Some c', Some (body, after) => Some (String c' body, after)
            | _, _ => None
            end
        | EmptyString => None
        end
      else
        match lex_string rest with
        | Some (body, after) => Some (String c body, after)
        | None => None
        end
  end.

(** The digits at the head of [s], their value after [acc], and the rest. *)
Fixpoint lex_digits (s : string) (acc : Z) (seen : nat)
  : Z * nat * string :=
  match s with
  | String c rest =>
      if is_digit c
      then lex_digits rest (10 * acc + Z.of_nat (nat_of_ascii c - 48))%Z
                      (S seen)
      else (acc, seen, s)
  | EmptyString => (acc, seen, s)
  end.

(** An integer literal may not be followed by a fraction or an exponent
    here, and has no leading zero. *)
Definition lex_int (s : string) : option (Z * string) :=
  let '(z, seen, rest) := lex_digits s 0%Z 0 in
  let leading_zero :=
    Nat.ltb 1 seen && Py.prefixb "0" s in
  let continues :=
    Py.prefixb "." rest || Py.prefixb "e" rest || Py.prefixb "E" rest in
  if Nat.eqb seen 0 || leading_zero || continues then None
  else Some (z, rest).

Fixpoint lex (fuel : nat) (s : string) : option (list token) :=
  match fuel with
  | O => None
  | S fuel' =>
      match s with
      | EmptyString => Some []
      | String c rest =>
          let push t rest := option_map (cons t) (lex fuel' rest) in
          if is_json_space c then lex fuel' rest
          else if Ascii.eqb c "{" then push TLBrace rest
          else if Ascii.eqb c "}" then push TRBrace rest
          else if Ascii.eqb c "[" then push TLBracket rest
          else if Ascii.eqb c "]" then push TRBracket rest
          else if Ascii.eqb c ":" then push TColon rest
          else if Ascii.eqb c "," then push TComma rest
          else if Nat.eqb (nat_of_ascii c) 34 then
            match lex_string rest with
            | Some (body, after) => push (TString body) after
            | None => None
            end
          else if Ascii.eqb c "-" then
            match lex_int rest with
            | Some (z, after) => push (TInt (- z)) after
            | None => None
            end
          else if is_digit c then
            match lex_int s with
            | Some (z, after) => push (TInt z) after
            | None => None
            end
          else if Py.prefixb "true" s then push TTrue (Str.drop 4 s)
          else if Py.prefixb "false" s then push TFalse (Str.drop 5 s)
          else if Py.prefixb "null" s then push TNull (Str.drop 4 s)
          else None
      end
  end.

(** Recursive descent over the tokens. [parse_value] reads one value;
    [parse_elements] reads the rest of an array after a value,
    [parse_members] the rest of an object after a member. *)
Fixpoint parse_value (fuel : nat) (ts : list token)
  : option (json * list token) :=
  match fuel with
  | O => None
  | S fuel' =>
      let fix parse_elements (n : nat) (acc : list json) (ts : list token)
        : option (json * list token) :=
        match n with
        | O => None
        | S n' =>
            match ts with
            | TRBracket :: rest => Some (JArr (rev acc), rest)
            | TComma :: rest =>
                match parse_value fuel' rest with
                | Some (v, rest') => parse_elements n' (v :: acc) rest'
                | None => None
                end
            | _ => None
            end
        end in
      let fix parse_members (n : nat) (acc : list (string * json))
              (ts : list token) : option (json * list token) :=
        match n with
        | O => None
        | S n' =>
            match ts with
            | TRBrace :: rest => Some (JObj acc, rest)
            | TComma :: TString k :: TColon :: rest =>
                match parse_value fuel' rest with
                | Some (v, rest') => parse_members n' (dict_set k v acc) rest'
                | None => None
                end
            | _ => None
            end
        end in
      match ts with
      | TString s :: rest => Some (JStr s, rest)
      | TInt z :: rest => Some (JInt z, rest)
      | TTrue :: rest => Some (JBool true, rest)
      | TFalse :: rest => Some (JBool false, rest)
      | TNull :: rest => Some (JNull, rest)
      | TLBracket :: TRBracket :: rest => Some (JArr [], rest)
      | TLBracket :: rest =>
          match parse_value fuel' rest with
          | Some (v, rest') => parse_elements (List.length rest') [v] rest'
          | None => None
          end
      | TLBrace :: TRBrace :: rest => Some (JObj [], rest)
      | TLBrace :: TString k :: TColon :: rest =>
          match parse_value fuel' rest with
          | Some (v, rest') => parse_members (List.length rest') [(k, v)] rest'
          | None => None
          end
      | _ => None
      end
  end.

Definition loads (s : string) : string + json :=
  match lex (S (String.length s)) s with
  | None => inl "Expecting value"
  | Some ts =>
      match parse_value (S (List.length ts)) ts with
      | Some (v, []) => inr v
      | Some (_, _ :: _) => inl "Extra data"
      | None => inl "Expecting value"
      end
  end.

Definition small_decoder : JsonDecoder := {| json_loads := loads |}.

End Model.

(* ------------------------------------------------------------------ *)
(** ** Orderings of scores *)

Module Ranking.

(** Each element is related to the one that follows it. *)
Fixpoint chain {A} (R : A -> A -> bool) (l : list A) : bool :=
  match l with
  | a :: ((b :: _) as tl) => R a b && chain R tl
  | _ => true
  end.

(** The scores go from the highest to the lowest. *)
Definition descending (scores : list float) : bool :=
  chain (fun a b => PrimFloat.leb b a) scores.

(** The positions [idx] visit [sims] from the lowest score to the
    highest, which is what [np.argsort] promises of its result. *)
Definition ascending_at (sims : list float) (idx : list nat) : bool :=
  chain PrimFloat.leb (map (fun i => nth i sims 0%float) idx).

End Ranking.

(* ------------------------------------------------------------------ *)
(** ** Histories of a process *)

Module History.
(** A call of [load_all_eras]: the disk at that time and the concept. *)
Definition call : Type := (Utils.filesystem * string)%type.

(** The cache after a sequence of calls. *)
Fixpoint after_calls (calls : list call) (c : Utils.eras_cache)
  : Utils.eras_cache :=
  match calls with
  | [] => c
  | (fs, concept) :: rest =>
      after_calls rest (snd (Utils.load_all_eras fs concept c))
  end.
(** The state of the cache in which [concept] is remembered with value
    [eras] and only concepts of [others] were used since. *)
Definition remembered (concept : string) (eras : list Utils.era_data)
           (others : list string) (c : Utils.eras_cache) : Prop :=
  Lru.lookup String.eqb concept c = Some eras
  /\ NoDup (Lru.keys c)
  /\ incl (Lru.ahead String.eqb concept c) others.

End History.

(* ------------------------------------------------------------------ *)
(** ** Concrete inputs for the closed examples *)

Module Examples.
Import Py Utils.
Local Open Scope string_scope.
Local Open Scope float_scope.

Definition item (id text : string) (embedding : list float) : json :=
  JObj [("id", JStr id); ("text", JStr text);
        ("embedding", JArr (map JFloat embedding))].

Definition era_file (its : list json) : file :=
  FileJson (JObj [("items", JArr its)]).

(** A disk with one concept, [freedom], in two eras. *)
Definition freedom_dir : directory :=
  [("2020s.json", era_file [item "freedom_2020s_0" "free to choose" [0; 1]]);
   ("1900s.json", era_file [item "freedom_1900s_0" "free from rule" [1; 0];
                            item "freedom_1900s_1" "free men" [1; 1]])].

Definition disk (concept : string) : option directory :=
  if String.eqb concept "freedom" then Some freedom_dir else None.

(** The same disk after [freedom] was deleted and [privacy] was added. *)
Definition disk_later (concept : string) : option directory :=
  if String.eqb concept "privacy"
  then Some [("1960s.json", era_file [item "privacy_1960s_0" "alone" [1; 0]])]
  else None.

(** An item with all three fields whose embedding is the empty list. *)
Definition hollow_item (id text : string) : json :=
  JObj [("id", JStr id); ("text", JStr text); ("embedding", JArr [])].

(** An era file with one sound item followed by one hollow item. *)
Definition mixed_disk (concept : string) : option directory :=
  if String.eqb concept "liberty"
  then Some [("1900s.json",
              era_file [item "liberty_1900s_0" "liberty of the press" [1; 0];
                        hollow_item "liberty_1900s_1" "at liberty"])]
  else None.

(** A concept with three sound items in [1900s] and only hollow items in
    [2020s]. *)
Definition hollow_era_disk (concept : string) : option directory :=
  if String.eqb concept "privacy"
  then Some [("1900s.json",
              era_file [item "privacy_1900s_0" "privacy of the home" [1; 0];
                        item "privacy_1900s_1" "in privacy" [1; 1];
                        item "privacy_1900s_2" "private rooms" [0; 1]]);
             ("2020s.json",
              era_file [hollow_item "privacy_2020s_0" "privacy settings";
                        hollow_item "privacy_2020s_1" "data privacy"])]
  else None.

(** The scenario of the specification: [2020s.json] has no item at all. *)
Definition empty_era_disk (concept : string) : option directory :=
  if String.eqb concept "privacy"
  then Some [("1900s.json",
              era_file [item "privacy_1900s_0" "privacy of the home" [1; 0];
                        item "privacy_1900s_1" "in privacy" [1; 1];
                        item "privacy_1900s_2" "private rooms" [0; 1]]);
             ("2020s.json", era_file [])]
  else None.

(** A concept directory that exists and holds no era file. *)
Definition bare_disk (concept : string) : option directory :=
  if String.eqb concept "ghost"
  then Some [("README.txt", FileInvalidJson "Expecting value")]
  else None.

(** Three items of distinct directions. *)
Definition spread_items : list json :=
  [item "a" "first" [2; 0]; item "c" "third" [0; 1];
   item "d" "fourth" [1; 1]].

(** Three items, the first two with the same embedding. *)
Definition tied_items : list json :=
  [item "a" "first" [2; 0]; item "b" "second" [2; 0];
   item "c" "third" [0; 1]].

(** An upstream that answers every request with an unbalanced document. *)
Definition broken_upstream : Etymology.upstream :=
  fun _ _ => Etymology.Replied (Some "{").

(** An upstream that answers every request with a well-formed document,
    one example for [1900s]. *)
Definition sound_reply : string :=
  "{" ++ Etymology.quoted "1900s" ++ ": ["
      ++ Etymology.quoted "a right to be let alone" ++ "]}".

Definition sound_upstream : Etymology.upstream :=
  fun _ _ => Etymology.Replied (Some sound_reply).

End Examples.

(* ------------------------------------------------------------------ *)
(** ** [api/main.py]

    The endpoint functions, as Python functions: what FastAPI does
    before calling them (validation of query and body parameters) and
    after they return (validation against the response model) is not
    part of them. An endpoint returns a value or raises
    [HTTPException]. *)

Module Main.

Import Py.
Local Open Scope string_scope.

(** The outcome of an endpoint function. *)
Inductive http (A : Type) : Type :=
| Returned (a : A)
| HTTPException (status_code : nat) (detail : string).
Arguments Returned {A} a.
Arguments HTTPException {A} status_code detail.

(** The settings the endpoints read. *)
Record app_settings : Type :=
  AppSettings {
    etymology : Etymology.settings;
    use_llm_etymology : bool;
    llm_timeout : Z;
    openrouter_model : string;
    sentence_transformer_model : string;
    embeddings_dir : string
  }.

(** The sentence-transformer library at the time of a call: what
    constructing the model does, and what [model.encode(...)] followed
    by [tolist()] gives for one text and for a list of texts. *)
Record encoder : Type :=
  Encoder {
    load_model : result unit;
    encode : string -> result (list float);
    encode_batch : list string -> result (list (list float))
  }.

(** The disk: for each root directory, the concept directories under
    it. [utils.py] reads under the root [embeddings]; [main.py] checks
    and writes under [settings.embeddings_dir]. Names are single path
    components, and different names are different files. *)
Definition disk : Type := string -> Utils.filesystem.

Definition BASE_EMBED_DIR : string := "embeddings".

(** [concept_dir.mkdir(parents=True, exist_ok=True)], for a concept that
    is a single path component. *)
Definition mkdir (d : disk) (root concept : string) : disk :=
  fun r c =>
    if String.eqb r root && String.eqb c concept
    then Some (match d r c with Some dir => dir | None => [] end)
    else d r c.

(** Writing the file [name] of an existing concept directory, replacing
    it if it is there. The file holds what [json.load] will make of
    what [json.dump] wrote: the document itself. The write itself is
    taken to succeed: the texts are taken to be encodable as UTF-8 and
    the disk to accept the file. The concept and the name are single
    path components: a name holding [/] or [..] would be written
    elsewhere, which is not followed. *)
Definition write_json (d : disk) (root concept name : string) (js : json)
  : disk :=
  fun r c =>
    if String.eqb r root && String.eqb c concept
    then Some (dict_set name (Utils.FileJson js)
                        (match d r c with Some dir => dir | None => [] end))
    else d r c.

(** The state of the process: the etymology service, the memo of
    [load_all_eras], and whether [_model] is set. *)
Record app : Type :=
  App {
    service : Etymology.state;
    eras_memo : Utils.eras_cache;
    model_loaded : bool
  }.

(** [get_model()] *)
Definition get_model (enc : encoder) (st : app) : result unit * app :=
  if model_loaded st then (Ok tt, st)
  else
    match load_model enc with
    | Ok _ => (Ok tt, App (service st) (eras_memo st) true)
    | Raise e => (Raise e, st)
    end.

(** [s.endswith(suffix)] *)
Definition endswith (s suffix : string) : bool :=
  (String.length suffix <=? String.length s)%nat
  && String.eqb (Str.drop (String.length s - String.length suffix) s) suffix.



Section WithLibraries.

Context {NP : Numpy} {JD : JsonDecoder}.

(** [timeline(concept, top_n)] *)
Definition timeline (cfg : app_settings) (enc : encoder) (d : disk)
           (concept : string) (top_n : Z) (st : app)
  : http Utils.timeline_result * app :=
  match d (embeddings_dir cfg) concept with
  | None =>
      (HTTPException 404
         ("Concept '" ++ concept
          ++ "' not found. Generate embeddings first using /build-embeddings"),
       st)
  | Some _ =>
      let failed (e : exn) :=
        HTTPException 500 ("Failed to build timeline: " ++ exn_msg e) in
      match get_model enc st with
      | (Raise e, st1) => (failed e, st1)
      | (Ok _, st1) =>
          match encode enc concept with
          | Raise e => (failed e, st1)
          | Ok query_emb =>
              match Utils.build_timeline_for_query
                      (d BASE_EMBED_DIR) concept query_emb top_n
                      (eras_memo st1) with
              | (Raise e, memo) =>
                  (failed e, App (service st1) memo (model_loaded st1))
              | (Ok timeline_data, memo) =>
                  (Returned timeline_data,
                   App (service st1) memo (model_loaded st1))
              end
          end
      end
  end.

(** The dict returned by [era]. *)
Record era_response : Type :=
  EraResponse {
    era_concept : string;
    era_era : string;
    era_top : list Utils.top_item;
    total_items : nat
  }.

(** [era(concept, era, top_n)] *)
Definition era (enc : encoder) (d : disk) (concept era : string)
           (top_n : Z) (st : app) : http era_response * app :=
  let era_file := if negb (endswith era ".json") then era ++ ".json"
                  else era in
  match Utils.load_era_items (d BASE_EMBED_DIR) concept era_file with
  | Raise e =>
      match exn_cls e with
      | FileNotFoundError =>
          (HTTPException 404
             ("Era '" ++ era ++ "' not found for concept '" ++ concept ++ "'"),
           st)
      | _ =>
          (HTTPException 500 ("Failed to load era data: " ++ exn_msg e), st)
      end
  | Ok items =>
      let failed (e : exn) :=
        HTTPException 500 ("Failed to compute similarities: " ++ exn_msg e) in
      match get_model enc st with
      | (Raise e, st1) => (failed e, st1)
      | (Ok _, st1) =>
          match encode enc concept with
          | Raise e => (failed e, st1)
          | Ok query_emb =>
              match Utils.top_similar_in_era query_emb items top_n with
              | Raise e => (failed e, st1)
              | Ok top =>
                  (Returned (EraResponse concept era top (List.length items)),
                   st1)
              end
          end
      end
  end.

(** The dict returned by [generate_evolution]. *)
Record evolution_response : Type :=
  EvolutionResponse {
    ev_word : string;
    ev_eras : list string;
    evolution : list (string * list string);
    total_examples : nat;
    ev_model : string
  }.

(** [sum(len(examples) for examples in evolution_data.values())] *)
Definition count_examples (evolution_data : list (string * list string))
  : nat :=
  fold_left (fun acc p => acc + List.length (snd p))%nat evolution_data 0%nat.

(** [generate_evolution(word, eras, num_examples)] *)
Definition generate_evolution (cfg : app_settings) (up : Etymology.upstream)
           (word : string) (eras : list string) (num_examples : Z)
           (st : app) : http evolution_response * app :=
  if negb (use_llm_etymology cfg) then
    (HTTPException 503 "LLM etymology is disabled in configuration", st)
  else
    let '(r, sv) :=
      Etymology.generate_word_evolution (etymology cfg) up word eras
                                        num_examples (service st) in
    let st1 := App sv (eras_memo st) (model_loaded st) in
    match r with
    | Ok evolution_data =>
        (Returned (EvolutionResponse word eras evolution_data
                     (count_examples evolution_data)
                     (openrouter_model cfg)), st1)
    | Raise e =>
        match exn_cls e with
        | ValueError => (HTTPException 400 (exn_msg e), st1)
        | OpenRouterError =>
            (HTTPException 500 ("LLM API error: " ++ exn_msg e), st1)
        | TimeoutError =>
            (HTTPException 504
               ("Request timed out after " ++ Str.of_Z (llm_timeout cfg)
                ++ "s"), st1)
        | _ =>
            (HTTPException 500 ("Unexpected error: " ++ exn_msg e), st1)
        end
    end.

(** One persisted item: [{"id": ..., "text": ..., "era": ...,
    "embedding": ...}]. *)
Definition make_item (word era : string) (i : nat) (text : string)
           (emb : list float) : json :=
  JObj [("id", JStr (word ++ "_" ++ era ++ "_" ++ Str.of_nat i));
        ("text", JStr text);
        ("era", JStr era);
        ("embedding", JArr (map JFloat emb))].

(** The loop [for i, (text, emb) in enumerate(zip(texts, embs))]. *)
Fixpoint make_items (word era : string) (i : nat) (texts : list string)
         (embs : list (list float)) : list json :=
  match texts, embs with
  | text :: texts', emb :: embs' =>
      make_item word era i text emb :: make_items word era (S i) texts' embs'
  | _, _ => []
  end.

(** The document written for one era. *)
Definition era_record (cfg : app_settings) (word era : string)
           (items : list json) : json :=
  JObj [("items", JArr items);
        ("meta",
         JObj [("concept", JStr word);
               ("era", JStr era);
               ("count", JInt (Z.of_nat (List.length items)));
               ("model", JStr (openrouter_model cfg));
               ("embedding_model", JStr (sentence_transformer_model cfg))])].

(** [str(concept_dir / f"{era}.json")] *)
Definition output_path (cfg : app_settings) (word era : string) : string :=
  embeddings_dir cfg ++ "/" ++ word ++ "/" ++ era ++ ".json".

(** The loop of [build_embeddings_endpoint] over the eras, with the
    disk, [embeddings_created] and [total_items] threaded. An exception
    leaves the disk as the loop had it by then. *)
Fixpoint write_eras (cfg : app_settings) (enc : encoder) (word : string)
         (evolution_data : list (string * list string)) (eras : list string)
         (d : disk) (embeddings_created : list string) (total : nat)
  : result (list string * nat) * disk :=
  match eras with
  | [] => (Ok (embeddings_created, total), d)
  | era :: rest =>
      match assoc era evolution_data with
      | None =>
          write_eras cfg enc word evolution_data rest d embeddings_created
                     total
      | Some [] =>
          write_eras cfg enc word evolution_data rest d embeddings_created
                     total
      | Some texts =>
          match encode_batch enc texts with
          | Raise e => (Raise e, d)
          | Ok embs =>
              let items := make_items word era 0 texts embs in
              let d' := write_json d (embeddings_dir cfg) word
                                   (era ++ ".json")
                                   (era_record cfg word era items) in
              write_eras cfg enc word evolution_data rest d'
                         (embeddings_created ++ [output_path cfg word era])
                         (total + List.length items)
          end
      end
  end.

(** The dict returned by [build_embeddings_endpoint]. *)
Record build_response : Type :=
  BuildResponse {
    b_word : string;
    b_eras : list string;
    embeddings_files : list string;
    b_total_items : nat;
    llm_model : string;
    embedding_model : string;
    message : string
  }.

(** [build_embeddings_endpoint(word, eras, num_examples)]: the disk is
    read and written. *)
Definition build_embeddings_endpoint (cfg : app_settings)
           (up : Etymology.upstream) (enc : encoder) (d : disk)
           (word : string) (eras : list string) (num_examples : Z)
           (st : app) : http build_response * disk * app :=
  match generate_evolution cfg up word eras num_examples st with
  | (HTTPException status_code detail, st1) =>
      (HTTPException status_code detail, d, st1)
  | (Returned evolution_result, st1) =>
      let evolution_data := evolution evolution_result in
      let failed (e : exn) :=
        HTTPException 500 ("Embedding creation failed: " ++ exn_msg e) in
      match get_model enc st1 with
      | (Raise e, st2) => (failed e, d, st2)
      | (Ok _, st2) =>
          let d1 := mkdir d (embeddings_dir cfg) word in
          match write_eras cfg enc word evolution_data eras d1 [] 0 with
          | (Raise e, d2) => (failed e, d2, st2)
          | (Ok (embeddings_created, total), d2) =>
              (Returned
                 (BuildResponse word eras embeddings_created total
                    (openrouter_model cfg) (sentence_transformer_model cfg)
                    ("Successfully created embeddings for "
                     ++ Str.of_nat (List.length embeddings_created)
                     ++ " eras (" ++ Str.of_nat total ++ " items)")),
               d2, st2)
          end
      end
  end.

End WithLibraries.

End Main.

(* ------------------------------------------------------------------ *)
(** ** [scripts/build_embeddings.py]

    The script that precomputes the era files from the text files of the
    data directory. What it prints is left out. *)

Module Script.

Import Py.
Local Open Scope string_scope.

(** A text file that exists and decodes, as the lines that iterating
    over it yields, each with its line end. *)
Definition text_file : Type := list string.

(** The data directory: its files by name. *)
Definition data_dir : Type := string -> option text_file.

(** [read_csv_lines(path)] *)
Fixpoint read_csv_lines (f : text_file) : list string :=
  match f with
  | [] => []
  | ln :: rest =>
      let ln := Str.strip ln in
      if negb (String.eqb ln EmptyString) then ln :: read_csv_lines rest
      else read_csv_lines rest
  end.

(** The loop [for i, (t, e) in enumerate(zip(texts, embs))] of
    [build_embeddings_for]. The encoder gives rows that have [tolist]. *)
Fixpoint items_of (concept era : string) (i : nat) (texts : list string)
         (embs : list (list float)) : list json :=
  match texts, embs with
  | t :: texts', e :: embs' =>
      JObj [("id", JStr (concept ++ "_" ++ era ++ "_" ++ Str.of_nat i));
            ("text", JStr t);
            ("era", JStr era);
            ("embedding", JArr (map JFloat e))]
      :: items_of concept era (S i) texts' embs'
  | _, _ => []
  end.

(** The document written for one era. *)
Definition era_record (concept era : string) (items : list json) : json :=
  JObj [("items", JArr items);
        ("meta",
         JObj [("concept", JStr concept);
               ("era", JStr era);
               ("count", JInt (Z.of_nat (List.length items)))])].

(** The loop of [build_embeddings_for] over the eras, with the disk
    threaded. An exception leaves the disk as the loop had it by
    then. *)
Fixpoint eras_loop (enc : Main.encoder) (data : data_dir)
         (concept : string) (eras : list string) (out_base : string)
         (d : Main.disk) : result unit * Main.disk :=
  match eras with
  | [] => (Ok tt, d)
  | era :: rest =>
      let csv_name := era ++ "_" ++ concept ++ ".csv" in
      match data csv_name with
      | None => eras_loop enc data concept rest out_base d
      | Some f =>
          match read_csv_lines f with
          | [] => eras_loop enc data concept rest out_base d
          | texts =>
              match Main.encode_batch enc texts with
              | Raise e => (Raise e, d)
              | Ok embs =>
                  let items := items_of concept era 0 texts embs in
                  let d1 := Main.mkdir d out_base concept in
                  let d2 := Main.write_json d1 out_base concept
                                            (era ++ ".json")
                                            (era_record concept era items) in
                  eras_loop enc data concept rest out_base d2
              end
          end
      end
  end.

(** [build_embeddings_for(concept, eras, out_base, data_base)]: [data]
    is the directory [data_base]. The model is constructed first. *)
Definition build_embeddings_for (enc : Main.encoder) (data : data_dir)
           (concept : string) (eras : list string) (out_base : string)
           (d : Main.disk) : result unit * Main.disk :=
  match Main.load_model enc with
  | Raise e => (Raise e, d)
  | Ok _ => eras_loop enc data concept eras out_base d
  end.

(** [[e.strip() for e in args.eras.split(",") if e.strip()]] in
    [main]. *)
Fixpoint stripped_nonempty (parts : list string) : list string :=
  match parts with
  | [] => []
  | e :: rest =>
      if negb (String.eqb (Str.strip e) EmptyString)
      then Str.strip e :: stripped_nonempty rest
      else stripped_nonempty rest
  end.

Definition comma : ascii := ascii_of_nat 44.

(** [main()], given the parsed arguments [--concept], [--eras],
    [--data-dir] and [--out-dir]; [data_dirs] gives the directory of
    each name. *)
Definition main (enc : Main.encoder) (data_dirs : string -> data_dir)
           (arg_concept arg_eras arg_data_dir arg_out_dir : string)
           (d : Main.disk) : result unit * Main.disk :=
  let eras := stripped_nonempty (Str.split comma arg_eras) in
  build_embeddings_for enc (data_dirs arg_data_dir) arg_concept eras
                       arg_out_dir d.

End Script.

(* ------------------------------------------------------------------ *)
(** ** [api/generateimage.py]

    The image endpoint. The remote service, the environment and the
    base64 decoder are given by what they answer; the folders of
    [public/images] are the disk. *)

Module GenerateImage.

Import Py.
Local Open Scope string_scope.

(** [GenerateImageRequest] *)
Record request : Type := Request { prompt : string; category : string }.

Definition allowed_categories : list string :=
  ["ancient"; "modern"; "patterns"; "icons"; "backgrounds"].

(** [str(allowed_categories)] *)
Definition allowed_categories_repr : string :=
  "['ancient', 'modern', 'patterns', 'icons', 'backgrounds']".

(** [c.isalnum()] on the ASCII range: the digits and the letters. *)
Definition isalnum (c : ascii) : bool :=
  let n := nat_of_ascii c in
  (((48 <=? n) && (n <=? 57)) || ((65 <=? n) && (n <=? 90))
   || ((97 <=? n) && (n <=? 122)))%nat.

Definition dash : ascii := ascii_of_nat 45.

(** The join, with the empty separator, of [c if c.isalnum() else "-"
    for c in s]. *)
Fixpoint dashed (s : string) : string :=
  match s with
  | EmptyString => EmptyString
  | String c s' => String (if isalnum c then c else dash) (dashed s')
  end.

(** [safe_name], from the prompt. *)
Definition safe_name (prompt : string) : string := dashed (Str.lower prompt).

(** A folder of [public/images]: its entries by name, with their
    bytes. *)
Definition folder : Type := list (string * string).

(** The folders of [public/images] by category, for those that
    exist. *)
Definition images : Type := string -> option folder.

(** [file_path.exists()] for a name in the folder. *)
Definition file_exists (name : string) (dir : folder) : bool :=
  match assoc name dir with Some _ => true | None => false end.

(** [f"{safe_name}-{counter}.png"] *)
Definition numbered (safe_name : string) (counter : nat) : string :=
  safe_name ++ "-" ++ Str.of_nat counter ++ ".png".

(** The loop [while file_path.exists()], run for at most [fuel] tests of
    the condition: the name the loop ends with, if it ends by then. *)
Fixpoint free_path (fuel : nat) (dir : folder) (safe_name : string)
         (counter : nat) (file_path : string) : option string :=
  match fuel with
  | O => None
  | S fuel' =>
      if file_exists file_path dir
      then free_path fuel' dir safe_name (S counter)
                     (numbered safe_name counter)
      else Some file_path
  end.

(** What [requests.post] returned: the status code, the text of the
    body, and what [response.json()] gives. *)
Record response : Type :=
  Response {
    status_code : nat;
    text : string;
    json_body : result json
  }.

(** The world outside: the two environment variables, the remote
    service as a function of the key, the model key and the prompt, and
    [base64.b64decode] on a decoded JSON value. *)
Record environment : Type :=
  Environment {
    BANANA_API_KEY : option string;
    BANANA_MODEL_KEY : option string;
    post : string -> string -> string -> result response;
    b64decode : json -> result string
  }.

(** [not os.environ.get(name)] *)
Definition unset (v : option string) : bool :=
  match v with
  | None => true
  | Some s => String.eqb s EmptyString
  end.

(** [outputs[0]] on a decoded JSON value. *)
Definition first_of (outputs : json) : result json :=
  match outputs with
  | JArr (x :: _) => Ok x
  | JArr [] => Raise (Exn IndexError "list index out of range")
  | JStr (String c _) => Ok (JStr (String c EmptyString))
  | JStr EmptyString => Raise (Exn IndexError "string index out of range")
  | JObj _ => Raise (Exn KeyError "0")
  | _ => Raise (Exn TypeError "object is not subscriptable")
  end.

(** [data.get("modelOutputs", [{}])[0].get("image_base64")] *)
Definition image_of (data : json) : result json :=
  bind (py_get data "modelOutputs" (JArr [JObj []])) (fun outputs =>
  bind (first_of outputs) (fun first =>
  py_get first "image_base64" JNull)).

(** [folder.mkdir(parents=True, exist_ok=True)] *)
Definition mkdir (d : images) (category : string) : images :=
  fun c =>
    if String.eqb c category
    then Some (match d c with Some dir => dir | None => [] end)
    else d c.

(** Writing the bytes of the entry [name] of an existing folder. *)
Definition write_bytes (d : images) (category name bytes : string)
  : images :=
  fun c =>
    if String.eqb c category
    then Some (dict_set name bytes
                        (match d c with Some dir => dir | None => [] end))
    else d c.

Definition HTTPException_500 (detail : string) : Main.http string :=
  Main.HTTPException 500 detail.

(** [generate_image(req)], with the loop over the file names run for at
    most [fuel] tests: [None] when the loop has not ended by then.
    [open(file_path, "wb")] creates the file before the image is
    decoded. *)
Definition generate_image (env : environment) (fuel : nat) (req : request)
           (d : images) : option (Main.http string * images) :=
  if negb (existsb (String.eqb (category req)) allowed_categories)
  then Some (Main.HTTPException 400
               ("Invalid category '" ++ category req ++ "'. Allowed: "
                ++ allowed_categories_repr), d)
  else if unset (BANANA_API_KEY env) || unset (BANANA_MODEL_KEY env)
  then Some (HTTPException_500
               "Banana API keys are not configured in environment variables",
             d)
  else
    let banana_api_key :=
      match BANANA_API_KEY env with Some k => k | None => EmptyString end in
    let banana_model_key :=
      match BANANA_MODEL_KEY env with Some k => k | None => EmptyString end in
    match post env banana_api_key banana_model_key (prompt req) with
    | Raise e => Some (HTTPException_500 (exn_msg e), d)
    | Ok resp =>
        if negb (Nat.eqb (status_code resp) 200)
        then Some (HTTPException_500 ("Banana API error: " ++ text resp), d)
        else
          match bind (json_body resp) image_of with
          | Raise e => Some (HTTPException_500 (exn_msg e), d)
          | Ok base64_img =>
              if negb (py_truthy base64_img)
              then Some (HTTPException_500
                           "No image returned from Banana API", d)
              else
                let name := safe_name (prompt req) in
                let d1 := mkdir d (category req) in
                let dir := match d1 (category req) with
                           | Some dir => dir
                           | None => []
                           end in
                match free_path fuel dir name 1 (name ++ ".png") with
                | None => None
                | Some file_path =>
                    let d2 := write_bytes d1 (category req) file_path
                                          EmptyString in
                    match b64decode env base64_img with
                    | Raise e => Some (HTTPException_500 (exn_msg e), d2)
                    | Ok bytes =>
                        Some (Main.Returned
                                ("/images/" ++ category req ++ "/"
                                 ++ file_path),
                              write_bytes d2 (category req) file_path bytes)
                    end
                end
          end
    end.

End GenerateImage.

(* ------------------------------------------------------------------ *)
(** ** Further concrete inputs *)

Module Fixtures.

Import Py.
Local Open Scope string_scope.

(** An upstream on which every request times out. *)
Definition timeout_upstream : Etymology.upstream :=
  fun _ _ => Etymology.RaisedTimeout "Request timed out.".

(** An era file in which a number sits among the items, next to a sound
    era file. *)
Definition poisoned_disk (concept : string) : option Utils.directory :=
  if String.eqb concept "liberty"
  then Some [("1900s.json",
              Examples.era_file
                [Examples.item "liberty_1900s_0" "liberty of the press"
                               [1; 0]%float]);
             ("2020s.json",
              Examples.era_file
                [Examples.item "liberty_2020s_0" "civil liberties"
                               [0; 1]%float;
                 JInt 5])]
  else None.

(** Three eras: sound items in [1900s] and [2020s], of very different
    directions, and only items without numbers in [1960s]. *)
Definition gap_disk (concept : string) : option Utils.directory :=
  if String.eqb concept "privacy"
  then Some [("1900s.json",
              Examples.era_file
                [Examples.item "privacy_1900s_0" "privacy of the home"
                               [1; 0]%float]);
             ("1960s.json",
              Examples.era_file
                [Examples.hollow_item "privacy_1960s_0" "invasion of privacy"]);
             ("2020s.json",
              Examples.era_file
                [Examples.item "privacy_2020s_0" "privacy settings"
                               [0; 1]%float])]
  else None.

(** An item that has no [embedding] key. *)
Definition bare_item (id text : string) : json :=
  JObj [("id", JStr id); ("text", JStr text)].

(** The settings of [config.py] when the environment sets none. *)
Definition default_settings : Main.app_settings :=
  Main.AppSettings (Etymology.Settings true 20) true 60
                   "qwen/qwen-2.5-72b-instruct" "paraphrase-MiniLM-L6-v2"
                   "embeddings".

(** A sentence transformer that loads, and sends every text to the same
    vector. *)
Definition flat_encoder : Main.encoder :=
  Main.Encoder (Ok tt)
               (fun _ => Ok [1; 0]%float)
               (fun texts => Ok (map (fun _ => [1; 0]%float) texts)).



(** A process that has served nothing yet. *)
Definition fresh_app : Main.app :=
  Main.App (Etymology.State [] 0) [] false.

(** The concept [freedom] of [Examples.disk], under the root
    [embeddings]. *)
Definition freedom_disk : Main.disk :=
  fun root =>
    if String.eqb root "embeddings" then Examples.disk else fun _ => None.

(** The concept [privacy] of [Examples.hollow_era_disk], under the root
    [embeddings]. *)
Definition privacy_disk : Main.disk :=
  fun root =>
    if String.eqb root "embeddings" then Examples.hollow_era_disk
    else fun _ => None.

(** A process that has the eras of [privacy] in the memo of
    [load_all_eras], as an earlier disk had them. *)
Definition warm_app : Main.app :=
  Main.App (Etymology.State [] 0)
           [("privacy",
             [Utils.EraData "1850s"
                [Examples.item "privacy_1850s_0" "a private station"
                               [1; 1]%float]])]
           true.

(** A data directory with one text file for [privacy] in the [1900s]:
    two lines of text around a blank line. *)
Definition privacy_data : Script.data_dir :=
  fun name =>
    if String.eqb name "1900s_privacy.csv"
    then Some ["  a right to be let alone " ++ Etymology.nl;
               Etymology.nl;
               "privacy of the home"]
    else None.

(** An image service that answers every request with the same image,
    and a decoder that takes it, and only it. *)
Definition steady_banana : GenerateImage.environment :=
  GenerateImage.Environment
    (Some "key") (Some "model")
    (fun _ _ _ =>
       Ok (GenerateImage.Response 200 "ok"
             (Ok (JObj [("modelOutputs",
                         JArr [JObj [("image_base64", JStr "aGk=")]])]))))
    (fun v =>
       match v with
       | JStr "aGk=" => Ok "hi"
       | _ => Raise (Exn ValueError "Incorrect padding")
       end).

(** The same service with an image that does not decode. *)
Definition garbled_banana : GenerateImage.environment :=
  GenerateImage.Environment
    (Some "key") (Some "model")
    (fun _ _ _ =>
       Ok (GenerateImage.Response 200 "ok"
             (Ok (JObj [("modelOutputs",
                         JArr [JObj [("image_base64", JStr "a")]])]))))
    (fun v =>
       match v with
       | JStr "aGk=" => Ok "hi"
       | _ => Raise (Exn ValueError "Incorrect padding")
       end).

(** The folder [icons] with two images of a cat. *)
Definition cat_images : GenerateImage.images :=
  fun c =>
    if String.eqb c "icons"
    then Some [("a-cat.png", "first"); ("a-cat-1.png", "second")]
    else None.

(** A disk with no concept at all. *)
Definition blank_disk : Main.disk := fun _ _ => None.

End Fixtures.

(* ------------------------------------------------------------------ *)
(** ** Vocabulary of the further properties *)

Module Vocab.

Import Py.
Local Open Scope string_scope.

(** The JSON object that [_parse_response] turns into [evolution]: one
    key per era, in order, each holding the list of its examples. *)
Definition evolution_doc (evolution : list (string * list string)) : json :=
  JObj (map (fun p => (fst p, JArr (map JStr (snd p)))) evolution).

(** A response wrapped in a code fence: the opening fence with its
    language tag, the body, the closing fence, each on lines of their
    own. *)
Definition fenced (tag body : string) : string :=
  "```" ++ tag ++ Etymology.nl ++ body ++ Etymology.nl ++ "```".

(** No newline occurs in [s]. *)
Fixpoint one_line (s : string) : bool :=
  match s with
  | EmptyString => true
  | String c s' => negb (Ascii.eqb c Str.newline) && one_line s'
  end.

(** The last character of [s] is not a space (and [s] is not empty). *)
Fixpoint ends_unspaced (s : string) : bool :=
  match s with
  | EmptyString => false
  | String c EmptyString => negb (Str.is_space c)
  | String _ s' => ends_unspaced s'
  end.

(** A dict in which each of the three required field names is a key. *)
Definition has_all_fields (it : json) : bool :=
  match it with
  | JObj kv =>
      forallb (fun f => match assoc f kv with Some _ => true | None => false end)
              Utils.required_fields
  | _ => false
  end.

(** A JSON value that is neither a dict, a list nor a string. *)
Definition is_scalar (j : json) : bool :=
  match j with
  | JNull | JBool _ | JInt _ | JFloat _ => true
  | _ => false
  end.

(** The exceptions that [load_all_eras] lets through. *)
Definition escapes (e : exn) : bool :=
  negb (existsb (exn_class_eqb (exn_cls e))
                [FileNotFoundError; EmbeddingValidationError]).

(** The conversion of one item to an array, as in the comprehension of
    [_to_numpy_embeddings]. *)
Definition embedding_of {NP : Numpy} (it : json) : result ndarray :=
  bind (py_getitem it "embedding") np_array_float.

(** The file [name] of the directory of [concept], if both exist. *)
Definition stored (fs : Utils.filesystem) (concept name : string)
  : option Utils.file :=
  match fs concept with
  | None => None
  | Some dir => assoc name dir
  end.

(** The character [c] occurs in [s]. *)
Fixpoint has_char (c : ascii) (s : string) : bool :=
  match s with
  | EmptyString => false
  | String c' s' => Ascii.eqb c' c || has_char c s'
  end.

(** A single path component: not empty, without [/], and neither [.]
    nor [..]. Joined to a directory it names an entry of that
    directory, and nothing else does. *)
Definition is_component (s : string) : bool :=
  negb (String.eqb s EmptyString)
  && negb (has_char "/"%char s)
  && negb (String.eqb s ".")
  && negb (String.eqb s "..").

(** A name without [/]: followed by [.json] it is a single path
    component. *)
Definition slash_free (s : string) : bool := negb (has_char "/"%char s).

(** The bytes of the entry [name] of the image folder of [category],
    if both exist. *)
Definition image_at (d : GenerateImage.images) (category name : string)
  : option string :=
  match d category with
  | None => None
  | Some dir => assoc name dir
  end.

(** The names that the loop of [generate_image] tests, in order: the
    plain name, then the numbered names from 1 on. *)
Definition tried (safe_name : string) (i : nat) : string :=
  match i with
  | O => safe_name ++ ".png"
  | S j => GenerateImage.numbered safe_name (S j)
  end.

(** Every character of [s] is below 128. *)
Fixpoint is_ascii (s : string) : bool :=
  match s with
  | EmptyString => true
  | String c s' => (nat_of_ascii c <? 128)%nat && is_ascii s'
  end.

(** A lower-case letter, a digit or a dash. *)
Definition is_slug_char (c : ascii) : bool :=
  let n := nat_of_ascii c in
  (((48 <=? n) && (n <=? 57)) || ((97 <=? n) && (n <=? 122))
   || (n =? 45))%nat.

Fixpoint all_chars (p : ascii -> bool) (s : string) : bool :=
  match s with
  | EmptyString => true
  | String c s' => p c && all_chars p s'
  end.




(** Reading decimal digits back, from the left, onto [acc]. *)
Fixpoint read_digits (acc : nat) (s : string) : nat :=
  match s with
  | EmptyString => acc
  | String c s' => read_digits (10 * acc + (nat_of_ascii c - 48)) s'
  end.

End Vocab.

(* ------------------------------------------------------------------ *)
(** * Properties *)

(** Splits a goal that is a conjunction, and nothing under a binder. *)
Ltac split_all := repeat match goal with |- _ /\ _ => split end.

(* ------------------------------------------------------------------ *)
(** ** The string methods on examples *)

Example strip_ex : Str.strip "  a b 
 " = "a b"%string.
Proof. reflexivity. Qed.

Example split_ex :
  Str.split Str.newline "```json
{}
```" = ["```json"; "{}"; "```"]%string.
Proof. reflexivity. Qed.

Example remove_all_ex :
  Str.remove_all ".json" "1900s.json" = "1900s"%string
  /\ Str.remove_all ".json" "a.json.json" = "a"%string.
Proof. split; reflexivity. Qed.

Example suffix_ex :
  Str.suffix "1900s.json" = ".json"%string
  /\ Str.suffix ".json" = ""%string
  /\ Str.suffix "notes.txt" = ".txt"%string.
Proof. repeat split; reflexivity. Qed.

Example sorted_ex :
  Str.sorted ["2020s.json"; "1900s.json"; "1960s.json"]%string
  = ["1900s.json"; "1960s.json"; "2020s.json"]%string.
Proof. reflexivity. Qed.

Example of_Z_ex : Str.of_Z 120 = "120"%string /\ Str.of_Z (-7) = "-7"%string.
Proof. split; reflexivity. Qed.

(* ------------------------------------------------------------------ *)
(** ** Facts about the cache *)

Module LruFacts.

Import Lru.

Section Facts.

Variables K V : Type.
Variable eqb : K -> K -> bool.
Hypothesis eqb_eq : forall x y, eqb x y = true <-> x = y.

Local Abbreviation cache := (Lru.cache K V).
Local Abbreviation lookup := (Lru.lookup eqb).
Local Abbreviation remove := (Lru.remove eqb).
Local Abbreviation ahead := (Lru.ahead eqb).

Lemma eqb_refl : forall x, eqb x x = true.
Proof. intro x. apply eqb_eq. reflexivity. Qed.

Lemma eqb_neq : forall x y, x <> y -> eqb x y = false.
Proof.
  intros x y Hne. destruct (eqb x y) eqn:E; [|reflexivity].
  apply eqb_eq in E. contradiction.
Qed.

Lemma lookup_none_iff : forall k (c : cache),
  lookup k c = None <-> ~ In k (keys c).
Proof.
  intros k c. induction c as [|[k' v] c IH]; simpl.
  - tauto.
  - destruct (eqb k k') eqn:E.
    + apply eqb_eq in E. subst. split; [discriminate | tauto].
    + rewrite IH. split.
      * intros Hn [Heq | Hin]; [|tauto].
        subst. rewrite eqb_refl in E. discriminate.
      * tauto.
Qed.

Lemma keys_remove_incl : forall d (c : cache), incl (keys (remove d c)) (keys c).
Proof.
  intros d c. induction c as [|[k' v] c IH]; simpl.
  - apply incl_refl.
  - destruct (eqb d k').
    + apply incl_tl, incl_refl.
    + simpl. apply incl_cons; [left; reflexivity | apply incl_tl, IH].
Qed.

Lemma NoDup_keys_remove : forall d (c : cache),
  NoDup (keys c) -> NoDup (keys (remove d c)) /\ ~ In d (keys (remove d c)).
Proof.
  intros d c. induction c as [|[k' v] c IH]; simpl; intro Hnd.
  - split; [constructor | tauto].
  - inversion Hnd as [|? ? Hnin Hnd']; subst.
    destruct (eqb d k') eqn:E.
    + apply eqb_eq in E. subst. tauto.
    + destruct (IH Hnd') as [IH1 IH2]. simpl. split.
      * constructor; [|exact IH1].
        intro Hin. apply Hnin. apply (keys_remove_incl d c). exact Hin.
      * intros [Heq | Hin]; [|tauto].
        subst. rewrite eqb_refl in E. discriminate.
Qed.

Lemma lookup_remove_other : forall k d (c : cache),
  k <> d -> lookup k (remove d c) = lookup k c.
Proof.
  intros k d c Hne. induction c as [|[k' v] c IH]; simpl; [reflexivity|].
  destruct (eqb d k') eqn:E.
  - apply eqb_eq in E. subst. rewrite (eqb_neq Hne). reflexivity.
  - simpl. rewrite IH. reflexivity.
Qed.

Lemma ahead_remove_incl : forall k d (c : cache),
  k <> d -> incl (ahead k (remove d c)) (ahead k c).
Proof.
  intros k d c Hne. induction c as [|[k' v] c IH]; simpl.
  - apply incl_refl.
  - destruct (eqb d k') eqn:E.
    + apply eqb_eq in E. subst. rewrite (eqb_neq Hne).
      apply incl_tl, incl_refl.
    + simpl. destruct (eqb k k').
      * apply incl_refl.
      * apply incl_cons; [left; reflexivity | apply incl_tl, IH].
Qed.

Lemma ahead_incl_keys : forall k (c : cache), incl (ahead k c) (keys c).
Proof.
  intros k c. induction c as [|[k' v] c IH]; simpl.
  - apply incl_refl.
  - destruct (eqb k k').
    + intros x [].
    + apply incl_cons; [left; reflexivity | apply incl_tl, IH].
Qed.

Lemma NoDup_ahead : forall k (c : cache), NoDup (keys c) -> NoDup (ahead k c).
Proof.
  intros k c. induction c as [|[k' v] c IH]; simpl; intro Hnd.
  - constructor.
  - inversion Hnd as [|? ? Hnin Hnd']; subst.
    destruct (eqb k k'); constructor.
    + intro Hin. apply Hnin. apply (ahead_incl_keys k c). exact Hin.
    + apply IH. exact Hnd'.
Qed.

Lemma keys_removelast : forall (c : cache),
  keys (removelast c) = removelast (keys c).
Proof.
  induction c as [|[k v] c IH]; simpl; [reflexivity|].
  destruct c as [|p c']; [reflexivity|].
  simpl in *. rewrite IH. reflexivity.
Qed.

Lemma removelast_incl : forall (A : Type) (l : list A), incl (removelast l) l.
Proof.
  induction l as [|a l IH]; simpl.
  - apply incl_refl.
  - destruct l as [|b l'].
    + intros x [].
    + apply incl_cons; [left; reflexivity | apply incl_tl, IH].
Qed.

Lemma NoDup_removelast : forall (A : Type) (l : list A),
  NoDup l -> NoDup (removelast l).
Proof.
  induction l as [|a l IH]; simpl; intro Hnd.
  - constructor.
  - inversion Hnd as [|? ? Hnin Hnd']; subst.
    destruct l as [|b l'].
    + constructor.
    + constructor.
      * intro Hin. apply Hnin. apply (@removelast_incl A (b :: l')). exact Hin.
      * apply IH. exact Hnd'.
Qed.

Lemma lookup_cons : forall k k' v (c : cache),
  lookup k ((k', v) :: c) = if eqb k k' then Some v else lookup k c.
Proof. reflexivity. Qed.

Lemma ahead_cons : forall k k' (v : V) (c : cache),
  ahead k ((k', v) :: c) = if eqb k k' then [] else k' :: ahead k c.
Proof. reflexivity. Qed.

(** Evicting the least recently used entry leaves [k] alone as long as
    something is behind it. *)
Lemma lookup_removelast : forall k v (c : cache),
  lookup k c = Some v ->
  S (List.length (ahead k c)) < List.length c ->
  lookup k (removelast c) = Some v /\ ahead k (removelast c) = ahead k c.
Proof.
  intros k v c. induction c as [|[k' v'] c IH]; intros Hl Hlen.
  - discriminate.
  - destruct c as [|p c'].
    + rewrite ahead_cons in Hlen. simpl in Hlen.
      destruct (eqb k k'); simpl in Hlen; lia.
    + change (removelast ((k', v') :: p :: c'))
        with ((k', v') :: removelast (p :: c')).
      rewrite lookup_cons in Hl. rewrite ahead_cons in Hlen.
      rewrite lookup_cons, !ahead_cons.
      destruct (eqb k k').
      * split; [exact Hl | reflexivity].
      * simpl List.length in Hlen.
        destruct (IH Hl) as [IH1 IH2]; [simpl; lia|].
        rewrite IH1, IH2. split; reflexivity.
Qed.

End Facts.

End LruFacts.

(* ------------------------------------------------------------------ *)
(** ** Memoization of [load_all_eras] *)

Module Memo.

Import Py Utils History LruFacts.

(** The keys of the cache stay distinct. *)
Lemma load_all_eras_NoDup : forall fs d (c : eras_cache),
  NoDup (Lru.keys c) -> NoDup (Lru.keys (snd (load_all_eras fs d c))).
Proof.
  intros fs d c Hnd. unfold load_all_eras.
  destruct (Lru.lookup String.eqb d c) as [v|] eqn:El; simpl.
  - destruct (NoDup_keys_remove String.eqb String.eqb_eq d c Hnd) as [H1 H2].
    constructor; assumption.
  - apply (lookup_none_iff String.eqb String.eqb_eq) in El.
    destruct (load_all_eras_uncached fs d) as [v|e]; simpl; [|exact Hnd].
    unfold Lru.store. destruct (128 <=? List.length c); simpl.
    + constructor.
      * intro Hin. apply El. rewrite keys_removelast in Hin.
        apply (removelast_incl (Lru.keys c)). exact Hin.
      * rewrite keys_removelast. apply NoDup_removelast. exact Hnd.
    + constructor; assumption.
Qed.

Lemma after_calls_NoDup : forall calls (c : eras_cache),
  NoDup (Lru.keys c) -> NoDup (Lru.keys (after_calls calls c)).
Proof.
  induction calls as [|[fs d] calls IH]; intros c Hnd; simpl.
  - exact Hnd.
  - apply IH. apply load_all_eras_NoDup. exact Hnd.
Qed.

Lemma remembered_first : forall fs concept (c c1 : eras_cache) eras others,
  NoDup (Lru.keys c) ->
  load_all_eras fs concept c = (Ok eras, c1) ->
  remembered concept eras others c1.
Proof.
  intros fs concept c c1 eras others Hnd Hload.
  pose proof (load_all_eras_NoDup fs concept c Hnd) as Hnd1.
  rewrite Hload in Hnd1. simpl in Hnd1.
  unfold load_all_eras in Hload.
  destruct (Lru.lookup String.eqb concept c) as [v|] eqn:El.
  - inversion Hload; subst. unfold remembered, Lru.touch. simpl.
    rewrite String.eqb_refl. repeat split; [exact Hnd1 | intros x []].
  - destruct (load_all_eras_uncached fs concept) as [v|e]; [|discriminate].
    inversion Hload; subst. unfold remembered, Lru.store.
    unfold Lru.store in Hnd1.
    destruct (128 <=? List.length c); simpl; rewrite String.eqb_refl;
      repeat split; try exact Hnd1; intros x [].
Qed.

Lemma remembered_step : forall fs d concept eras others (c : eras_cache),
  List.length others <= 127 ->
  d = concept \/ In d others ->
  remembered concept eras others c ->
  remembered concept eras others (snd (load_all_eras fs d c)).
Proof.
  intros fs d concept eras others c Hlen Hd (Hl & Hnd & Hin).
  pose proof (load_all_eras_NoDup fs d c Hnd) as Hnd1.
  destruct (String.eqb_spec concept d) as [Heq | Hne].
  - (* a hit on the concept itself *)
    subst d. unfold load_all_eras in *. rewrite Hl in *. simpl in *.
    unfold remembered, Lru.touch. simpl. rewrite String.eqb_refl.
    repeat split; [exact Hnd1 | intros x []].
  - assert (Hd' : In d others) by (destruct Hd; [congruence | assumption]).
    unfold load_all_eras in *.
    destruct (Lru.lookup String.eqb d c) as [v|] eqn:El; simpl in *.
    + (* a hit on another concept *)
      unfold remembered, Lru.touch. simpl.
      rewrite (proj2 (String.eqb_neq concept d) Hne).
      rewrite (lookup_remove_other String.eqb String.eqb_eq c Hne).
      repeat split; [exact Hl | exact Hnd1 |].
      apply incl_cons; [exact Hd'|].
      eapply incl_tran; [apply (ahead_remove_incl String.eqb String.eqb_eq c Hne) | exact Hin].
    + destruct (load_all_eras_uncached fs d) as [v|e]; simpl in *;
        [|repeat split; assumption].
      (* a miss that stores *)
      apply (lookup_none_iff String.eqb String.eqb_eq) in El.
      assert (Hroom : S (List.length (Lru.ahead String.eqb concept c)) <= 127).
      { eapply Nat.le_trans; [|exact Hlen].
        apply (@NoDup_incl_length _ (d :: Lru.ahead String.eqb concept c)).
        - constructor.
          + intro Hx. apply El. apply (ahead_incl_keys String.eqb concept c).
            exact Hx.
          + apply NoDup_ahead. exact Hnd.
        - apply incl_cons; assumption. }
      unfold remembered, Lru.store in *.
      destruct (128 <=? List.length c) eqn:Efull; simpl;
        rewrite (proj2 (String.eqb_neq concept d) Hne).
      * apply Nat.leb_le in Efull.
        destruct (lookup_removelast String.eqb concept c Hl) as [H1 H2];
          [lia|].
        rewrite H1, H2. repeat split; [exact Hnd1 |].
        apply incl_cons; assumption.
      * repeat split; [exact Hl | exact Hnd1 | apply incl_cons; assumption].
Qed.

Lemma remembered_after : forall calls concept eras others (c : eras_cache),
  List.length others <= 127 ->
  (forall fs d, In (fs, d) calls -> d = concept \/ In d others) ->
  remembered concept eras others c ->
  remembered concept eras others (after_calls calls c).
Proof.
  induction calls as [|[fs d] calls IH]; intros concept eras others c Hlen Hc Hr.
  - exact Hr.
  - simpl. apply IH; [exact Hlen | |].
    + intros fs' d' Hin. apply (Hc fs' d'). right. exact Hin.
    + apply remembered_step; [exact Hlen | | exact Hr].
      apply (Hc fs d). left. reflexivity.
Qed.

End Memo.

Module MemoTheorems.

Import Py Utils History LruFacts Memo.

Section WithNumpy.

Context {NP : Numpy}.

Lemma build_timeline_of_load :
  forall fs fs' concept query_emb top_n (c c' : eras_cache) eras,
    fst (load_all_eras fs concept c) = Ok eras ->
    fst (load_all_eras fs' concept c') = Ok eras ->
    fst (build_timeline_for_query fs concept query_emb top_n c)
    = fst (build_timeline_for_query fs' concept query_emb top_n c').
Proof.
  intros fs fs' concept q n c c' eras H1 H2.
  unfold build_timeline_for_query.
  destruct (load_all_eras fs concept c) as [r1 s1].
  destruct (load_all_eras fs' concept c') as [r2 s2].
  simpl in H1, H2. subst r1 r2.
  destruct eras; reflexivity.
Qed.

(** C9. Once [load_all_eras] has returned a result for a concept, every
    later call for that concept returns the same result, whatever the
    disk holds by then and whatever calls were made in between, as long
    as those calls name at most 127 other concepts; and the timeline
    built for that concept is the one that was built from the first
    result. *)
Theorem load_all_eras_memoized :
  forall (before calls : list call) (others : list string)
         fs concept eras c1,
    load_all_eras fs concept (after_calls before []) = (Ok eras, c1) ->
    List.length others <= 127 ->
    (forall fs' d, In (fs', d) calls -> d = concept \/ In d others) ->
    forall fs2 query_emb top_n,
      fst (load_all_eras fs2 concept (after_calls calls c1)) = Ok eras
      /\ fst (build_timeline_for_query fs2 concept query_emb top_n
                (after_calls calls c1))
         = fst (build_timeline_for_query fs concept query_emb top_n
                  (after_calls before [])).
Proof.
  intros before calls others fs concept eras c1 Hload Hlen Hcalls fs2 q n.
  assert (Hnd : NoDup (Lru.keys (after_calls before ([] : eras_cache))))
    by (apply after_calls_NoDup; constructor).
  pose proof (remembered_first fs concept _ others Hnd Hload) as Hr.
  pose proof (remembered_after calls Hlen Hcalls Hr) as (Hl & _ & _).
  assert (Hlater :
            fst (load_all_eras fs2 concept (after_calls calls c1)) = Ok eras).
  { unfold load_all_eras. rewrite Hl. reflexivity. }
  split; [exact Hlater|].
  symmetry. apply build_timeline_of_load with (eras := eras).
  - rewrite Hload. reflexivity.
  - exact Hlater.
Qed.

End WithNumpy.

(** The theorem at work: [freedom] is loaded, then the disk changes and
    another concept is asked for; [freedom] still loads as before. *)
Lemma load_all_eras_memoized_witness :
  let calls := [(Examples.disk_later, "privacy"%string)] in
  let first := load_all_eras Examples.disk "freedom" [] in
  is_ok (fst first) = true
  /\ List.length ["privacy"%string] <= 127
  /\ fst (load_all_eras Examples.disk_later "freedom"
            (after_calls calls (snd first))) = fst first.
Proof.
  cbv zeta. split; [vm_compute; reflexivity|].
  split; [simpl; lia|].
  destruct (load_all_eras Examples.disk "freedom" []) as [r c1] eqn:E.
  destruct r as [eras|e]; [|vm_compute in E; discriminate].
  cbn [fst snd].
  refine (proj1 (@load_all_eras_memoized Model.small_numpy []
                   [(Examples.disk_later, "privacy"%string)]
                   ["privacy"%string] Examples.disk "freedom"%string
                   eras c1 E _ _ Examples.disk_later [] 0%Z)).
  - simpl. lia.
  - intros fs' d [H | []]. inversion H. right. left. reflexivity.
Defined.

End MemoTheorems.

(* ------------------------------------------------------------------ *)
(** ** The retrying upstream call *)

Module Retry.

Import Py Etymology.
Local Open Scope string_scope.

(** Every attempt sends one request. *)
Lemma call_openrouter_once_calls : forall up prompt calls,
  snd (call_openrouter_once up prompt calls) = S calls.
Proof. reflexivity. Qed.

(** Whatever happens inside the [try] block, the body raises nothing but
    [OpenRouterError] and [TimeoutError]. *)
Lemma call_openrouter_once_raises : forall up prompt calls e,
  fst (call_openrouter_once up prompt calls) = Raise e ->
  transient e = true.
Proof.
  intros up prompt calls e. unfold call_openrouter_once. simpl.
  destruct (up calls prompt) as [[content|]|msg|msg]; simpl.
  - destruct (String.eqb content EmptyString); simpl; [|discriminate].
    intro H; inversion H; reflexivity.
  - intro H; inversion H; reflexivity.
  - intro H; inversion H; reflexivity.
  - intro H; inversion H; reflexivity.
Qed.

(** A returned content is the non-empty content of the reply. *)
Lemma call_openrouter_once_returns : forall up prompt calls content,
  fst (call_openrouter_once up prompt calls) = Ok content ->
  up calls prompt = Replied (Some content) /\ content <> EmptyString.
Proof.
  intros up prompt calls content. unfold call_openrouter_once. simpl.
  destruct (up calls prompt) as [[c|]|msg|msg]; simpl; try discriminate.
  destruct (String.eqb_spec c EmptyString); simpl; [discriminate|].
  intro H; inversion H; subst. split; [reflexivity | assumption].
Qed.

(** An empty or absent body is an [OpenRouterError]. *)
Lemma call_openrouter_once_empty : forall up prompt calls,
  up calls prompt = Replied None
  \/ up calls prompt = Replied (Some EmptyString) ->
  exists msg,
    fst (call_openrouter_once up prompt calls)
    = Raise (Exn OpenRouterError msg).
Proof.
  intros up prompt calls [H | H]; unfold call_openrouter_once; rewrite H;
    simpl; eexists; reflexivity.
Qed.

(** The decorator gives up at once on an exception its predicate
    rejects. *)
Lemma retry_not_transient :
  forall (W A : Type) n (p : exn -> bool) (f : W -> result A * W) w e w',
    f w = (Raise e, w') ->
    p e = false ->
    retry n p f w = (Raise e, w').
Proof.
  intros W A n p f w e w' Hf Hp. unfold retry.
  destruct (n - 1); simpl; rewrite Hf, Hp; reflexivity.
Qed.

(** The shape of a run of the decorator around a function that counts
    its calls: [k] failed attempts that the predicate accepts, then one
    last attempt whose outcome is the outcome of the run. *)
Lemma retry_from_run :
  forall (A : Type) (p : exn -> bool) (f : nat -> result A * nat),
    (forall w, snd (f w) = S w) ->
    forall remaining w,
      exists k,
        k <= remaining
        /\ snd (retry_from remaining p f w) = w + S k
        /\ (forall i, i < k ->
              exists e, fst (f (w + i)) = Raise e /\ p e = true)
        /\ fst (retry_from remaining p f w) = fst (f (w + k))
        /\ (forall e, fst (retry_from remaining p f w) = Raise e ->
              p e = false \/ k = remaining).
Proof.
  intros A p f Hcount. induction remaining as [|n IH]; intro w.
  - exists 0. simpl. specialize (Hcount w).
    destruct (f w) as [r w'] eqn:E. simpl in Hcount. subst w'.
    rewrite Nat.add_0_r, E.
    destruct r as [a|e]; [|destruct (p e)]; simpl;
      split_all; try lia; try reflexivity; try (intros; lia); auto.
  - simpl. pose proof (Hcount w) as Hw.
    destruct (f w) as [r w'] eqn:E. simpl in Hw. subst w'.
    destruct r as [a|e].
    + exists 0. rewrite Nat.add_0_r, E. simpl.
      split_all; try lia; try reflexivity; try (intros; lia).
      intros e H. discriminate.
    + destruct (p e) eqn:Ep.
      * destruct (IH (S w)) as (k & Hk & Hs & Hi & Hf & He).
        exists (S k). split_all.
        -- lia.
        -- rewrite Hs. lia.
        -- intros i Hlt. destruct i as [|i].
           ++ exists e. rewrite Nat.add_0_r, E. split; [reflexivity | exact Ep].
           ++ destruct (Hi i) as (e' & H1 & H2); [lia|].
              exists e'. replace (w + S i) with (S w + i) by lia.
              split; assumption.
        -- rewrite Hf. replace (w + S k) with (S w + k) by lia. reflexivity.
        -- intros e' H. destruct (He e' H) as [H1 | H1]; [left | right];
             [assumption | lia].
      * exists 0. rewrite Nat.add_0_r, E. simpl.
        split_all; try lia; try reflexivity; try (intros; lia).
        intros e' H. inversion H; subst. left. exact Ep.
Qed.

(** C7. [_call_openrouter] sends between one and three requests. Every
    attempt before the last one failed with an [OpenRouterError] or a
    [TimeoutError]; the outcome of the call is the outcome of its last
    attempt, unchanged; a failure is reported only after the third
    attempt; a returned content is never empty, an empty or absent body
    being an [OpenRouterError]; and the decorator does not retry an
    exception of any other class. *)
Theorem call_openrouter_bounded_retry :
  forall (up : upstream) (prompt : string) (calls : nat),
    let out := _call_openrouter up prompt calls in
    let attempts := snd out - calls in
    let attempt i := fst (call_openrouter_once up prompt (calls + i)) in
    (1 <= attempts <= 3)
    /\ snd out = calls + attempts
    /\ (forall i, i < attempts - 1 ->
          exists e, attempt i = Raise e /\ transient e = true)
    /\ fst out = attempt (attempts - 1)
    /\ (forall e, fst out = Raise e ->
          attempts = 3 /\ transient e = true)
    /\ (forall content, fst out = Ok content ->
          content <> EmptyString
          /\ up (calls + (attempts - 1)) prompt = Replied (Some content))
    /\ (forall i,
          up i prompt = Replied None
          \/ up i prompt = Replied (Some EmptyString) ->
          exists msg,
            fst (call_openrouter_once up prompt i)
            = Raise (Exn OpenRouterError msg))
    /\ (forall (W A : Type) (f : W -> result A * W) w e w',
          f w = (Raise e, w') ->
          exn_cls e <> OpenRouterError ->
          exn_cls e <> TimeoutError ->
          retry 3 (retry_if_exception_type [OpenRouterError; TimeoutError])
                f w = (Raise e, w')).
Proof.
  intros up prompt calls. cbv zeta.
  unfold _call_openrouter, retry. change (3 - 1) with 2. fold transient.
  destruct (retry_from_run transient (call_openrouter_once up prompt)
              (call_openrouter_once_calls up prompt) 2 calls)
    as (k & Hk & Hs & Hi & Hf & He).
  rewrite Hs, Hf.
  replace (calls + S k - calls) with (S k) by lia.
  replace (S k - 1) with k by lia.
  split_all; try lia.
  - exact Hi.
  - reflexivity.
  - intros e H. rewrite <- Hf in H.
    pose proof H as H'. rewrite Hf in H'.
    apply call_openrouter_once_raises in H'.
    split; [|exact H'].
    destruct (He e H) as [Hno | Hk2]; [congruence | lia].
  - intros content H. apply call_openrouter_once_returns in H. tauto.
  - apply call_openrouter_once_empty.
  - intros W A f w e w' Hf' H1 H2.
    apply (retry_not_transient 3 _ f w Hf').
    unfold transient, retry_if_exception_type. simpl.
    destruct (exn_cls e); try reflexivity; congruence.
Qed.

End Retry.

(* ------------------------------------------------------------------ *)
(** ** Centroid and drift *)

Module Drift.

Import Py Utils.

Section WithNumpy.

Context {NP : Numpy}.

(** C5. The centroid of an empty item set is [None], returned and not
    raised; the drift is exactly [0.0] as soon as one of the two
    centroids is [None]. *)
Theorem centroid_empty_drift_absent :
  compute_centroid [] = Ok None
  /\ (forall centroid_b, centroid_shift_score None centroid_b = Ok 0%float)
  /\ (forall centroid_a, centroid_shift_score centroid_a None = Ok 0%float).
Proof.
  split_all.
  - reflexivity.
  - intro b. reflexivity.
  - intros [a|]; reflexivity.
Qed.

(** C10. [centroid_shift_score] returns a float for every pair of
    arguments; when the computation inside its [try] block raises, for
    whatever reason, the float is [0.0]; when it does not, the float is
    the one computed. *)
Theorem centroid_shift_score_total :
  forall centroid_a centroid_b : option ndarray,
    (exists x : float, centroid_shift_score centroid_a centroid_b = Ok x)
    /\ (forall ca cb e,
          centroid_a = Some ca -> centroid_b = Some cb ->
          shift_try_block ca cb = Raise e ->
          centroid_shift_score centroid_a centroid_b = Ok 0%float)
    /\ (forall ca cb x,
          centroid_a = Some ca -> centroid_b = Some cb ->
          shift_try_block ca cb = Ok x ->
          centroid_shift_score centroid_a centroid_b = Ok x).
Proof.
  intros a b. split_all.
  - destruct a as [ca|], b as [cb|]; simpl; try (eexists; reflexivity).
    destruct (shift_try_block ca cb); simpl; eexists; reflexivity.
  - intros ca cb e -> -> H. simpl. rewrite H. reflexivity.
  - intros ca cb x -> -> H. simpl. rewrite H. reflexivity.
Qed.

(** The [try] block raises exactly when one of the library calls or one
    of the two indexings does. *)
Lemma shift_try_block_cosine_raises : forall ca cb a b e,
  np_reshape_1_m1 ca = Ok a ->
  np_reshape_1_m1 cb = Ok b ->
  cosine_similarity a b = Raise e ->
  centroid_shift_score (Some ca) (Some cb) = Ok 0%float.
Proof.
  intros ca cb a b e Ha Hb Hc. simpl. unfold shift_try_block.
  rewrite Ha, Hb. simpl. rewrite Hc. reflexivity.
Qed.


End WithNumpy.



(** Centroids of different dimensions: the cosine computation raises
    [ValueError] and the drift is [0.0]. *)
Example drift_mismatched_dimensions :
  let a := Model.Vector [1; 0]%float in
  let b := Model.Vector [1; 0; 0]%float in
  option_map exn_cls
    (match @shift_try_block Model.small_numpy a b with
     | Raise e => Some e
     | Ok _ => None
     end) = Some ValueError
  /\ @centroid_shift_score Model.small_numpy (Some a) (Some b) = Ok 0%float.
Proof. split; vm_compute; reflexivity. Qed.

(** Orthogonal centroids drift by one. *)
Example drift_orthogonal :
  @centroid_shift_score Model.small_numpy
    (Some (Model.Vector [1; 0]%float)) (Some (Model.Vector [0; 2]%float))
  = Ok 1%float.
Proof. vm_compute. reflexivity. Qed.

(** A centroid against itself. The source fixes the drift as one minus
    the similarity the library returns; whether that similarity is
    exactly one is a matter of binary64 rounding inside the library. In
    this instance it is one for an axis-aligned vector, just below one
    for [(0.1, 0.2, 0.3)], and zero when the squared norm overflows. *)
Example drift_against_itself :
  let drift c :=
    @centroid_shift_score Model.small_numpy
      (Some (Model.Vector c)) (Some (Model.Vector c)) in
  drift [0; 2]%float = Ok 0%float
  /\ drift [0x1.999999999999ap-4; 0x1.999999999999ap-3;
            0x1.3333333333333p-2]%float
     = Ok 0x1p-53%float
  /\ drift [0x1p+600]%float = Ok 1%float.
Proof. cbv zeta. split_all; vm_compute; reflexivity. Qed.

End Drift.

(* ------------------------------------------------------------------ *)
(** ** Loading the eras of a concept *)

Module Loading.

Import Py Utils.
Local Open Scope string_scope.

(** What the comprehension of [load_era_items] keeps: the items in which
    each of the three field names is present. *)
Lemma filter_valid_cons : forall x its,
  filter_valid (x :: its)
  = bind (all_fields_in x required_fields) (fun keep =>
    bind (filter_valid its) (fun rest' =>
    Ok (if keep then x :: rest' else rest'))).
Proof. reflexivity. Qed.

Lemma filter_valid_fields : forall its out,
  filter_valid its = Ok out ->
  forall it, In it out ->
    In it its /\ all_fields_in it required_fields = Ok true.
Proof.
  induction its as [|x its IH]; intros out H it Hin.
  - inversion H; subst. destruct Hin.
  - rewrite filter_valid_cons in H.
    destruct (all_fields_in x required_fields) as [keep|e] eqn:Ek;
      [|discriminate].
    destruct (filter_valid its) as [rest|e] eqn:Er; [|discriminate].
    simpl in H. inversion H; subst out; clear H.
    assert (Hrest : In it rest ->
                    In it (x :: its)
                    /\ all_fields_in it required_fields = Ok true).
    { intro Hr. destruct (IH rest eq_refl it Hr) as [H1 H2].
      split; [right|]; assumption. }
    destruct keep; [|exact (Hrest Hin)].
    destruct Hin as [<- | Hin]; [|exact (Hrest Hin)].
    split; [left; reflexivity | exact Ek].
Qed.

(** On a dict, the membership tests do not raise. *)
Lemma all_fields_in_dict : forall kv fields,
  exists b, all_fields_in (JObj kv) fields = Ok b.
Proof.
  intros kv fields. induction fields as [|f fields IH]; simpl.
  - eexists; reflexivity.
  - destruct (assoc f kv); simpl; [exact IH | eexists; reflexivity].
Qed.

Lemma filter_valid_dicts : forall its,
  forallb is_dict its = true -> exists out, filter_valid its = Ok out.
Proof.
  induction its as [|x its IH]; intro H.
  - eexists; reflexivity.
  - simpl in H. apply andb_prop in H. destruct H as [Hx Hits].
    destruct x; try discriminate.
    rewrite filter_valid_cons.
    destruct (all_fields_in_dict kv required_fields) as [b ->].
    destruct (IH Hits) as [out ->]. simpl. eexists; reflexivity.
Qed.

(** On a dict, [validate_item] raises nothing but
    [EmbeddingValidationError]. *)
Lemma validate_item_dict : forall kv index,
  validate_item (JObj kv) index = Ok tt
  \/ raised (validate_item (JObj kv) index) = Some EmbeddingValidationError.
Proof.
  intros kv index. unfold validate_item, required_fields. simpl.
  destruct (assoc "id" kv); simpl; [|right; reflexivity].
  destruct (assoc "text" kv); simpl; [|right; reflexivity].
  destruct (assoc "embedding" kv) as [emb|]; simpl; [|right; reflexivity].
  destruct emb as [| | | | |[|x l]|]; simpl; auto.
Qed.

Lemma validate_all_dicts : forall its index,
  forallb is_dict its = true -> validate_all its index = Ok tt.
Proof.
  induction its as [|x its IH]; intros index H.
  - reflexivity.
  - simpl in H. apply andb_prop in H. destruct H as [Hx Hits].
    destruct x; try discriminate.
    change (validate_all (JObj kv :: its) index)
      with (bind (try_except (validate_item (JObj kv) index)
                             [EmbeddingValidationError] (fun _ => Ok tt))
                 (fun _ => validate_all its (S index))).
    destruct (validate_item_dict kv index) as [Hv | Hv].
    + rewrite Hv. simpl. apply IH. exact Hits.
    + destruct (validate_item (JObj kv) index) as [u|e].
      * simpl. apply IH. exact Hits.
      * simpl in Hv. inversion Hv as [Hc]. unfold try_except.
        rewrite Hc. simpl. apply IH. exact Hits.
Qed.

(** A file whose items are all dicts loads without raising, and what is
    returned has the three fields present; nothing is said of the shape
    of the embedding. *)
Lemma load_era_items_dicts : forall fs concept era_file dir kv its,
  fs concept = Some dir ->
  assoc era_file dir = Some (FileJson (JObj kv)) ->
  assoc "items" kv = Some (JArr its) ->
  forallb is_dict its = true ->
  exists out,
    load_era_items fs concept era_file = Ok out
    /\ forall it, In it out ->
         In it its /\ all_fields_in it required_fields = Ok true.
Proof.
  intros fs concept era_file dir kv its Hfs Hfile Hitems Hdicts.
  unfold load_era_items. rewrite Hfs, Hfile. simpl. rewrite Hitems. simpl.
  rewrite (validate_all_dicts its 0 Hdicts). simpl.
  destruct (filter_valid_dicts its Hdicts) as [out Hout].
  exists out. split; [exact Hout|].
  apply filter_valid_fields. exact Hout.
Qed.

Lemma load_eras_loop_cons : forall fs concept fn rest,
  load_eras_loop fs concept (fn :: rest)
  = bind (try_except
            (bind (load_era_items fs concept fn) (fun its =>
             Ok (match its with
                 | [] => []
                 | _ => [EraData (Str.remove_all ".json" fn) its]
                 end)))
            [FileNotFoundError; EmbeddingValidationError]
            (fun _ => Ok []))
         (fun here =>
    bind (load_eras_loop fs concept rest) (fun later =>
    Ok (here ++ later)%list)).
Proof. reflexivity. Qed.

(** When the loop of [load_all_eras] returns, it returns one era per
    file whose items load to a non-empty list, in the order of the
    files, named after the file and holding what [load_era_items]
    returned for it. *)
Lemma load_eras_loop_spec : forall fs concept files eras,
  load_eras_loop fs concept files = Ok eras ->
  map era_name eras
  = map (Str.remove_all ".json") (filter (kept fs concept) files)
  /\ map (fun e => Ok (era_items e)) eras
     = map (load_era_items fs concept) (filter (kept fs concept) files).
Proof.
  intros fs concept. induction files as [|fn rest IH]; intros eras H.
  - inversion H. split; reflexivity.
  - rewrite load_eras_loop_cons in H. unfold kept at 1 2. simpl filter.
    fold (kept fs concept).
    destruct (load_era_items fs concept fn) as [its|e] eqn:El.
    + destruct its as [|it its].
      * simpl in H.
        destruct (load_eras_loop fs concept rest) as [later|e];
          [|discriminate].
        simpl in H. inversion H; subst. apply IH. reflexivity.
      * simpl in H.
        destruct (load_eras_loop fs concept rest) as [later|e];
          [|discriminate].
        simpl in H. inversion H; subst. simpl.
        destruct (IH later eq_refl) as [H1 H2].
        rewrite H1, H2, El. split; reflexivity.
    + unfold bind at 2 in H. unfold try_except in H.
      destruct (existsb (exn_class_eqb (exn_cls e))
                        [FileNotFoundError; EmbeddingValidationError]);
        [|discriminate].
      simpl in H.
      destruct (load_eras_loop fs concept rest) as [later|e'];
        [|discriminate].
      simpl in H. inversion H; subst. apply IH. reflexivity.
Qed.

(** C2, at the failing input. The era file holds a sound item followed
    by an item whose embedding is the empty list. [validate_item]
    rejects the second item, yet [load_era_items] returns both; on what
    it returns, the similarity search finds nothing and there is no
    centroid, although the sound item alone supports both. *)
Theorem load_era_items_keeps_hollow_item :
  let sound := Examples.item "liberty_1900s_0" "liberty of the press"
                             [1; 0]%float in
  let hollow := Examples.hollow_item "liberty_1900s_1" "at liberty" in
  raised (validate_item hollow 1) = Some EmbeddingValidationError
  /\ load_era_items Examples.mixed_disk "liberty" "1900s.json"
     = Ok [sound; hollow]
  /\ @top_similar_in_era Model.small_numpy [1; 0]%float [sound; hollow] 6
     = Ok []
  /\ @compute_centroid Model.small_numpy [sound; hollow] = Ok None
  /\ @top_similar_in_era Model.small_numpy [1; 0]%float [sound] 6
     = Ok [TopItem (JStr "liberty_1900s_0") (JStr "liberty of the press")
                   1%float]
  /\ @compute_centroid Model.small_numpy [sound]
     = Ok (Some (Model.Vector [1; 0]%float)).
Proof. cbv zeta. split_all; vm_compute; reflexivity. Qed.

End Loading.

(* ------------------------------------------------------------------ *)
(** ** The timeline *)

Module Timeline.

Import Py Utils.
Local Open Scope string_scope.

Section WithNumpy.

Context {NP : Numpy}.

Lemma timeline_loop_cons : forall query_emb top_n e rest prev,
  timeline_loop query_emb top_n (e :: rest) prev
  = bind (top_similar_in_era query_emb (era_items e) top_n) (fun top =>
    bind (compute_centroid (era_items e)) (fun centroid =>
    bind (match prev with
          | Some _ => centroid_shift_score prev centroid
          | None => Ok 0%float
          end) (fun shift =>
    bind (timeline_loop query_emb top_n rest centroid) (fun later =>
    Ok (TimelineEntry (era_name e) top shift :: later))))).
Proof. reflexivity. Qed.

(** The drift chain: the entry of an era records the drift from the
    centroid handed over by the era before it, and hands its own
    centroid to the era after it. *)
Lemma timeline_loop_step : forall query_emb top_n e rest prev t later,
  timeline_loop query_emb top_n (e :: rest) prev = Ok (t :: later) ->
  entry_era t = era_name e
  /\ top_similar_in_era query_emb (era_items e) top_n = Ok (entry_top t)
  /\ exists centroid,
       compute_centroid (era_items e) = Ok centroid
       /\ centroid_shift_score prev centroid
          = Ok (centroid_shift_from_prev t)
       /\ timeline_loop query_emb top_n rest centroid = Ok later.
Proof.
  intros q n e rest prev t later H. rewrite timeline_loop_cons in H.
  destruct (top_similar_in_era q (era_items e) n) as [top|x]; [|discriminate].
  destruct (compute_centroid (era_items e)) as [centroid|x]; [|discriminate].
  simpl in H.
  destruct prev as [p|].
  - destruct (centroid_shift_score (Some p) centroid) as [shift|x] eqn:Es;
      [|discriminate].
    simpl in H.
    destruct (timeline_loop q n rest centroid) as [l|x] eqn:El; [|discriminate].
    simpl in H. inversion H; subst.
    cbn [entry_era entry_top centroid_shift_from_prev].
    split_all; try reflexivity. exists centroid. split_all; auto.
  - simpl in H.
    destruct (timeline_loop q n rest centroid) as [l|x] eqn:El; [|discriminate].
    simpl in H. inversion H; subst.
    cbn [entry_era entry_top centroid_shift_from_prev].
    split_all; try reflexivity. exists centroid. split_all; auto.
Qed.

(** One entry per loaded era, in the order of the eras. *)
Lemma timeline_loop_eras : forall query_emb top_n eras prev tl,
  timeline_loop query_emb top_n eras prev = Ok tl ->
  map entry_era tl = map era_name eras.
Proof.
  intros q n. induction eras as [|e rest IH]; intros prev tl H.
  - inversion H. reflexivity.
  - destruct tl as [|t later].
    + rewrite timeline_loop_cons in H.
      destruct (top_similar_in_era q (era_items e) n); [|discriminate].
      destruct (compute_centroid (era_items e)) as [c|]; [|discriminate].
      simpl in H.
      destruct (match prev with
                | Some _ => centroid_shift_score prev c
                | None => Ok 0%float
                end); [|discriminate].
      simpl in H.
      destruct (timeline_loop q n rest c); discriminate.
    + destruct (timeline_loop_step _ _ _ _ _ H) as (He & _ & c & _ & _ & Hl).
      simpl. rewrite He. f_equal. apply (IH c). exact Hl.
Qed.

(** C6, as the code has it. For a concept that is not memoized:
    when its directory does not exist, the result is an empty timeline
    with an error marker; when the directory exists and holds no era
    file, the result is an empty timeline without an error marker. No
    exception is raised in either case. *)
Theorem build_timeline_no_era_records :
  forall fs concept query_emb top_n (c : eras_cache),
    Lru.lookup String.eqb concept c = None ->
    (fs concept = None ->
       fst (build_timeline_for_query fs concept query_emb top_n c)
       = Ok (TimelineResult concept []
               (Some ("Concept directory not found: "
                      ++ concept_path concept))))
    /\ (forall dir,
          fs concept = Some dir -> json_files dir = [] ->
          fst (build_timeline_for_query fs concept query_emb top_n c)
          = Ok (TimelineResult concept [] None)).
Proof.
  intros fs concept q n c Hmiss. split.
  - intro Hfs. unfold build_timeline_for_query, load_all_eras.
    rewrite Hmiss. unfold load_all_eras_uncached. rewrite Hfs. reflexivity.
  - intros dir Hfs Hfiles.
    unfold build_timeline_for_query, load_all_eras.
    rewrite Hmiss. unfold load_all_eras_uncached. rewrite Hfs, Hfiles.
    reflexivity.
Qed.

End WithNumpy.

(** The theorem on a disk where the directory of [ghost] holds no era
    file. *)
Lemma build_timeline_no_era_records_witness :
  Lru.lookup String.eqb "ghost" ([] : eras_cache) = None
  /\ Examples.bare_disk "ghost"
     = Some [("README.txt", FileInvalidJson "Expecting value")]
  /\ json_files [("README.txt", FileInvalidJson "Expecting value")] = []
  /\ fst (@build_timeline_for_query Model.small_numpy Examples.bare_disk
            "ghost" [1; 0]%float 6 [])
     = Ok (TimelineResult "ghost" [] None).
Proof.
  do 3 (split; [reflexivity|]).
  refine (proj2 (@build_timeline_no_era_records Model.small_numpy
                   Examples.bare_disk "ghost" [1; 0]%float 6%Z []
                   eq_refl) _ eq_refl eq_refl).
Defined.

(** C6 as the specification states it does not hold: the directory of
    [ghost] exists and holds no era file, so no Era Record exists for
    it; the timeline is empty and carries no error marker. *)
Lemma build_timeline_no_error_marker :
  Examples.bare_disk "ghost"
  = Some [("README.txt", FileInvalidJson "Expecting value")]
  /\ fst (@build_timeline_for_query Model.small_numpy Examples.bare_disk
            "ghost" [1; 0]%float 6 [])
     = Ok (TimelineResult "ghost" [] None)
  /\ option_map (fun r => error r)
       (returned (fst (@build_timeline_for_query Model.small_numpy
                         Examples.bare_disk "ghost" [1; 0]%float 6 [])))
     = Some None.
Proof. split_all; vm_compute; reflexivity. Qed.

(** C4, at the failing input. Every item of [2020s.json] fails
    [validate_item], yet the era is loaded and the timeline has an entry
    for it, with nothing in it and a drift of [0.0]. With no item at all
    in [2020s.json] the era is dropped. *)
Theorem build_timeline_keeps_hollow_era :
  let hollow := [Examples.hollow_item "privacy_2020s_0" "privacy settings";
                 Examples.hollow_item "privacy_2020s_1" "data privacy"] in
  load_era_items Examples.hollow_era_disk "privacy" "2020s.json" = Ok hollow
  /\ map (fun it => raised (validate_item it 0)) hollow
     = [Some EmbeddingValidationError; Some EmbeddingValidationError]
  /\ option_map (fun r => map (fun t => (entry_era t, entry_top t,
                                        centroid_shift_from_prev t))
                              (timeline r))
       (returned (fst (@build_timeline_for_query Model.small_numpy
                         Examples.hollow_era_disk "privacy"
                         [1; 0]%float 1 [])))
     = Some [("1900s",
              [TopItem (JStr "privacy_1900s_0") (JStr "privacy of the home")
                       1%float],
              0%float);
             ("2020s", [], 0%float)]
  /\ option_map (fun r => map entry_era (timeline r))
       (returned (fst (@build_timeline_for_query Model.small_numpy
                         Examples.empty_era_disk "privacy"
                         [1; 0]%float 1 [])))
     = Some ["1900s"].
Proof. cbv zeta. split_all; vm_compute; reflexivity. Qed.

End Timeline.

(* ------------------------------------------------------------------ *)
(** ** Similarity search *)

Module Similarity.

Import Py Utils Ranking.

Lemma chain_cons2 : forall (A : Type) (R : A -> A -> bool) a b l,
  chain R (a :: b :: l) = R a b && chain R (b :: l).
Proof. reflexivity. Qed.

Lemma chain_app_single : forall (A : Type) (R : A -> A -> bool) l a b,
  chain R ((l ++ [a]) ++ [b]) = chain R (l ++ [a]) && R a b.
Proof.
  intros A R. induction l as [|x l IH]; intros a b.
  - simpl. destruct (R a b); reflexivity.
  - destruct l as [|y l].
    + simpl. destruct (R x a), (R a b); reflexivity.
    + change (((x :: y :: l) ++ [a]) ++ [b])
        with (x :: y :: ((l ++ [a]) ++ [b])).
      change ((x :: y :: l) ++ [a]) with (x :: y :: (l ++ [a])).
      rewrite !chain_cons2.
      change (y :: (l ++ [a]) ++ [b]) with (((y :: l) ++ [a]) ++ [b]).
      rewrite IH. change ((y :: l) ++ [a]) with (y :: l ++ [a]).
      rewrite andb_assoc. reflexivity.
Qed.

(** Reading a list backwards reverses the relation of its neighbours. *)
Lemma chain_rev : forall (A : Type) (R : A -> A -> bool) l,
  chain R (rev l) = chain (fun a b => R b a) l.
Proof.
  intros A R. induction l as [|x l IH].
  - reflexivity.
  - destruct l as [|y l].
    + reflexivity.
    + rewrite chain_cons2. rewrite <- IH.
      change (rev (x :: y :: l)) with ((rev l ++ [y]) ++ [x]).
      rewrite chain_app_single. change (rev (y :: l)) with (rev l ++ [y]).
      apply andb_comm.
Qed.

Lemma chain_firstn : forall (A : Type) (R : A -> A -> bool) k l,
  chain R l = true -> chain R (firstn k l) = true.
Proof.
  intros A R. induction k as [|k IH]; intros l H.
  - reflexivity.
  - destruct l as [|a l]; [reflexivity|].
    destruct l as [|b l]; [destruct k; reflexivity|].
    rewrite chain_cons2 in H. apply andb_prop in H. destruct H as [Hab Hl].
    specialize (IH (b :: l) Hl).
    destruct k as [|k]; [reflexivity|].
    change (firstn (S (S k)) (a :: b :: l))
      with (a :: b :: firstn k l).
    change (firstn (S k) (b :: l)) with (b :: firstn k l) in IH.
    rewrite chain_cons2, Hab, IH. reflexivity.
Qed.

Lemma chain_slice_to : forall (A : Type) (R : A -> A -> bool) l k,
  chain R l = true -> chain R (slice_to l k) = true.
Proof.
  intros A R l k H. unfold slice_to.
  destruct (k <? 0)%Z; apply chain_firstn; exact H.
Qed.

Lemma slice_to_length : forall (A : Type) (l : list A) k,
  (0 <= k)%Z -> (Z.of_nat (List.length (slice_to l k)) <= k)%Z.
Proof.
  intros A l k Hk. unfold slice_to.
  destruct (k <? 0)%Z eqn:E; [apply Z.ltb_lt in E; lia|].
  rewrite length_firstn. lia.
Qed.

Local Open Scope string_scope.

Section WithNumpy.

Context {NP : Numpy}.

Lemma collect_top_cons : forall items sims i rest,
  collect_top items sims (i :: rest)
  = bind (py_index items i) (fun it =>
    bind (py_getitem it "id") (fun id =>
    bind (py_index items i) (fun it' =>
    bind (py_getitem it' "text") (fun text =>
    bind (py_index sims i) (fun score =>
    bind (collect_top items sims rest) (fun out =>
    Ok (TopItem id text score :: out))))))).
Proof. reflexivity. Qed.

Lemma py_index_In : forall (A : Type) (xs : list A) i x,
  py_index xs i = Ok x -> In x xs /\ nth_error xs i = Some x.
Proof.
  intros A xs i x. unfold py_index.
  destruct (nth_error xs i) as [y|] eqn:E; [|discriminate].
  intro H. inversion H; subst. split; [|reflexivity].
  eapply nth_error_In. exact E.
Qed.

(** What the output loop builds: one element per position, in the order
    of the positions, holding the id and the text of the item at that
    position and the score at that position. *)
Lemma collect_top_spec : forall items sims idx out,
  collect_top items sims idx = Ok out ->
  List.length out = List.length idx
  /\ map top_score out = map (fun i => nth i sims 0%float) idx
  /\ (forall t, In t out ->
        exists it, In it items
                   /\ py_getitem it "id" = Ok (top_id t)
                   /\ py_getitem it "text" = Ok (top_text t)).
Proof.
  intros items sims. induction idx as [|i rest IH]; intros out H.
  - inversion H; subst. split_all; try reflexivity. intros t [].
  - rewrite collect_top_cons in H.
    destruct (py_index items i) as [it|] eqn:Eit; [|discriminate].
    simpl in H.
    destruct (py_getitem it "id") as [id|] eqn:Eid; [|discriminate].
    simpl in H.
    destruct (py_getitem it "text") as [text|] eqn:Etext; [|discriminate].
    simpl in H.
    destruct (py_index sims i) as [score|] eqn:Es; [|discriminate].
    simpl in H.
    destruct (collect_top items sims rest) as [out'|] eqn:Eo; [|discriminate].
    simpl in H. inversion H; subst out; clear H.
    destruct (IH out' eq_refl) as (Hlen & Hscores & Hids).
    apply py_index_In in Eit. destruct Eit as [Hin _].
    apply py_index_In in Es. destruct Es as [_ Hnth].
    split_all.
    + simpl. rewrite Hlen. reflexivity.
    + simpl. rewrite Hscores. f_equal.
      symmetry. apply nth_error_nth. exact Hnth.
    + intros t [<- | Ht].
      * exists it. split_all; assumption.
      * apply Hids. exact Ht.
Qed.

(** C3, as the code has it. For [top_n >= 0] there are at most
    [min(top_n, len(items))] results; the id and the text of every
    result are those of one of the items; the results are listed from
    the highest score to the lowest whenever [np.argsort] lists the
    scores from the lowest to the highest; and the results follow the
    positions given by [np.argsort], reversed and cut, so that among
    equal scores the order is the reverse of the order [np.argsort]
    gives them. *)
Theorem top_similar_in_era_ranked :
  forall (query_emb : list float) (items : list json) (top_n : Z)
         (out : list top_item),
    top_similar_in_era query_emb items top_n = Ok out ->
    (forall X M sims,
        _to_numpy_embeddings items = Ok X ->
        cosine_similarity (np_of_rows [query_emb]) X = Ok M ->
        py_index M 0 = Ok sims ->
        ascending_at sims (np_argsort sims) = true) ->
    ((0 <= top_n)%Z ->
       (Z.of_nat (List.length out)
        <= Z.min top_n (Z.of_nat (List.length items)))%Z)
    /\ (forall t, In t out ->
          exists it, In it items
                     /\ py_getitem it "id" = Ok (top_id t)
                     /\ py_getitem it "text" = Ok (top_text t))
    /\ descending (map top_score out) = true
    /\ (out = []
        \/ exists X M sims,
             _to_numpy_embeddings items = Ok X
             /\ cosine_similarity (np_of_rows [query_emb]) X = Ok M
             /\ py_index M 0 = Ok sims
             /\ collect_top items sims
                  (slice_to (rev (np_argsort sims))
                     (Z.min top_n (Z.of_nat (List.length items))))
                = Ok out).
Proof.
  intros q items n out Hout Hsort.
  assert (Hnil : out = [] ->
    ((0 <= n)%Z ->
       (Z.of_nat (List.length out)
        <= Z.min n (Z.of_nat (List.length items)))%Z)
    /\ (forall t, In t out ->
          exists it, In it items
                     /\ py_getitem it "id" = Ok (top_id t)
                     /\ py_getitem it "text" = Ok (top_text t))
    /\ descending (map top_score out) = true
    /\ (out = []
        \/ exists X M sims,
             _to_numpy_embeddings items = Ok X
             /\ cosine_similarity (np_of_rows [q]) X = Ok M
             /\ py_index M 0 = Ok sims
             /\ collect_top items sims
                  (slice_to (rev (np_argsort sims))
                     (Z.min n (Z.of_nat (List.length items))))
                = Ok out)).
  { intros ->. split_all.
    - intro. simpl. lia.
    - intros t [].
    - reflexivity.
    - left. reflexivity. }
  unfold top_similar_in_era in Hout.
  destruct items as [|it0 its]; [inversion Hout; subst; apply Hnil; reflexivity|].
  destruct q as [|q0 qs]; [inversion Hout; subst; apply Hnil; reflexivity|].
  remember (it0 :: its) as items eqn:Hitems.
  remember (q0 :: qs) as q eqn:Hq.
  destruct (_to_numpy_embeddings items) as [X|e] eqn:EX.
  2:{ simpl in Hout.
      destruct (exn_class_eqb (exn_cls e) EmbeddingValidationError || false);
        [inversion Hout; subst; apply Hnil; reflexivity | discriminate]. }
  simpl in Hout.
  destruct (Nat.eqb (np_size X) 0); [inversion Hout; subst; apply Hnil; reflexivity|].
  destruct (cosine_similarity (np_of_rows [q]) X) as [M|e] eqn:EM.
  2:{ simpl in Hout.
      destruct (exn_class_eqb (exn_cls e) EmbeddingValidationError || false);
        [inversion Hout; subst; apply Hnil; reflexivity | discriminate]. }
  simpl in Hout.
  destruct (py_index M 0) as [sims|e] eqn:Esims.
  2:{ simpl in Hout.
      destruct (exn_class_eqb (exn_cls e) EmbeddingValidationError || false);
        [inversion Hout; subst; apply Hnil; reflexivity | discriminate]. }
  simpl in Hout.
  set (k := Z.min n (Z.of_nat (List.length items))) in *.
  destruct (collect_top items sims (slice_to (rev (np_argsort sims)) k))
    as [out'|e] eqn:Ec.
  2:{ simpl in Hout.
      destruct (exn_class_eqb (exn_cls e) EmbeddingValidationError || false);
        [inversion Hout; subst; apply Hnil; reflexivity | discriminate]. }
  simpl in Hout. inversion Hout; subst out'; clear Hout.
  destruct (collect_top_spec _ _ _ Ec) as (Hlen & Hscores & Hids).
  split_all.
  - intro Hn. rewrite Hlen. apply slice_to_length. unfold k. lia.
  - exact Hids.
  - unfold descending. rewrite Hscores.
    pose proof (Hsort X M sims eq_refl EM Esims) as Hasc.
    unfold ascending_at in Hasc. unfold slice_to.
    destruct (k <? 0)%Z; rewrite <- firstn_map, map_rev;
      apply chain_firstn; rewrite chain_rev; exact Hasc.
  - right. exists X, M, sims. split_all; auto.
Qed.

End WithNumpy.

(** The theorem on three items of distinct scores, two of them asked
    for. *)
Lemma top_similar_in_era_ranked_witness :
  let out := [TopItem (JStr "a") (JStr "first") 1%float;
              TopItem (JStr "d") (JStr "fourth") 0x1.6a09e667f3bccp-1%float] in
  @top_similar_in_era Model.small_numpy [1; 0]%float Examples.spread_items 2
  = Ok out
  /\ (Z.of_nat (List.length out)
      <= Z.min 2 (Z.of_nat (List.length Examples.spread_items)))%Z
  /\ descending (map top_score out) = true.
Proof.
  cbv zeta.
  assert (Hout :
    @top_similar_in_era Model.small_numpy [1; 0]%float Examples.spread_items 2
    = Ok [TopItem (JStr "a") (JStr "first") 1%float;
          TopItem (JStr "d") (JStr "fourth") 0x1.6a09e667f3bccp-1%float])
    by (vm_compute; reflexivity).
  split; [exact Hout|].
  destruct (@top_similar_in_era_ranked Model.small_numpy [1; 0]%float
              Examples.spread_items 2 _ Hout) as (Hlen & _ & Hdesc & _).
  - intros X M sims HX HM Hs.
    vm_compute in HX. inversion HX; subst X; clear HX.
    vm_compute in HM. inversion HM; subst M; clear HM.
    vm_compute in Hs. inversion Hs; subst sims; clear Hs.
    vm_compute. reflexivity.
  - split; [apply Hlen; lia | exact Hdesc].
Defined.

(** C3 as the specification states it does not hold. The first two
    items have the same embedding, hence the same score; they come out
    second item first.
    And with [top_n = -1] two results are returned, more than
    [min(top_n, len(items))]. *)
Lemma top_similar_ties_reversed :
  @top_similar_in_era Model.small_numpy [1; 0]%float Examples.tied_items 2
  = Ok [TopItem (JStr "b") (JStr "second") 1%float;
        TopItem (JStr "a") (JStr "first") 1%float]
  /\ option_map (@List.length _)
       (returned (@top_similar_in_era Model.small_numpy [1; 0]%float
                    Examples.tied_items (-1)))
     = Some 2
  /\ Z.min (-1) (Z.of_nat (List.length Examples.tied_items)) = (-1)%Z.
Proof. split_all; vm_compute; reflexivity. Qed.

End Similarity.

(* ------------------------------------------------------------------ *)
(** ** Cached generation *)

Module Generation.

Import Py Etymology.
Local Open Scope string_scope.

Lemma list_eqb_refl : forall l, list_eqb l l = true.
Proof.
  induction l as [|x l IH]; simpl; [reflexivity|].
  rewrite String.eqb_refl, IH. reflexivity.
Qed.

Lemma key_eqb_refl : forall k : key, key_eqb k k = true.
Proof.
  intros [[w e] n]. simpl.
  rewrite String.eqb_refl, list_eqb_refl, Z.eqb_refl. reflexivity.
Qed.

Lemma lookup_store : forall (k : key) (v : string) c,
  Lru.lookup key_eqb k (Lru.store 100 k v c) = Some v.
Proof.
  intros k v c. unfold Lru.store.
  destruct (100 <=? List.length c)%nat; simpl; rewrite key_eqb_refl;
    reflexivity.
Qed.

Lemma lookup_touch : forall (k : key) (v : string) c,
  Lru.lookup key_eqb k (Lru.touch key_eqb k v c) = Some v.
Proof.
  intros k v c. unfold Lru.touch. simpl. rewrite key_eqb_refl. reflexivity.
Qed.

Lemma check_eras_raises : forall data e,
  check_eras data = Raise e -> exn_cls e = ValueError.
Proof.
  induction data as [|[era examples] rest IH]; intros e H.
  - discriminate.
  - simpl in H. destruct examples; try (inversion H; reflexivity).
    destruct (all_str l); [|inversion H; reflexivity].
    destruct (check_eras rest) as [out|e'] eqn:Er; simpl in H;
      [discriminate|].
    inversion H; subst. apply IH. reflexivity.
Qed.

Section WithDecoder.

Context {JD : JsonDecoder}.

(** [_parse_response] fails with [ValueError] and nothing else. *)
Lemma parse_response_raises : forall content e,
  _parse_response content = Raise e -> exn_cls e = ValueError.
Proof.
  intros content e. unfold _parse_response.
  destruct (json_loads (strip_fences content)) as [msg|j].
  - intro H. inversion H. reflexivity.
  - destruct j; try (intro H; inversion H; reflexivity).
    apply check_eras_raises.
Qed.

(** A hit of [_cached_generation] sends nothing upstream. *)
Lemma cached_generation_hit : forall up word eras n st content,
  Lru.lookup key_eqb (word, eras, n) (llm_cache st) = Some content ->
  _cached_generation up word eras n st
  = (Ok content,
     State (Lru.touch key_eqb (word, eras, n) content (llm_cache st))
           (upstream_calls st)).
Proof.
  intros up word eras n st content H. unfold _cached_generation.
  rewrite H. reflexivity.
Qed.

(** C1, as the code has it. Let the arguments pass validation, the key
    be absent from the cache, the upstream call return the text [raw],
    and [raw] fail to parse with the exception [e]. Then [e] is a
    [ValueError] and [generate_word_evolution] raises it. With caching
    enabled, [raw] is stored under the key all the same: a second call
    with the same arguments, whatever the upstream would answer by
    then, sends no request, is served [raw] from the cache and raises
    [e] again. With caching disabled the cache is left as it was. *)
Theorem malformed_response_is_cached :
  forall cfg (up : upstream) word era0 eras' num_examples st raw e calls',
    let eras := era0 :: eras' in
    let word' := Str.lower (Str.strip word) in
    let k : key := (word', eras, num_examples) in
    (String.eqb word EmptyString
     || String.eqb (Str.strip word) EmptyString) = false ->
    ((num_examples <? 1)%Z
     || (MAX_EXAMPLES_PER_ERA cfg <? num_examples)%Z) = false ->
    check_era_names eras = Ok tt ->
    Lru.lookup key_eqb k (llm_cache st) = None ->
    _call_openrouter up (_build_prompt word' eras num_examples)
                     (upstream_calls st) = (Ok raw, calls') ->
    _parse_response raw = Raise e ->
    exn_cls e = ValueError
    /\ (cache_llm_responses cfg = true ->
        let first := generate_word_evolution cfg up word eras num_examples st in
        fst first = Raise e
        /\ upstream_calls (snd first) = calls'
        /\ Lru.lookup key_eqb k (llm_cache (snd first)) = Some raw
        /\ forall up2 : upstream,
             let second :=
               generate_word_evolution cfg up2 word eras num_examples
                                       (snd first) in
             fst second = Raise e
             /\ upstream_calls (snd second) = calls'
             /\ Lru.lookup key_eqb k (llm_cache (snd second)) = Some raw)
    /\ (cache_llm_responses cfg = false ->
        generate_word_evolution cfg up word eras num_examples st
        = (Raise e, State (llm_cache st) calls')).
Proof.
  intros cfg up word era0 eras' n st raw e calls'. cbv zeta.
  intros Hword Hn Heras Hmiss Hcall Hparse.
  pose proof (parse_response_raises _ Hparse) as Hcls.
  assert (Hreraise :
    try_except (bind (Ok raw) _parse_response)
               [OpenRouterError; TimeoutError; ValueError]
               (fun e => Raise e) = Raise e).
  { unfold bind, try_except. rewrite Hparse, Hcls. reflexivity. }
  split; [exact Hcls|]. split.
  - intro Hcfg.
    assert (Hfirst :
      generate_word_evolution cfg up word (era0 :: eras') n st
      = (Raise e,
         State (Lru.store 100 (Str.lower (Str.strip word), era0 :: eras', n)
                          raw (llm_cache st)) calls')).
    { unfold generate_word_evolution. rewrite Hword, Hn, Heras, Hcfg.
      unfold _cached_generation. rewrite Hmiss, Hcall.
      rewrite Hreraise. reflexivity. }
    rewrite Hfirst. cbn [fst snd llm_cache upstream_calls].
    split_all; try reflexivity.
    + apply lookup_store.
    + intro up2. unfold generate_word_evolution.
      rewrite Hword, Hn, Heras, Hcfg.
      erewrite cached_generation_hit
        by (cbn [llm_cache]; apply lookup_store).
      rewrite Hreraise. cbn [fst snd llm_cache upstream_calls].
      split_all; try reflexivity. apply lookup_touch.
  - intro Hcfg. unfold generate_word_evolution.
    rewrite Hword, Hn, Heras, Hcfg, Hcall. rewrite Hreraise. reflexivity.
Qed.

End WithDecoder.

(** The theorem on a first call that is answered with an unbalanced
    document. *)
Lemma malformed_response_is_cached_witness :
  let cfg := Settings true 20 in
  let first :=
    @generate_word_evolution Model.small_decoder cfg Examples.broken_upstream
      " Privacy " ["1900s"] 5 (State [] 0) in
  raised (fst first) = Some ValueError
  /\ upstream_calls (snd first) = 1
  /\ Lru.lookup key_eqb ("privacy", ["1900s"], 5%Z) (llm_cache (snd first))
     = Some "{".
Proof.
  cbv zeta.
  destruct (@malformed_response_is_cached Model.small_decoder
              (Settings true 20) Examples.broken_upstream " Privacy "
              "1900s" [] 5 (State [] 0) "{"
              (Exn ValueError "Invalid JSON response: Expecting value") 1)
    as (_ & Hon & _); try (vm_compute; reflexivity).
  destruct (Hon eq_refl) as (H1 & H2 & H3 & _).
  split_all.
  - rewrite H1. reflexivity.
  - exact H2.
  - exact H3.
Defined.

(** C1 as the specification states it does not hold. The upstream
    answers the first call with an unbalanced document: the call raises
    [ValueError] and the
    cache now holds that document under the key. The second call, with
    the same arguments and an upstream that would answer well, is served
    the document from the cache: it raises again and sends no request.
    On a fresh process the second upstream gives a result. *)
Lemma malformed_response_served_from_cache :
  let cfg := Settings true 20 in
  let first :=
    @generate_word_evolution Model.small_decoder cfg Examples.broken_upstream
      "privacy" ["1900s"] 5 (State [] 0) in
  let second :=
    @generate_word_evolution Model.small_decoder cfg Examples.sound_upstream
      "privacy" ["1900s"] 5 (snd first) in
  raised (fst first) = Some ValueError
  /\ Lru.lookup key_eqb ("privacy", ["1900s"], 5%Z) (llm_cache (snd first))
     = Some "{"
  /\ raised (fst second) = Some ValueError
  /\ upstream_calls (snd second) = upstream_calls (snd first)
  /\ returned (fst (@generate_word_evolution Model.small_decoder cfg
                      Examples.sound_upstream "privacy" ["1900s"] 5
                      (State [] 0)))
     = Some [("1900s", ["a right to be let alone"])].
Proof. cbv zeta. split_all; vm_compute; reflexivity. Qed.

End Generation.

(* ------------------------------------------------------------------ *)
(** ** Further properties of the generation service *)

Module GenerationMore.

Import Py Etymology Vocab.
Local Open Scope string_scope.

Lemma all_str_JStr : forall ss, all_str (map JStr ss) = Some ss.
Proof.
  induction ss as [|s ss IH]; simpl; [reflexivity|]. rewrite IH. reflexivity.
Qed.

Lemma all_str_inv : forall l ss, all_str l = Some ss -> l = map JStr ss.
Proof.
  induction l as [|j l IH]; intros ss H.
  - inversion H. reflexivity.
  - simpl in H. destruct j; try discriminate.
    destruct (all_str l) as [ss'|] eqn:E; [|discriminate].
    inversion H; subst. simpl. rewrite (IH ss' eq_refl). reflexivity.
Qed.

Lemma check_eras_doc : forall evolution,
  check_eras (map (fun p => (fst p, JArr (map JStr (snd p)))) evolution)
  = Ok evolution.
Proof.
  induction evolution as [|[era ss] rest IH]; simpl; [reflexivity|].
  rewrite all_str_JStr, IH. reflexivity.
Qed.

Lemma check_eras_inv : forall data evolution,
  check_eras data = Ok evolution ->
  data = map (fun p => (fst p, JArr (map JStr (snd p)))) evolution.
Proof.
  induction data as [|[era examples] rest IH]; intros evolution H.
  - inversion H. reflexivity.
  - simpl in H. destruct examples; try discriminate.
    destruct (all_str l) as [ss|] eqn:Es; [|discriminate].
    destruct (check_eras rest) as [out|] eqn:Er; [|discriminate].
    simpl in H. inversion H; subst. simpl.
    rewrite (all_str_inv _ Es), (IH out eq_refl). reflexivity.
Qed.

Section WithDecoder.

Context {JD : JsonDecoder}.

(** X4. [_parse_response] returns a mapping exactly when the decoder
    finds, in the text left by the fence stripping, an object whose
    values are all lists of strings; the mapping then has the keys of
    that object, in its order, with their lists. Which eras were asked
    for plays no part: missing and extra eras are accepted. *)
Theorem parse_response_exact :
  forall content evolution,
    _parse_response content = Ok evolution
    <-> json_loads (strip_fences content) = inr (evolution_doc evolution).
Proof.
  intros content evolution. unfold _parse_response, evolution_doc. split.
  - destruct (json_loads (strip_fences content)) as [msg|j]; [discriminate|].
    destruct j; try discriminate.
    intro H. rewrite (check_eras_inv _ H). reflexivity.
  - intros ->. apply check_eras_doc.
Qed.

Lemma lower_empty : forall s, Str.lower s = EmptyString -> s = EmptyString.
Proof. intros [|c s] H; [reflexivity | discriminate]. Qed.

Lemma check_era_names_blank : forall eras era,
  In era eras -> Str.strip era = EmptyString ->
  exists msg, check_era_names eras = Raise (Exn ValueError msg).
Proof.
  induction eras as [|x eras IH]; intros era Hin Hblank; [destruct Hin|].
  simpl. destruct (String.eqb_spec (Str.strip x) EmptyString) as [Hx|Hx].
  - eexists; reflexivity.
  - destruct Hin as [-> | Hin]; [contradiction|]. apply (IH era); assumption.
Qed.

(** X1. When the word is blank, or no era is given, or the number of
    examples is outside [1, MAX_EXAMPLES_PER_ERA], or one of the eras is
    blank, [generate_word_evolution] raises [ValueError] and leaves the
    state as it was: nothing is sent upstream and the cache is not
    touched. *)
Theorem generate_rejects_invalid_input :
  forall cfg (up : upstream) word eras num_examples st,
    Str.strip word = EmptyString
    \/ eras = []
    \/ (num_examples < 1)%Z
    \/ (MAX_EXAMPLES_PER_ERA cfg < num_examples)%Z
    \/ (exists era, In era eras /\ Str.strip era = EmptyString) ->
    exists msg,
      generate_word_evolution cfg up word eras num_examples st
      = (Raise (Exn ValueError msg), st).
Proof.
  intros cfg up word eras n st H. unfold generate_word_evolution.
  destruct (String.eqb word EmptyString
            || String.eqb (Str.strip word) EmptyString) eqn:Ew;
    [eexists; reflexivity|].
  apply orb_false_elim in Ew. destruct Ew as [_ Ew].
  apply String.eqb_neq in Ew.
  destruct H as [H | H]; [contradiction|].
  destruct eras as [|era0 eras']; [eexists; reflexivity|].
  destruct H as [H | H]; [discriminate|].
  destruct ((n <? 1)%Z || (MAX_EXAMPLES_PER_ERA cfg <? n)%Z) eqn:En;
    [eexists; reflexivity|].
  apply orb_false_elim in En. destruct En as [E1 E2].
  apply Z.ltb_ge in E1. apply Z.ltb_ge in E2.
  destruct H as [H | [H | (era & Hin & Hblank)]]; try lia.
  destruct (check_era_names_blank _ _ Hin Hblank) as [msg ->].
  eexists; reflexivity.
Qed.

(** What a successful call with caching enabled leaves behind. *)
Lemma generate_ok_cached : forall cfg up word eras n st r st1,
  cache_llm_responses cfg = true ->
  generate_word_evolution cfg up word eras n st = (Ok r, st1) ->
  Str.strip word <> EmptyString
  /\ eras <> []
  /\ ((n <? 1)%Z || (MAX_EXAMPLES_PER_ERA cfg <? n)%Z) = false
  /\ check_era_names eras = Ok tt
  /\ exists content,
       Lru.lookup key_eqb (Str.lower (Str.strip word), eras, n)
                  (llm_cache st1) = Some content
       /\ _parse_response content = Ok r.
Proof.
  intros cfg up word eras n st r st1 Hcfg H.
  unfold generate_word_evolution in H.
  destruct (String.eqb word EmptyString
            || String.eqb (Str.strip word) EmptyString) eqn:Ew;
    [discriminate|].
  apply orb_false_elim in Ew. destruct Ew as [_ Ew].
  apply String.eqb_neq in Ew.
  destruct eras as [|era0 eras']; [discriminate|].
  destruct ((n <? 1)%Z || (MAX_EXAMPLES_PER_ERA cfg <? n)%Z) eqn:En;
    [discriminate|].
  destruct (check_era_names (era0 :: eras')) as [[]|e] eqn:Ec;
    [|discriminate].
  rewrite Hcfg in H. unfold _cached_generation in H.
  split_all; try assumption; try discriminate; try reflexivity.
  destruct (Lru.lookup key_eqb
              (Str.lower (Str.strip word), era0 :: eras', n) (llm_cache st))
    as [content|] eqn:El.
  - exists content.
    destruct (_parse_response content) as [r'|e] eqn:Ep.
    + unfold bind, try_except in H. rewrite Ep in H.
      inversion H; subst. cbn [llm_cache]. split; [|reflexivity].
      apply Generation.lookup_touch.
    + unfold bind, try_except in H. rewrite Ep in H.
      match type of H with
        | context [existsb ?f ?l] => destruct (existsb f l)
        end; inversion H.
  - destruct (_call_openrouter up _ (upstream_calls st)) as [[content|e] calls].
    + exists content.
      destruct (_parse_response content) as [r'|e] eqn:Ep.
      * unfold bind, try_except in H. rewrite Ep in H.
        inversion H; subst. cbn [llm_cache]. split; [|reflexivity].
        apply Generation.lookup_store.
      * unfold bind, try_except in H. rewrite Ep in H.
        match type of H with
        | context [existsb ?f ?l] => destruct (existsb f l)
        end; inversion H.
    + unfold bind, try_except in H.
      match type of H with
        | context [existsb ?f ?l] => destruct (existsb f l)
        end; inversion H.
Qed.

(** X2. With caching enabled, once [generate_word_evolution] has
    returned a result, the next call with the same eras, the same count
    and a word that normalises (trim, lower case) to the same word
    returns the same result and sends nothing upstream, whatever the
    upstream would answer. *)
Theorem generate_idempotent_when_cached :
  forall cfg (up up2 : upstream) word word2 eras num_examples st r st1,
    cache_llm_responses cfg = true ->
    generate_word_evolution cfg up word eras num_examples st = (Ok r, st1) ->
    Str.lower (Str.strip word2) = Str.lower (Str.strip word) ->
    fst (generate_word_evolution cfg up2 word2 eras num_examples st1) = Ok r
    /\ upstream_calls
         (snd (generate_word_evolution cfg up2 word2 eras num_examples st1))
       = upstream_calls st1.
Proof.
  intros cfg up up2 word word2 eras n st r st1 Hcfg H Hnorm.
  destruct (generate_ok_cached _ _ _ _ _ _ Hcfg H)
    as (Hw & He & Hn & Hc & content & Hl & Hp).
  assert (Hw2 : Str.strip word2 <> EmptyString).
  { intro E. rewrite E in Hnorm. simpl in Hnorm. symmetry in Hnorm.
    apply lower_empty in Hnorm. contradiction. }
  assert (Hw2' : word2 <> EmptyString).
  { intro E. subst word2. apply Hw2. reflexivity. }
  unfold generate_word_evolution.
  rewrite (proj2 (String.eqb_neq _ _) Hw2), (proj2 (String.eqb_neq _ _) Hw2').
  simpl orb. destruct eras as [|era0 eras']; [contradiction|].
  rewrite Hn, Hc, Hcfg, Hnorm.
  rewrite (Generation.cached_generation_hit up2 _ _ _ _ Hl).
  unfold bind, try_except. rewrite Hp. split; reflexivity.
Qed.

(** Three failed attempts in a row: the call raises what the third
    attempt raised, after exactly three requests. *)
Lemma call_openrouter_all_fail : forall (up : upstream) prompt calls,
  (forall i, i < 3 ->
     is_ok (fst (call_openrouter_once up prompt (calls + i))) = false) ->
  exists e,
    _call_openrouter up prompt calls = (Raise e, calls + 3)
    /\ fst (call_openrouter_once up prompt (calls + 2)) = Raise e
    /\ transient e = true.
Proof.
  intros up prompt calls Hfail.
  unfold _call_openrouter, retry. change (3 - 1) with 2. fold transient.
  destruct (Retry.retry_from_run transient (call_openrouter_once up prompt)
              (Retry.call_openrouter_once_calls up prompt) 2 calls)
    as (k & Hk & Hs & _ & Hf & He).
  destruct (retry_from 2 transient (call_openrouter_once up prompt) calls)
    as [r w] eqn:E.
  cbn [fst snd] in Hs, Hf, He. subst w.
  pose proof (Hfail k ltac:(lia)) as Hbad. rewrite <- Hf in Hbad.
  destruct r as [c|e]; [discriminate|].
  pose proof (Retry.call_openrouter_once_raises up prompt (calls + k)
                (eq_sym Hf)) as Ht.
  destruct (He e eq_refl) as [Hno | Hk2]; [congruence|].
  subst k. exists e. split_all.
  - reflexivity.
  - symmetry. exact Hf.
  - exact Ht.
Qed.

(** X3. A failed upstream call is not cached. When the arguments pass
    validation, the key is not in the cache (or caching is disabled) and
    the three attempts of the upstream call all fail,
    [generate_word_evolution] raises what the third attempt raised,
    three requests have been sent and the cache is as it was, so that
    the next call goes upstream again. *)
Theorem generate_upstream_failure_not_cached :
  forall cfg (up : upstream) word era0 eras' num_examples st,
    let eras := era0 :: eras' in
    let word' := Str.lower (Str.strip word) in
    let prompt := _build_prompt word' eras num_examples in
    (String.eqb word EmptyString
     || String.eqb (Str.strip word) EmptyString) = false ->
    ((num_examples <? 1)%Z
     || (MAX_EXAMPLES_PER_ERA cfg <? num_examples)%Z) = false ->
    check_era_names eras = Ok tt ->
    (cache_llm_responses cfg = true ->
     Lru.lookup key_eqb (word', eras, num_examples) (llm_cache st) = None) ->
    (forall i, i < 3 ->
       is_ok (fst (call_openrouter_once up prompt (upstream_calls st + i)))
       = false) ->
    exists e,
      generate_word_evolution cfg up word eras num_examples st
      = (Raise e, State (llm_cache st) (upstream_calls st + 3))
      /\ fst (call_openrouter_once up prompt (upstream_calls st + 2))
         = Raise e
      /\ transient e = true.
Proof.
  intros cfg up word era0 eras' n st. cbv zeta.
  intros Hword Hn Heras Hmiss Hfail.
  destruct (call_openrouter_all_fail up _ _ Hfail) as (e & Hcall & Hlast & Ht).
  exists e. split_all; try assumption.
  assert (Hreraise :
    try_except (bind (Raise e) _parse_response)
               [OpenRouterError; TimeoutError; ValueError]
               (fun e => Raise e) = Raise e).
  { unfold bind, try_except. destruct (existsb _ _); reflexivity. }
  unfold generate_word_evolution. rewrite Hword, Hn, Heras.
  destruct (cache_llm_responses cfg) eqn:Hcfg.
  - unfold _cached_generation. rewrite (Hmiss eq_refl), Hcall, Hreraise.
    reflexivity.
  - rewrite Hcall, Hreraise. reflexivity.
Qed.

End WithDecoder.

(** The rejection of a blank word. *)
Lemma generate_rejects_invalid_input_witness :
  Str.strip "   " = EmptyString
  /\ exists msg,
       @generate_word_evolution Model.small_decoder (Settings true 20)
         Examples.sound_upstream "   " ["1900s"] 5 (State [] 0)
       = (Raise (Exn ValueError msg), State [] 0).
Proof.
  split; [reflexivity|].
  apply (@generate_rejects_invalid_input Model.small_decoder).
  left. reflexivity.
Defined.

(** A first call answered well, then a second call with another
    spelling of the word and an upstream that would answer badly. *)
Lemma generate_idempotent_when_cached_witness :
  let cfg := Settings true 20 in
  let first :=
    @generate_word_evolution Model.small_decoder cfg Examples.sound_upstream
      "Privacy" ["1900s"] 5 (State [] 0) in
  let second :=
    @generate_word_evolution Model.small_decoder cfg Examples.broken_upstream
      " privacy " ["1900s"] 5 (snd first) in
  fst first = Ok [("1900s", ["a right to be let alone"])]
  /\ fst second = fst first
  /\ upstream_calls (snd second) = 1.
Proof.
  cbv zeta.
  destruct (@generate_word_evolution Model.small_decoder (Settings true 20)
              Examples.sound_upstream "Privacy" ["1900s"] 5 (State [] 0))
    as [r st1] eqn:E.
  assert (Hr : r = Ok [("1900s", ["a right to be let alone"])])
    by (vm_compute in E; inversion E; reflexivity).
  assert (Hc : upstream_calls st1 = 1)
    by (vm_compute in E; inversion E; reflexivity).
  subst r. cbn [fst snd].
  destruct (@generate_idempotent_when_cached Model.small_decoder
              (Settings true 20) Examples.sound_upstream
              Examples.broken_upstream "Privacy" " privacy " ["1900s"] 5
              (State [] 0) _ st1 eq_refl E eq_refl) as [H1 H2].
  split_all; [reflexivity | exact H1 | rewrite H2; exact Hc].
Defined.

(** Three timeouts in a row on an empty cache. *)
Lemma generate_upstream_failure_not_cached_witness :
  exists e,
    @generate_word_evolution Model.small_decoder (Settings true 20)
      Fixtures.timeout_upstream "privacy" ["1900s"] 5 (State [] 0)
    = (Raise e, State [] 3)
    /\ exn_cls e = TimeoutError.
Proof.
  destruct (@generate_upstream_failure_not_cached Model.small_decoder
              (Settings true 20) Fixtures.timeout_upstream "privacy"
              "1900s" [] 5 (State [] 0) eq_refl eq_refl eq_refl
              (fun _ => eq_refl) (fun _ _ => eq_refl))
    as (e & H & Hlast & _).
  exists e. split; [exact H|].
  vm_compute in Hlast. inversion Hlast. reflexivity.
Defined.

End GenerationMore.

(* ------------------------------------------------------------------ *)
(** ** Fence stripping *)

Module Fences.

Import Py Etymology Vocab.

Lemma split_nonempty : forall sep s, Str.split sep s <> [].
Proof.
  intros sep s. destruct s as [|c s]; simpl; [discriminate|].
  destruct (Ascii.eqb c sep); [discriminate|].
  destruct (Str.split sep s); discriminate.
Qed.

(** Splitting at a separator splits the two sides. *)
Lemma split_app_sep : forall sep x y,
  Str.split sep (x ++ String sep y)%string
  = Str.split sep x ++ Str.split sep y.
Proof.
  intros sep x y. induction x as [|c x IH].
  - simpl. rewrite Ascii.eqb_refl. reflexivity.
  - simpl. destruct (Ascii.eqb c sep); [rewrite IH; reflexivity|].
    rewrite IH. destruct (Str.split sep x) as [|w ws] eqn:E.
    + exfalso. apply (split_nonempty sep x E).
    + reflexivity.
Qed.

Lemma split_one_line : forall s,
  one_line s = true -> Str.split Str.newline s = [s].
Proof.
  induction s as [|c s IH]; intro H; [reflexivity|].
  simpl in H. apply andb_prop in H. destruct H as [Hc Hs].
  simpl. apply negb_true_iff in Hc. rewrite Hc, (IH Hs). reflexivity.
Qed.

(** Joining what was split gives the text back. *)
Lemma join_split : forall sep s,
  Str.join (String sep EmptyString) (Str.split sep s) = s.
Proof.
  intros sep s. induction s as [|c s IH]; [reflexivity|].
  simpl Str.split. destruct (Ascii.eqb_spec c sep) as [-> | Hne].
  - destruct (Str.split sep s) as [|w ws] eqn:E;
      [exfalso; apply (split_nonempty sep s E)|].
    change (Str.join (String sep EmptyString) (EmptyString :: w :: ws))
      with (String sep (Str.join (String sep EmptyString) (w :: ws))).
    rewrite IH. reflexivity.
  - destruct (Str.split sep s) as [|w ws] eqn:E;
      [exfalso; apply (split_nonempty sep s E)|].
    destruct ws as [|w' ws'].
    + simpl in *. rewrite IH. reflexivity.
    + change (Str.join (String sep EmptyString) (String c w :: w' :: ws'))
        with (String c (w ++ String sep EmptyString
                          ++ Str.join (String sep EmptyString) (w' :: ws')))%string.
      change (Str.join (String sep EmptyString) (w :: w' :: ws'))
        with (w ++ String sep EmptyString
                ++ Str.join (String sep EmptyString) (w' :: ws'))%string in IH.
      rewrite IH. reflexivity.
Qed.

Lemma rstrip_unspaced : forall s,
  ends_unspaced s = true -> Str.rstrip s = s.
Proof.
  induction s as [|c s IH]; intro H; [discriminate|].
  destruct s as [|d s].
  - simpl in *. apply negb_true_iff in H. rewrite H. reflexivity.
  - change (ends_unspaced (String c (String d s)))
      with (ends_unspaced (String d s)) in H.
    change (Str.rstrip (String c (String d s)))
      with (match Str.rstrip (String d s) with
            | EmptyString =>
                if Str.is_space c then EmptyString else String c EmptyString
            | r => String c r
            end).
    rewrite (IH H). reflexivity.
Qed.

Lemma ends_unspaced_app : forall x y,
  ends_unspaced y = true -> ends_unspaced (x ++ y)%string = true.
Proof.
  induction x as [|c x IH]; intros y H; [exact H|].
  simpl append. specialize (IH y H).
  destruct (x ++ y)%string as [|d z] eqn:E; [discriminate|].
  exact IH.
Qed.

Lemma string_app_assoc : forall a b c : string,
  ((a ++ b) ++ c = a ++ (b ++ c))%string.
Proof.
  induction a as [|x a IH]; intros b c; simpl; [reflexivity|].
  rewrite IH. reflexivity.
Qed.

Local Open Scope string_scope.

(** X5. A response wrapped in a code fence whose opening line carries
    the language tag is unwrapped to its body, unchanged. When the body
    itself begins with [json], those four characters are taken for a
    language tag and removed, and what remains is trimmed. *)
Theorem strip_fences_unwraps :
  forall tag body,
    one_line tag = true ->
    strip_fences (fenced tag body)
    = if Str.startswith body "json" then Str.strip (Str.drop 4 body)
      else body.
Proof.
  intros tag body Htag. unfold strip_fences.
  assert (Hstrip : Str.strip (fenced tag body) = fenced tag body).
  { unfold Str.strip.
    change (Str.lstrip (fenced tag body)) with (fenced tag body).
    apply rstrip_unspaced. unfold fenced.
    rewrite <- !string_app_assoc. apply ends_unspaced_app. reflexivity. }
  rewrite Hstrip.
  change (Str.startswith (fenced tag body) "```") with true. cbv iota.
  assert (Hsplit : Str.split Str.newline (fenced tag body)
                   = ("```" ++ tag) :: Str.split Str.newline body ++ ["```"]).
  { unfold fenced, nl.
    replace ("```" ++ tag ++ String Str.newline EmptyString ++ body
             ++ String Str.newline EmptyString ++ "```")
      with (("```" ++ tag) ++ String Str.newline (body ++ String Str.newline "```"))
      by (rewrite string_app_assoc; reflexivity).
    rewrite !split_app_sep.
    rewrite (split_one_line ("```" ++ tag)) by exact Htag.
    reflexivity. }
  rewrite Hsplit. unfold slice_1_m1. rewrite removelast_last.
  unfold nl. rewrite join_split. reflexivity.
Qed.

(** X6. A fence that is opened and never closed costs the response its
    last line: a one-line body after the opening fence line is reduced
    to the empty text. *)
Theorem strip_fences_unclosed :
  forall tag body,
    one_line tag = true ->
    one_line body = true ->
    ends_unspaced body = true ->
    strip_fences ("```" ++ tag ++ nl ++ body) = EmptyString.
Proof.
  intros tag body Htag Hbody Hend. unfold strip_fences.
  assert (Hstrip : Str.strip ("```" ++ tag ++ nl ++ body)
                   = "```" ++ tag ++ nl ++ body).
  { unfold Str.strip.
    change (Str.lstrip ("```" ++ tag ++ nl ++ body))
      with ("```" ++ tag ++ nl ++ body).
    apply rstrip_unspaced.
    rewrite <- !string_app_assoc. apply ends_unspaced_app. exact Hend. }
  rewrite Hstrip.
  change (Str.startswith ("```" ++ tag ++ nl ++ body) "```") with true.
  cbv iota.
  assert (Hsplit : Str.split Str.newline ("```" ++ tag ++ nl ++ body)
                   = ["```" ++ tag; body]).
  { unfold nl.
    replace ("```" ++ tag ++ String Str.newline EmptyString ++ body)
      with (("```" ++ tag) ++ String Str.newline body)
      by (rewrite string_app_assoc; reflexivity).
    rewrite split_app_sep.
    rewrite (split_one_line ("```" ++ tag)) by exact Htag.
    rewrite (split_one_line body) by exact Hbody. reflexivity. }
  rewrite Hsplit. reflexivity.
Qed.

Lemma strip_fences_unwraps_witness :
  one_line "json" = true
  /\ strip_fences (fenced "json" "{}") = "{}".
Proof.
  split; [reflexivity|].
  exact (strip_fences_unwraps "json" "{}" eq_refl).
Defined.

Lemma strip_fences_unclosed_witness :
  one_line "json" = true
  /\ one_line "{}" = true
  /\ ends_unspaced "{}" = true
  /\ strip_fences ("```" ++ "json" ++ nl ++ "{}") = EmptyString.
Proof.
  do 3 (split; [reflexivity|]).
  exact (strip_fences_unclosed "json" "{}" eq_refl eq_refl eq_refl).
Defined.

End Fences.

(* ------------------------------------------------------------------ *)
(** ** Further properties of the loader *)

Module LoadingMore.

Import Py Utils Vocab.
Local Open Scope string_scope.

Lemma all_fields_in_has : forall kv,
  all_fields_in (JObj kv) required_fields = Ok (has_all_fields (JObj kv)).
Proof.
  intro kv. unfold required_fields, has_all_fields, required_fields. simpl.
  destruct (assoc "id" kv); [|reflexivity].
  destruct (assoc "text" kv); [|reflexivity].
  destruct (assoc "embedding" kv); reflexivity.
Qed.

Lemma filter_valid_dicts_exact : forall its,
  forallb is_dict its = true ->
  filter_valid its = Ok (filter has_all_fields its).
Proof.
  induction its as [|x its IH]; intro H; [reflexivity|].
  simpl in H. apply andb_prop in H. destruct H as [Hx Hits].
  destruct x; try discriminate.
  rewrite Loading.filter_valid_cons, all_fields_in_has, (IH Hits).
  change (filter has_all_fields (JObj kv :: its))
    with (if has_all_fields (JObj kv)
          then JObj kv :: filter has_all_fields its
          else filter has_all_fields its).
  destruct (has_all_fields (JObj kv)); reflexivity.
Qed.

(** X7. For an era file whose items are all JSON objects,
    [load_era_items] returns exactly the items in which [id], [text] and
    [embedding] are all present, in the order of the file; no such item
    is lost and the shape of the embedding plays no part. *)
Theorem load_era_items_exact :
  forall fs concept era_file dir kv its,
    fs concept = Some dir ->
    assoc era_file dir = Some (FileJson (JObj kv)) ->
    assoc "items" kv = Some (JArr its) ->
    forallb is_dict its = true ->
    load_era_items fs concept era_file = Ok (filter has_all_fields its).
Proof.
  intros fs concept era_file dir kv its Hfs Hfile Hitems Hdicts.
  unfold load_era_items. rewrite Hfs, Hfile. simpl. rewrite Hitems. simpl.
  rewrite (Loading.validate_all_dicts its 0 Hdicts). simpl.
  apply filter_valid_dicts_exact. exact Hdicts.
Qed.

Lemma load_era_items_exact_witness :
  Examples.mixed_disk "liberty"
  = Some [("1900s.json",
           Examples.era_file
             [Examples.item "liberty_1900s_0" "liberty of the press"
                            [1; 0]%float;
              Examples.hollow_item "liberty_1900s_1" "at liberty"])]
  /\ load_era_items Examples.mixed_disk "liberty" "1900s.json"
     = Ok [Examples.item "liberty_1900s_0" "liberty of the press"
                         [1; 0]%float;
           Examples.hollow_item "liberty_1900s_1" "at liberty"].
Proof.
  split; [reflexivity|].
  exact (@load_era_items_exact Examples.mixed_disk "liberty" "1900s.json"
           _ _ _ eq_refl eq_refl eq_refl eq_refl).
Defined.

Lemma check_required_classes : forall it index fields e,
  check_required it index fields = Raise e ->
  exn_cls e = EmbeddingValidationError \/ exn_cls e = TypeError.
Proof.
  intros it index. induction fields as [|f fields IH]; intros e H.
  - discriminate.
  - simpl in H. destruct (py_contains f it) as [b|e'] eqn:Ec.
    + simpl in H. destruct b; [apply IH; exact H|].
      inversion H. left. reflexivity.
    + simpl in H. inversion H; subst.
      destruct it; simpl in Ec; inversion Ec; right; reflexivity.
Qed.

(** [validate_item] raises [EmbeddingValidationError] or [TypeError]. *)
Lemma validate_item_classes : forall it index e,
  validate_item it index = Raise e ->
  exn_cls e = EmbeddingValidationError \/ exn_cls e = TypeError.
Proof.
  intros it index e H. unfold validate_item in H.
  destruct (check_required it index required_fields) as [u|e'] eqn:Ec.
  - simpl in H.
    destruct (py_getitem it "embedding") as [emb|e'] eqn:Eg.
    + simpl in H. destruct emb as [| | | | |[|x l]|]; inversion H;
        left; reflexivity.
    + simpl in H. inversion H; subst.
      destruct it; simpl in Eg; try (inversion Eg; right; reflexivity).
      unfold required_fields in Ec. simpl in Ec.
      destruct (assoc "id" kv); simpl in Ec; [|discriminate].
      destruct (assoc "text" kv); simpl in Ec; [|discriminate].
      destruct (assoc "embedding" kv); simpl in Ec; discriminate.
  - simpl in H. inversion H; subst.
    apply (check_required_classes _ _ _ Ec).
Qed.

Lemma validate_item_scalar : forall it index,
  is_scalar it = true -> raised (validate_item it index) = Some TypeError.
Proof. intros it index H. destruct it; try discriminate; reflexivity. Qed.

Lemma validate_all_cons : forall it its index,
  validate_all (it :: its) index
  = bind (try_except (validate_item it index)
                     [EmbeddingValidationError] (fun _ => Ok tt))
         (fun _ => validate_all its (S index)).
Proof. reflexivity. Qed.

(** A scalar among the items stops the validation loop with a
    [TypeError]. *)
Lemma validate_all_scalar : forall its index it,
  In it its -> is_scalar it = true ->
  raised (validate_all its index) = Some TypeError.
Proof.
  induction its as [|x its IH]; intros index it Hin Hs; [destruct Hin|].
  rewrite validate_all_cons.
  destruct (validate_item x index) as [u|e] eqn:Ev.
  - simpl. destruct Hin as [-> | Hin].
    + pose proof (validate_item_scalar it index Hs) as Hr.
      rewrite Ev in Hr. discriminate.
    + apply (IH _ it); assumption.
  - destruct (validate_item_classes _ _ Ev) as [Hc | Hc].
    + unfold try_except. rewrite Hc. simpl.
      destruct Hin as [-> | Hin].
      * pose proof (validate_item_scalar it index Hs) as Hr.
        rewrite Ev in Hr. simpl in Hr. congruence.
      * apply (IH _ it); assumption.
    + unfold try_except. rewrite Hc. simpl. rewrite Hc. reflexivity.
Qed.

Lemma load_era_items_scalar : forall fs concept era_file dir kv its it,
  fs concept = Some dir ->
  assoc era_file dir = Some (FileJson (JObj kv)) ->
  assoc "items" kv = Some (JArr its) ->
  In it its -> is_scalar it = true ->
  raised (load_era_items fs concept era_file) = Some TypeError.
Proof.
  intros fs concept era_file dir kv its it Hfs Hfile Hitems Hin Hs.
  unfold load_era_items. rewrite Hfs, Hfile. simpl. rewrite Hitems. simpl.
  pose proof (validate_all_scalar its 0 it Hin Hs) as Hv.
  destruct (validate_all its 0) as [u|e]; [discriminate|].
  simpl in *. exact Hv.
Qed.

Lemma filter_valid_classes : forall its e,
  filter_valid its = Raise e -> exn_cls e = TypeError.
Proof.
  induction its as [|x its IH]; intros e H; [discriminate|].
  rewrite Loading.filter_valid_cons in H.
  destruct (all_fields_in x required_fields) as [b|e'] eqn:Ea.
  - simpl in H. destruct (filter_valid its) as [r|e'] eqn:Er;
      [discriminate|].
    simpl in H. inversion H; subst. apply IH. reflexivity.
  - simpl in H. inversion H; subst.
    unfold required_fields in Ea. simpl in Ea.
    destruct (py_contains "id" x) as [b|e1] eqn:E1.
    + simpl in Ea. destruct b; [|discriminate].
      destruct (py_contains "text" x) as [b|e2] eqn:E2.
      * simpl in Ea. destruct b; [|discriminate].
        destruct (py_contains "embedding" x) as [b|e3] eqn:E3.
        -- simpl in Ea. destruct b; discriminate.
        -- simpl in Ea. inversion Ea; subst.
           destruct x; simpl in E3; inversion E3; reflexivity.
      * simpl in Ea. inversion Ea; subst.
        destruct x; simpl in E2; inversion E2; reflexivity.
    + simpl in Ea. inversion Ea; subst.
      destruct x; simpl in E1; inversion E1; reflexivity.
Qed.

Lemma validate_all_classes : forall its index e,
  validate_all its index = Raise e -> exn_cls e = TypeError.
Proof.
  induction its as [|x its IH]; intros index e H; [discriminate|].
  rewrite validate_all_cons in H.
  destruct (validate_item x index) as [u|e'] eqn:Ev.
  - simpl in H. apply (IH _ _ H).
  - destruct (validate_item_classes _ _ Ev) as [Hc | Hc];
      unfold try_except in H; rewrite Hc in H; simpl in H.
    + apply (IH _ _ H).
    + inversion H; subst. exact Hc.
Qed.

(** [load_era_items] raises one of four classes of exception, of which
    [load_all_eras] catches two. *)
Lemma load_era_items_classes : forall fs concept era_file e,
  load_era_items fs concept era_file = Raise e ->
  exn_cls e = FileNotFoundError
  \/ exn_cls e = EmbeddingValidationError
  \/ exn_cls e = AttributeError
  \/ exn_cls e = TypeError.
Proof.
  intros fs concept era_file e H. unfold load_era_items in H.
  destruct (fs concept) as [dir|]; [|inversion H; auto].
  destruct (assoc era_file dir) as [[js|msg]|]; try (inversion H; auto; fail).
  destruct (py_get js "items" (JArr [])) as [items|e'] eqn:Eg.
  - simpl in H. destruct (py_iter items) as [its|e'] eqn:Ei.
    + simpl in H. destruct (validate_all its 0) as [u|e'] eqn:Ev.
      * simpl in H. right; right; right. apply (filter_valid_classes _ H).
      * simpl in H. inversion H; subst. right; right; right.
        apply (validate_all_classes _ _ Ev).
    + simpl in H. inversion H; subst.
      destruct items; simpl in Ei; inversion Ei; auto.
  - simpl in H. inversion H; subst.
    destruct js; simpl in Eg; inversion Eg; auto.
Qed.

Lemma escapes_classes : forall fs concept era_file e,
  load_era_items fs concept era_file = Raise e ->
  escapes e = true ->
  exn_cls e = TypeError \/ exn_cls e = AttributeError.
Proof.
  intros fs concept era_file e H He.
  destruct (load_era_items_classes _ _ _ H) as [Hc | [Hc | [Hc | Hc]]];
    unfold escapes in He; rewrite Hc in He; try discriminate; auto.
Qed.

(** An exception that [load_all_eras] does not catch, raised for one
    file, makes the whole loop raise such an exception. *)
Lemma load_eras_loop_escape : forall fs concept files fn e,
  In fn files ->
  load_era_items fs concept fn = Raise e ->
  escapes e = true ->
  exists e',
    load_eras_loop fs concept files = Raise e'
    /\ (exn_cls e' = TypeError \/ exn_cls e' = AttributeError).
Proof.
  intros fs concept. induction files as [|f files IH];
    intros fn e Hin Hload Hesc; [destruct Hin|].
  rewrite Loading.load_eras_loop_cons.
  destruct (load_era_items fs concept f) as [its|e0] eqn:Ef.
  - destruct Hin as [-> | Hin]; [congruence|].
    destruct (IH fn e Hin Hload Hesc) as (e' & He' & Hc').
    exists e'. simpl. rewrite He'. split; [reflexivity | exact Hc'].
  - destruct (escapes e0) eqn:E0.
    + exists e0. unfold bind at 2. unfold try_except.
      unfold escapes in E0. apply negb_true_iff in E0. rewrite E0.
      split; [reflexivity|].
      apply (escapes_classes _ _ _ Ef).
      unfold escapes. rewrite E0. reflexivity.
    + destruct Hin as [-> | Hin]; [congruence|].
      destruct (IH fn e Hin Hload Hesc) as (e' & He' & Hc').
      exists e'. unfold bind at 2. unfold try_except.
      unfold escapes in E0. apply negb_false_iff in E0. rewrite E0.
      simpl. rewrite He'. split; [reflexivity | exact Hc'].
Qed.

Lemma In_insert_sorted : forall x y l,
  In x (Str.insert_sorted y l) <-> x = y \/ In x l.
Proof.
  intros x y. induction l as [|z l IH]; simpl.
  - split; [intros [H|[]]; auto | intros [H|[]]; auto].
  - destruct (String.leb y z); simpl; [split; intros [H|H]; auto|].
    rewrite IH. tauto.
Qed.

Lemma In_sorted : forall x l, In x (Str.sorted l) <-> In x l.
Proof.
  intros x. induction l as [|y l IH]; simpl; [tauto|].
  rewrite In_insert_sorted, IH. split; intros [H|H]; auto.
Qed.

Lemma assoc_In : forall (V : Type) k (kv : list (string * V)) v,
  assoc k kv = Some v -> In k (map fst kv).
Proof.
  intros V k. induction kv as [|[k' v'] kv IH]; intros v H; [discriminate|].
  simpl in H. destruct (String.eqb_spec k k') as [-> | Hne].
  - left. reflexivity.
  - right. apply (IH v H).
Qed.

Lemma json_files_In : forall (dir : directory) fn file,
  assoc fn dir = Some file ->
  Str.suffix fn = ".json" ->
  In fn (json_files dir).
Proof.
  intros dir fn file Ha Hs. unfold json_files.
  apply In_sorted. apply filter_In. split.
  - apply (assoc_In _ _ Ha).
  - rewrite Hs. reflexivity.
Qed.

Section WithNumpy.

Context {NP : Numpy}.

(** X8. One number, boolean or null among the items of one era file is
    a hard failure for the whole concept: [load_era_items] raises
    [TypeError] for that file, [load_all_eras] does not catch it, and
    [build_timeline_for_query] raises a [TypeError] or an
    [AttributeError] (raised for that file or for an earlier one of the
    same kind) instead of returning a timeline; nothing is memoized. *)
Theorem build_timeline_scalar_item_raises :
  forall fs concept dir fn kv its it query_emb top_n (c : eras_cache),
    Lru.lookup String.eqb concept c = None ->
    fs concept = Some dir ->
    assoc fn dir = Some (FileJson (JObj kv)) ->
    Str.suffix fn = ".json" ->
    assoc "items" kv = Some (JArr its) ->
    In it its ->
    is_scalar it = true ->
    raised (load_era_items fs concept fn) = Some TypeError
    /\ exists e,
         build_timeline_for_query fs concept query_emb top_n c = (Raise e, c)
         /\ (exn_cls e = TypeError \/ exn_cls e = AttributeError).
Proof.
  intros fs concept dir fn kv its it q n c Hmiss Hfs Hfile Hsuf Hitems Hin Hs.
  assert (Hraise : raised (load_era_items fs concept fn) = Some TypeError)
    by (eapply load_era_items_scalar; eassumption).
  split; [exact Hraise|].
  destruct (load_era_items fs concept fn) as [r|e] eqn:El; [discriminate|].
  simpl in Hraise.
  assert (Hc : exn_cls e = TypeError) by (injection Hraise; auto).
  assert (Hfn : In fn (json_files dir))
    by (eapply json_files_In; eassumption).
  assert (Hesc : escapes e = true)
    by (unfold escapes; rewrite Hc; reflexivity).
  destruct (load_eras_loop_escape fs concept (json_files dir) fn
              Hfn El Hesc) as (e' & He' & Hc').
  exists e'. split; [|exact Hc'].
  unfold build_timeline_for_query, load_all_eras. rewrite Hmiss.
  unfold load_all_eras_uncached. rewrite Hfs.
  destruct (json_files dir) as [|f files] eqn:Ef; [destruct Hfn|].
  rewrite He'. destruct Hc' as [Hc' | Hc']; rewrite Hc'; reflexivity.
Qed.

End WithNumpy.

Lemma build_timeline_scalar_item_raises_witness :
  raised (load_era_items Fixtures.poisoned_disk "liberty" "2020s.json")
  = Some TypeError
  /\ exists e,
       @build_timeline_for_query Model.small_numpy Fixtures.poisoned_disk
         "liberty" [1; 0]%float 6 [] = (Raise e, [])
       /\ (exn_cls e = TypeError \/ exn_cls e = AttributeError).
Proof.
  exact (@build_timeline_scalar_item_raises Model.small_numpy
           Fixtures.poisoned_disk "liberty" _ "2020s.json" _ _ (JInt 5)
           [1; 0]%float 6%Z [] eq_refl eq_refl eq_refl eq_refl eq_refl
           (or_intror (or_introl eq_refl)) eq_refl).
Defined.

Lemma chain_insert_sorted : forall x l,
  Ranking.chain String.leb l = true ->
  Ranking.chain String.leb (Str.insert_sorted x l) = true.
Proof.
  intros x. induction l as [|y l IH]; intro H; [reflexivity|].
  simpl Str.insert_sorted. destruct (String.leb x y) eqn:Exy.
  - rewrite Similarity.chain_cons2, Exy, H. reflexivity.
  - assert (Hyx : String.leb y x = true).
    { destruct (String.leb_total x y) as [Ht | Ht]; [congruence | exact Ht]. }
    destruct l as [|z l].
    + simpl. rewrite Hyx. reflexivity.
    + rewrite Similarity.chain_cons2 in H. apply andb_prop in H.
      destruct H as [Hyz Hl]. specialize (IH Hl).
      simpl Str.insert_sorted in *. destruct (String.leb x z).
      * rewrite Similarity.chain_cons2, Hyx, IH. reflexivity.
      * rewrite Similarity.chain_cons2, Hyz, IH. reflexivity.
Qed.

Lemma chain_sorted : forall l, Ranking.chain String.leb (Str.sorted l) = true.
Proof.
  induction l as [|x l IH]; [reflexivity|].
  simpl. apply chain_insert_sorted. exact IH.
Qed.

Lemma load_eras_loop_nonempty : forall fs concept files eras,
  load_eras_loop fs concept files = Ok eras ->
  Forall (fun e => era_items e <> []) eras.
Proof.
  intros fs concept. induction files as [|fn rest IH]; intros eras H.
  - inversion H. constructor.
  - rewrite Loading.load_eras_loop_cons in H.
    destruct (load_era_items fs concept fn) as [its|e] eqn:El.
    + destruct (load_eras_loop fs concept rest) as [later|e];
        [|destruct its; discriminate].
      specialize (IH later eq_refl).
      destruct its as [|it its]; simpl in H; inversion H; subst; simpl.
      * exact IH.
      * constructor; [discriminate | exact IH].
    + unfold bind at 2 in H. unfold try_except in H.
      destruct (existsb (exn_class_eqb (exn_cls e))
                        [FileNotFoundError; EmbeddingValidationError]);
        [|discriminate].
      simpl in H.
      destruct (load_eras_loop fs concept rest) as [later|e'];
        [|discriminate].
      simpl in H. inversion H; subst. apply IH. reflexivity.
Qed.

(** X9. What [load_all_eras] reads from the disk, when it returns: the
    concept directory exists; its [.json] files are taken in ascending
    order of their names; there is one era for each of those files
    whose items load to a non-empty list, in that order and named after
    the file without [.json]; and no era is empty. *)
Theorem load_all_eras_uncached_ordered :
  forall fs concept eras,
    load_all_eras_uncached fs concept = Ok eras ->
    exists dir,
      fs concept = Some dir
      /\ Ranking.chain String.leb (json_files dir) = true
      /\ map era_name eras
         = map (Str.remove_all ".json")
               (filter (kept fs concept) (json_files dir))
      /\ Forall (fun e => era_items e <> []) eras.
Proof.
  intros fs concept eras H. unfold load_all_eras_uncached in H.
  destruct (fs concept) as [dir|] eqn:Hfs; [|discriminate].
  exists dir. split; [reflexivity|].
  split; [apply chain_sorted|].
  destruct (json_files dir) as [|f files] eqn:Ef.
  - inversion H. split; [reflexivity | constructor].
  - split.
    + apply (Loading.load_eras_loop_spec _ _ _ H).
    + apply (load_eras_loop_nonempty _ _ _ H).
Qed.

Lemma load_all_eras_uncached_ordered_witness :
  load_all_eras_uncached Examples.empty_era_disk "privacy"
  = Ok [EraData "1900s"
          [Examples.item "privacy_1900s_0" "privacy of the home" [1; 0]%float;
           Examples.item "privacy_1900s_1" "in privacy" [1; 1]%float;
           Examples.item "privacy_1900s_2" "private rooms" [0; 1]%float]]
  /\ exists dir,
       Examples.empty_era_disk "privacy" = Some dir
       /\ json_files dir = ["1900s.json"; "2020s.json"]
       /\ filter (kept Examples.empty_era_disk "privacy") (json_files dir)
          = ["1900s.json"].
Proof.
  assert (H : load_all_eras_uncached Examples.empty_era_disk "privacy"
              = Ok [EraData "1900s"
                      [Examples.item "privacy_1900s_0" "privacy of the home"
                                     [1; 0]%float;
                       Examples.item "privacy_1900s_1" "in privacy"
                                     [1; 1]%float;
                       Examples.item "privacy_1900s_2" "private rooms"
                                     [0; 1]%float]])
    by (vm_compute; reflexivity).
  split; [exact H|].
  destruct (load_all_eras_uncached_ordered _ _ H) as (dir & Hd & _ & _ & _).
  exists dir. split; [exact Hd|].
  vm_compute in Hd. inversion Hd; subst dir. split; vm_compute; reflexivity.
Defined.

Lemma store_length : forall (k : string) (v : list era_data) (c : eras_cache),
  List.length c <= 128 -> List.length (Lru.store 128 k v c) <= 128.
Proof.
  intros k v c H. unfold Lru.store.
  destruct (128 <=? List.length c)%nat eqn:E.
  - apply Nat.leb_le in E. simpl.
    rewrite removelast_firstn_len, length_firstn. lia.
  - apply Nat.leb_gt in E. simpl. lia.
Qed.

Lemma remove_length : forall k (c : eras_cache) v,
  Lru.lookup String.eqb k c = Some v ->
  S (List.length (Lru.remove String.eqb k c)) = List.length c.
Proof.
  intros k. induction c as [|[k' v'] c IH]; intros v H; [discriminate|].
  simpl in *. destruct (String.eqb k k'); [reflexivity|].
  simpl. rewrite (IH v H). reflexivity.
Qed.

Lemma load_all_eras_length : forall fs d (c : eras_cache),
  List.length c <= 128 ->
  List.length (snd (load_all_eras fs d c)) <= 128.
Proof.
  intros fs d c H. unfold load_all_eras.
  destruct (Lru.lookup String.eqb d c) as [v|] eqn:El.
  - simpl. unfold Lru.touch. simpl. rewrite (remove_length _ _ El). exact H.
  - destruct (load_all_eras_uncached fs d); simpl; [|exact H].
    apply store_length. exact H.
Qed.

(** X10. Whatever calls were made since the process started, the memo
    of [load_all_eras] holds at most 128 concepts and holds no concept
    twice. *)
Theorem eras_cache_bounded :
  forall calls : list History.call,
    List.length (History.after_calls calls []) <= 128
    /\ NoDup (Lru.keys (History.after_calls calls [])).
Proof.
  intro calls. split.
  - assert (G : forall (c : eras_cache), List.length c <= 128 ->
                  List.length (History.after_calls calls c) <= 128).
    { induction calls as [|[fs d] calls IH]; intros c Hc; [exact Hc|].
      simpl. apply IH. apply load_all_eras_length. exact Hc. }
    apply G. simpl. lia.
  - apply Memo.after_calls_NoDup. constructor.
Qed.

Lemma lookup_removelast_none : forall k (c : eras_cache),
  Lru.lookup String.eqb k c = None ->
  Lru.lookup String.eqb k (removelast c) = None.
Proof.
  intros k c H.
  apply (LruFacts.lookup_none_iff String.eqb String.eqb_eq).
  apply (LruFacts.lookup_none_iff String.eqb String.eqb_eq) in H.
  intro Hin. apply H. rewrite LruFacts.keys_removelast in Hin.
  apply (LruFacts.removelast_incl (Lru.keys c)). exact Hin.
Qed.

(** A call for another concept, or a failed call, leaves an absent
    concept absent. *)
Lemma load_all_eras_keeps_absent : forall fs d concept (c : eras_cache),
  Lru.lookup String.eqb concept c = None ->
  (d = concept -> is_ok (load_all_eras_uncached fs d) = false) ->
  Lru.lookup String.eqb concept (snd (load_all_eras fs d c)) = None.
Proof.
  intros fs d concept c Hmiss Hfail. unfold load_all_eras.
  destruct (String.eqb_spec concept d) as [Heq | Hne].
  - subst d. rewrite Hmiss. specialize (Hfail eq_refl).
    destruct (load_all_eras_uncached fs concept); [discriminate|].
    exact Hmiss.
  - destruct (Lru.lookup String.eqb d c) as [v|] eqn:El.
    + simpl. rewrite (proj2 (String.eqb_neq concept d) Hne).
      rewrite (LruFacts.lookup_remove_other String.eqb String.eqb_eq c Hne).
      exact Hmiss.
    + destruct (load_all_eras_uncached fs d); simpl; [|exact Hmiss].
      unfold Lru.store. destruct (128 <=? List.length c)%nat; simpl;
        rewrite (proj2 (String.eqb_neq concept d) Hne);
        [apply lookup_removelast_none|]; exact Hmiss.
Qed.

(** X11. A failed load is not memoized. As long as every call made for
    a concept has raised, whatever was asked for other concepts in
    between, the next call for it reads the disk as it is then. *)
Theorem failed_load_not_memoized :
  forall (calls : list History.call) concept (c : eras_cache) fs2,
    Lru.lookup String.eqb concept c = None ->
    (forall fs d, In (fs, d) calls -> d = concept ->
       is_ok (load_all_eras_uncached fs d) = false) ->
    fst (load_all_eras fs2 concept (History.after_calls calls c))
    = load_all_eras_uncached fs2 concept.
Proof.
  intros calls concept c fs2 Hmiss Hfail.
  assert (G : Lru.lookup String.eqb concept (History.after_calls calls c)
              = None).
  { revert c Hmiss. induction calls as [|[fs d] calls IH]; intros c Hmiss.
    - exact Hmiss.
    - simpl. apply IH.
      + intros fs' d' Hin. apply Hfail. right. exact Hin.
      + apply load_all_eras_keeps_absent; [exact Hmiss|].
        apply Hfail. left. reflexivity. }
  unfold load_all_eras. rewrite G.
  destruct (load_all_eras_uncached fs2 concept); reflexivity.
Qed.

(** [freedom] is asked for before its directory exists, then another
    concept is loaded, then the directory is there. *)
Lemma failed_load_not_memoized_witness :
  let calls := [(Examples.disk_later, "freedom");
                (Examples.disk_later, "privacy")] in
  Lru.lookup String.eqb "freedom" ([] : eras_cache) = None
  /\ is_ok (load_all_eras_uncached Examples.disk_later "freedom") = false
  /\ fst (load_all_eras Examples.disk "freedom"
            (History.after_calls calls []))
     = load_all_eras_uncached Examples.disk "freedom".
Proof.
  cbv zeta. split; [reflexivity|]. split; [reflexivity|].
  apply failed_load_not_memoized; [reflexivity|].
  intros fs d [H | [H | []]] Hd; inversion H; subst; [reflexivity|].
  discriminate.
Defined.

End LoadingMore.

(* ------------------------------------------------------------------ *)
(** ** Further properties of the timeline *)

Module TimelineMore.

Import Py Utils.
Local Open Scope string_scope.

Section WithNumpy.

Context {NP : Numpy}.

(** A loop that returns has consumed its eras one by one. *)
Lemma timeline_loop_inv : forall query_emb top_n e rest prev tl,
  timeline_loop query_emb top_n (e :: rest) prev = Ok tl ->
  exists t later, tl = t :: later.
Proof.
  intros q n e rest prev tl H.
  pose proof (Timeline.timeline_loop_eras _ _ _ _ H) as Hl.
  destruct tl as [|t later]; [discriminate|]. eauto.
Qed.

(** The drift of every entry but the first is the drift between the
    centroid of the era just before it and its own. *)
Lemma timeline_loop_chain : forall query_emb top_n eras prev tl,
  timeline_loop query_emb top_n eras prev = Ok tl ->
  forall i e_prev e t,
    nth_error eras i = Some e_prev ->
    nth_error eras (S i) = Some e ->
    nth_error tl (S i) = Some t ->
    exists cp c,
      compute_centroid (era_items e_prev) = Ok cp
      /\ compute_centroid (era_items e) = Ok c
      /\ centroid_shift_score cp c = Ok (centroid_shift_from_prev t).
Proof.
  intros q n. induction eras as [|e0 rest IH]; intros prev tl H i e_prev e t
    Hprev He Ht.
  - destruct i; discriminate.
  - destruct (timeline_loop_inv _ _ _ _ _ H) as (t0 & later & ->).
    destruct (Timeline.timeline_loop_step _ _ _ _ _ H)
      as (_ & _ & c0 & Hc0 & _ & Hrest).
    destruct i as [|i].
    + simpl in Hprev, He, Ht. inversion Hprev; subst e_prev.
      destruct rest as [|e1 rest']; [discriminate|].
      simpl in He. inversion He; subst e1.
      destruct (timeline_loop_inv _ _ _ _ _ Hrest) as (t1 & later' & ->).
      simpl in Ht. inversion Ht; subst t1.
      destruct (Timeline.timeline_loop_step _ _ _ _ _ Hrest)
        as (_ & _ & c1 & Hc1 & Hs1 & _).
      exists c0, c1. split_all; assumption.
    + simpl in Hprev, He, Ht.
      apply (IH c0 later Hrest i e_prev e t); assumption.
Qed.

(** X12. When [build_timeline_for_query] returns a timeline without an
    error marker, the timeline has one entry for each era that
    [load_all_eras] returned, in the same order and under the same
    name; the drift of the first entry is [0.0]; the drift of every
    other entry is [centroid_shift_score] of the centroid of the era
    just before it and its own centroid, so that it is [0.0] when the
    era just before it has no centroid, however many eras with a
    centroid came earlier. *)
Theorem build_timeline_entries_and_drift :
  forall fs concept query_emb top_n (c : eras_cache) r,
    fst (build_timeline_for_query fs concept query_emb top_n c) = Ok r ->
    error r = None ->
    exists eras,
      fst (load_all_eras fs concept c) = Ok eras
      /\ map entry_era (timeline r) = map era_name eras
      /\ (forall t, nth_error (timeline r) 0 = Some t ->
            centroid_shift_from_prev t = 0%float)
      /\ (forall i e_prev e t,
            nth_error eras i = Some e_prev ->
            nth_error eras (S i) = Some e ->
            nth_error (timeline r) (S i) = Some t ->
            exists cp ce,
              compute_centroid (era_items e_prev) = Ok cp
              /\ compute_centroid (era_items e) = Ok ce
              /\ centroid_shift_score cp ce
                 = Ok (centroid_shift_from_prev t)
              /\ (cp = None -> centroid_shift_from_prev t = 0%float)).
Proof.
  intros fs concept q n c r H Herr.
  unfold build_timeline_for_query in H.
  destruct (load_all_eras fs concept c) as [[eras|e] c'] eqn:El.
  2:{ destruct (exn_cls e); simpl in H; inversion H; subst;
        simpl in Herr; discriminate. }
  exists eras. split; [reflexivity|].
  destruct eras as [|e0 rest].
  - simpl in H. inversion H; subst. simpl.
    split_all; [reflexivity | intros t Ht; discriminate |].
    intros i e_prev e t Hp. destruct i; discriminate.
  - cbn [fst] in H.
    destruct (timeline_loop q n (e0 :: rest) None) as [tl|x] eqn:Et;
      [|discriminate].
    simpl in H. inversion H; subst r; clear H. cbn [timeline].
    split_all.
    + apply (Timeline.timeline_loop_eras _ _ _ _ Et).
    + intros t Ht.
      destruct (timeline_loop_inv _ _ _ _ _ Et) as (t0 & later & ->).
      simpl in Ht. inversion Ht; subst t0.
      destruct (Timeline.timeline_loop_step _ _ _ _ _ Et)
        as (_ & _ & c0 & _ & Hs & _).
      simpl in Hs. inversion Hs. reflexivity.
    + intros i e_prev e t Hp He Ht.
      destruct (timeline_loop_chain _ _ _ _ Et i Hp He Ht)
        as (cp & ce & H1 & H2 & H3).
      exists cp, ce. split_all; try assumption.
      intros ->. simpl in H3. inversion H3. reflexivity.
Qed.

End WithNumpy.

(** Three eras, the middle one without a centroid: the third drift is
    [0.0]. *)
Lemma build_timeline_entries_and_drift_witness :
  let run :=
    @build_timeline_for_query Model.small_numpy Fixtures.gap_disk "privacy"
      [1; 0]%float 1 [] in
  option_map (fun r => map (fun t => (entry_era t, centroid_shift_from_prev t))
                           (timeline r))
             (returned (fst run))
  = Some [("1900s", 0%float); ("1960s", 0%float); ("2020s", 0%float)]
  /\ exists eras,
       fst (load_all_eras Fixtures.gap_disk "privacy" []) = Ok eras
       /\ map era_name eras = ["1900s"; "1960s"; "2020s"].
Proof.
  cbv zeta. split; [vm_compute; reflexivity|].
  destruct (@build_timeline_for_query Model.small_numpy Fixtures.gap_disk
              "privacy" [1; 0]%float 1 []) as [res c'] eqn:E.
  destruct res as [r|e]; [|vm_compute in E; discriminate].
  assert (Herr : error r = None)
    by (vm_compute in E; inversion E; reflexivity).
  assert (Hnames : map entry_era (timeline r) = ["1900s"; "1960s"; "2020s"])
    by (vm_compute in E; inversion E; reflexivity).
  destruct (@build_timeline_entries_and_drift Model.small_numpy
              Fixtures.gap_disk "privacy" [1; 0]%float 1%Z [] r)
    as (eras & Hl & Hn & _); [rewrite E; reflexivity | exact Herr |].
  exists eras. split; [exact Hl|]. rewrite <- Hn. exact Hnames.
Defined.

End TimelineMore.

(* ------------------------------------------------------------------ *)
(** ** Further properties of the similarity search *)

Module SimilarityMore.

Import Py Utils Vocab.
Local Open Scope string_scope.

Section WithNumpy.

Context {NP : Numpy}.

Lemma embeddings_of_app_raise : forall pre it post es e,
  embeddings_of pre = Ok es ->
  embedding_of it = Raise e ->
  embeddings_of (pre ++ it :: post)%list = Raise e.
Proof.
  induction pre as [|x pre IH]; intros it post es e Hpre Hit.
  - simpl. unfold embedding_of in Hit. rewrite Hit. reflexivity.
  - simpl in Hpre |- *.
    destruct (bind (py_getitem x "embedding") np_array_float) as [a|e'];
      [|discriminate].
    simpl in Hpre |- *.
    destruct (embeddings_of pre) as [es'|e'] eqn:Ep; [|discriminate].
    rewrite (IH it post es' e eq_refl Hit). reflexivity.
Qed.

(** X13. One item whose embedding cannot be converted silences its
    whole era. When the items before it convert and its own conversion
    raises [KeyError] (no [embedding] key), [ValueError] or [TypeError],
    [top_similar_in_era] returns the empty list and [compute_centroid]
    returns [None], whatever the other items hold; neither raises. *)
Theorem unconvertible_item_silences_era :
  forall query_emb top_n pre it post es e,
    embeddings_of pre = Ok es ->
    embedding_of it = Raise e ->
    existsb (exn_class_eqb (exn_cls e)) [KeyError; ValueError; TypeError]
    = true ->
    top_similar_in_era query_emb (pre ++ it :: post)%list top_n = Ok []
    /\ compute_centroid (pre ++ it :: post)%list = Ok None.
Proof.
  intros q n pre it post es e Hpre Hit Hcls.
  assert (Hconv : exists msg,
            _to_numpy_embeddings (pre ++ it :: post)%list
            = Raise (Exn EmbeddingValidationError msg)).
  { unfold _to_numpy_embeddings.
    destruct (pre ++ it :: post)%list as [|x l] eqn:E;
      [destruct pre; discriminate|].
    rewrite <- E. rewrite (embeddings_of_app_raise pre it post Hpre Hit).
    unfold bind, try_except. rewrite Hcls. eexists; reflexivity. }
  destruct Hconv as [msg Hconv].
  unfold top_similar_in_era, compute_centroid. rewrite Hconv.
  destruct (pre ++ it :: post)%list as [|x l] eqn:E;
    [destruct pre; discriminate|].
  split; [destruct q|]; reflexivity.
Qed.

Lemma timeline_loop_raises : forall query_emb top_n eras prev e,
  In e eras ->
  is_ok (top_similar_in_era query_emb (era_items e) top_n) = false ->
  is_ok (timeline_loop query_emb top_n eras prev) = false.
Proof.
  intros q n. induction eras as [|e0 rest IH]; intros prev e Hin Hbad;
    [destruct Hin|].
  rewrite Timeline.timeline_loop_cons.
  destruct (top_similar_in_era q (era_items e0) n) as [top|x] eqn:Et.
  - destruct Hin as [-> | Hin]; [rewrite Et in Hbad; discriminate|].
    simpl. destruct (compute_centroid (era_items e0)) as [c|x];
      [|reflexivity].
    simpl.
    destruct (match prev with
              | Some _ => centroid_shift_score prev c
              | None => Ok 0%float
              end); [|reflexivity].
    simpl. specialize (IH c e Hin Hbad).
    destruct (timeline_loop q n rest c); [discriminate | reflexivity].
  - reflexivity.
Qed.

(** X14. An error of the cosine computation is not swallowed by the
    similarity search. When the embeddings of an era convert to a
    non-empty array and [cosine_similarity] raises for the query
    (anything but [EmbeddingValidationError], which is the
    repository's own), [top_similar_in_era] raises the same exception; and
    [build_timeline_for_query] then raises instead of returning a
    timeline, whichever era of the concept it happens in. *)
Theorem cosine_error_escapes :
  forall fs concept (c : eras_cache) eras era q0 query_emb top_n X e,
    fst (load_all_eras fs concept c) = Ok eras ->
    In era eras ->
    era_items era <> [] ->
    _to_numpy_embeddings (era_items era) = Ok X ->
    Nat.eqb (np_size X) 0 = false ->
    cosine_similarity (np_of_rows [q0 :: query_emb]) X = Raise e ->
    exn_class_eqb (exn_cls e) EmbeddingValidationError = false ->
    top_similar_in_era (q0 :: query_emb) (era_items era) top_n = Raise e
    /\ is_ok (fst (build_timeline_for_query fs concept (q0 :: query_emb)
                     top_n c)) = false.
Proof.
  intros fs concept c eras era q0 q n X e Hload Hin Hne HX Hsize Hcos Hcls.
  assert (Htop : top_similar_in_era (q0 :: q) (era_items era) n = Raise e).
  { unfold top_similar_in_era.
    destruct (era_items era) as [|it its] eqn:Ei.
    - contradiction.
    - rewrite HX. simpl bind. rewrite Hsize, Hcos.
      unfold bind, try_except. simpl. rewrite Hcls. reflexivity. }
  split; [exact Htop|].
  unfold build_timeline_for_query.
  destruct (load_all_eras fs concept c) as [r c'].
  simpl in Hload. subst r.
  destruct eras as [|e0 rest]; [destruct Hin|].
  cbn [fst].
  pose proof (timeline_loop_raises (q0 :: q) n (e0 :: rest) None era Hin)
    as Hloop.
  rewrite Htop in Hloop. specialize (Hloop eq_refl).
  destruct (timeline_loop (q0 :: q) n (e0 :: rest) None);
    [discriminate | reflexivity].
Qed.

End WithNumpy.

(** An era of three items, the second without an [embedding] key. *)
Lemma unconvertible_item_silences_era_witness :
  let pre := [Examples.item "a" "first" [2; 0]%float] in
  let it := Fixtures.bare_item "b" "second" in
  let post := [Examples.item "c" "third" [0; 1]%float] in
  raised (@embedding_of Model.small_numpy it) = Some KeyError
  /\ @top_similar_in_era Model.small_numpy [1; 0]%float
       (pre ++ it :: post)%list 2 = Ok []
  /\ @compute_centroid Model.small_numpy (pre ++ it :: post)%list = Ok None.
Proof.
  cbv zeta. split; [reflexivity|].
  exact (@unconvertible_item_silences_era Model.small_numpy [1; 0]%float 2%Z
           [Examples.item "a" "first" [2; 0]%float]
           (Fixtures.bare_item "b" "second")
           [Examples.item "c" "third" [0; 1]%float]
           _ _ eq_refl eq_refl eq_refl).
Defined.

(** A query of three dimensions against embeddings of two. *)
Lemma cosine_error_escapes_witness :
  raised (@top_similar_in_era Model.small_numpy [1; 0; 0]%float
            Examples.spread_items 2) = Some ValueError
  /\ is_ok (fst (@build_timeline_for_query Model.small_numpy Examples.disk
                   "freedom" [1; 0; 0]%float 2 [])) = false.
Proof.
  destruct (@load_all_eras Examples.disk "freedom" []) as [r c'] eqn:El.
  destruct r as [eras|x]; [|vm_compute in El; discriminate].
  assert (He : eras = [EraData "1900s"
                         [Examples.item "freedom_1900s_0" "free from rule"
                                        [1; 0]%float;
                          Examples.item "freedom_1900s_1" "free men"
                                        [1; 1]%float];
                       EraData "2020s"
                         [Examples.item "freedom_2020s_0" "free to choose"
                                        [0; 1]%float]])
    by (vm_compute in El; inversion El; reflexivity).
  split; [vm_compute; reflexivity|].
  refine (proj2 (@cosine_error_escapes Model.small_numpy Examples.disk
                   "freedom" [] eras
                   (EraData "2020s"
                      [Examples.item "freedom_2020s_0" "free to choose"
                                     [0; 1]%float])
                   1%float [0; 0]%float 2%Z
                   (Model.Matrix [[0; 1]%float])
                   (Exn ValueError
                      "Incompatible dimension for X and Y matrices")
                   _ _ _ _ _ _ _)).
  - rewrite El. reflexivity.
  - subst eras. right. left. reflexivity.
  - discriminate.
  - vm_compute. reflexivity.
  - reflexivity.
  - vm_compute. reflexivity.
  - reflexivity.
Defined.

End SimilarityMore.

(* ------------------------------------------------------------------ *)
(** ** The endpoints *)

Module Endpoints.

Import Py Utils Etymology Main Vocab.
Local Open Scope string_scope.

Section WithLibraries.

Context {NP : Numpy} {JD : JsonDecoder}.


(** The loop of [load_all_eras] raises [TypeError] or
    [AttributeError], never [FileNotFoundError]. *)
Lemma load_eras_loop_classes : forall fs concept files e,
  load_eras_loop fs concept files = Raise e ->
  exn_cls e = TypeError \/ exn_cls e = AttributeError.
Proof.
  intros fs concept. induction files as [|f files IH]; intros e H;
    [discriminate|].
  rewrite Loading.load_eras_loop_cons in H.
  destruct (load_era_items fs concept f) as [its|e0] eqn:Ef.
  - simpl in H.
    destruct (load_eras_loop fs concept files) as [later|e1];
      [destruct its; discriminate|].
    destruct its; simpl in H; inversion H; subst; apply IH; reflexivity.
  - unfold bind at 2 in H. unfold try_except in H.
    destruct (existsb (exn_class_eqb (exn_cls e0))
                      [FileNotFoundError; EmbeddingValidationError]) eqn:E0.
    + simpl in H.
      destruct (load_eras_loop fs concept files) as [later|e1];
        [discriminate|].
      simpl in H. inversion H; subst. apply IH. reflexivity.
    + simpl in H. inversion H; subst.
      eapply LoadingMore.escapes_classes; [exact Ef|].
      unfold escapes. rewrite E0. reflexivity.
Qed.

(** The error marker of [build_timeline_for_query] means that the
    concept directory does not exist. *)
Lemma build_timeline_error_marker :
  forall fs concept query_emb top_n (c : eras_cache) r msg,
    fst (build_timeline_for_query fs concept query_emb top_n c) = Ok r ->
    error r = Some msg ->
    fs concept = None.
Proof.
  intros fs concept q n c r msg H Herr.
  unfold build_timeline_for_query, load_all_eras in H.
  destruct (Lru.lookup String.eqb concept c) as [eras|].
  - destruct eras as [|e0 rest]; cbn [fst] in H.
    + inversion H; subst. discriminate.
    + destruct (timeline_loop q n (e0 :: rest) None); [|discriminate].
      simpl in H. inversion H; subst. discriminate.
  - unfold load_all_eras_uncached in H.
    destruct (fs concept) as [dir|]; [|reflexivity].
    exfalso.
    destruct (json_files dir) as [|f files].
    + cbn [fst] in H. inversion H; subst. discriminate.
    + destruct (load_eras_loop fs concept (f :: files)) as [eras|e] eqn:El.
      * destruct eras as [|e0 rest]; cbn [fst] in H.
        -- inversion H; subst. discriminate.
        -- destruct (timeline_loop q n (e0 :: rest) None); [|discriminate].
           simpl in H. inversion H; subst. discriminate.
      * destruct (load_eras_loop_classes _ _ _ El) as [Hc | Hc];
          rewrite Hc in H; discriminate.
Qed.

(** X16. What [timeline] answers. When the concept directory is
    missing under [settings.embeddings_dir] the answer is 404 and the
    state is untouched, whatever is memoized. Every other failure is a
    500. A timeline is returned only for a concept whose directory
    exists; and when [settings.embeddings_dir] is the directory that
    [utils.py] reads, the returned timeline never carries the error
    marker of [build_timeline_for_query]: the missing directory was
    answered 404 before. *)
Theorem timeline_answers :
  forall cfg enc (d : disk) concept top_n st,
    (d (embeddings_dir cfg) concept = None ->
       exists detail,
         timeline cfg enc d concept top_n st = (HTTPException 404 detail, st))
    /\ (forall status_code detail,
          fst (timeline cfg enc d concept top_n st)
          = HTTPException status_code detail ->
          status_code = 404 \/ status_code = 500)
    /\ (forall r,
          fst (timeline cfg enc d concept top_n st) = Returned r ->
          d (embeddings_dir cfg) concept <> None
          /\ (embeddings_dir cfg = BASE_EMBED_DIR -> error r = None)).
Proof.
  intros cfg enc d concept n st. split_all.
  - intro H. unfold timeline. rewrite H. eexists; reflexivity.
  - intros s dtl H. unfold timeline in H.
    destruct (d (embeddings_dir cfg) concept);
      [|inversion H; left; reflexivity].
    destruct (get_model enc st) as [[u|e] st1];
      [|inversion H; right; reflexivity].
    destruct (encode enc concept) as [q|e];
      [|inversion H; right; reflexivity].
    destruct (build_timeline_for_query (d BASE_EMBED_DIR) concept q n
                (eras_memo st1)) as [[r|e] memo];
      inversion H; right; reflexivity.
  - intros r H. unfold timeline in H.
    destruct (d (embeddings_dir cfg) concept) as [dir|] eqn:Ed;
      [|discriminate].
    split; [discriminate|]. intro Hroot.
    destruct (get_model enc st) as [[u|e] st1]; [|discriminate].
    destruct (encode enc concept) as [q|e]; [|discriminate].
    destruct (build_timeline_for_query (d BASE_EMBED_DIR) concept q n
                (eras_memo st1)) as [[r'|e] memo] eqn:Eb; [|discriminate].
    inversion H; subst r'.
    destruct (error r) as [msg|] eqn:Eerr; [|reflexivity].
    exfalso.
    assert (Hb : fst (build_timeline_for_query (d BASE_EMBED_DIR) concept q n
                        (eras_memo st1)) = Ok r) by (rewrite Eb; reflexivity).
    pose proof (build_timeline_error_marker _ _ _ _ _ Hb Eerr) as Hnone.
    rewrite <- Hroot in Hnone. congruence.
Qed.

End WithLibraries.

End Endpoints.

(* ------------------------------------------------------------------ *)
(** ** The era endpoint and the files written by [build_embeddings_endpoint] *)

Module Persistence.

Import Py Utils Etymology Main Vocab.
Local Open Scope string_scope.

Lemma string_length_app : forall s t,
  String.length (s ++ t) = (String.length s + String.length t)%nat.
Proof.
  induction s as [|c s IH]; intro t; simpl; [reflexivity|].
  rewrite IH. reflexivity.
Qed.

Lemma drop_app : forall s t, Str.drop (String.length s) (s ++ t) = t.
Proof.
  induction s as [|c s IH]; intro t; simpl; [reflexivity|]. apply IH.
Qed.

Lemma endswith_app : forall s t, endswith (s ++ t) t = true.
Proof.
  intros s t. unfold endswith. rewrite string_length_app.
  replace (String.length s + String.length t - String.length t)%nat
    with (String.length s) by lia.
  rewrite drop_app, String.eqb_refl.
  rewrite andb_true_r. apply Nat.leb_le. lia.
Qed.

Lemma app_cancel_r : forall t s s', s ++ t = s' ++ t -> s = s'.
Proof.
  intro t. induction s as [|c s IH]; intros [|c' s'] H.
  - reflexivity.
  - exfalso. apply (f_equal String.length) in H.
    simpl in H. rewrite string_length_app in H. lia.
  - exfalso. apply (f_equal String.length) in H.
    simpl in H. rewrite string_length_app in H. lia.
  - simpl in H. inversion H; subst. f_equal. apply IH. assumption.
Qed.

(** [load_era_items] raises [FileNotFoundError] exactly when the file is
    not there. *)
Lemma load_era_items_missing : forall fs concept era_file,
  stored fs concept era_file = None ->
  exists e, load_era_items fs concept era_file = Raise e
            /\ exn_cls e = FileNotFoundError.
Proof.
  intros fs concept era_file H. unfold stored in H. unfold load_era_items.
  destruct (fs concept) as [dir|]; [rewrite H|]; eexists; split; reflexivity.
Qed.

Lemma load_era_items_present : forall fs concept era_file f e,
  stored fs concept era_file = Some f ->
  load_era_items fs concept era_file = Raise e ->
  exn_cls e <> FileNotFoundError.
Proof.
  intros fs concept era_file f e Hs H Hc.
  assert (Hesc : escapes e = false) by (unfold escapes; rewrite Hc; reflexivity).
  unfold stored in Hs. unfold load_era_items in H.
  destruct (fs concept) as [dir|]; [|discriminate].
  rewrite Hs in H. destruct f as [js|msg].
  - destruct (py_get js "items" (JArr [])) as [items|e'] eqn:Eg.
    + simpl in H. destruct (py_iter items) as [its|e'] eqn:Ei.
      * simpl in H. destruct (validate_all its 0) as [u|e'] eqn:Ev.
        -- simpl in H. pose proof (LoadingMore.filter_valid_classes _ H).
           congruence.
        -- simpl in H. inversion H; subst.
           pose proof (LoadingMore.validate_all_classes _ _ Ev). congruence.
      * simpl in H. inversion H; subst.
        destruct items; simpl in Ei; inversion Ei; subst; discriminate.
    + simpl in H. inversion H; subst.
      destruct js; simpl in Eg; inversion Eg; subst; discriminate.
  - inversion H; subst. discriminate.
Qed.

Section WithLibraries.

Context {NP : Numpy} {JD : JsonDecoder}.

(** X17. What [era] answers, for a concept that is a single path
    component and an era name without [/], so that the path read is an
    entry of the directory of the concept. The answer is 404 exactly
    when the era file is not on the disk, under the name given or under
    that name followed by [.json] when the name does not end so; the
    state is then untouched. Every other failure is a 500, a file that
    is not valid JSON included. A returned body echoes the concept and
    the era name as given, and counts in [total_items] the items that
    [load_era_items] returned, whatever [top_n] is. *)
Theorem era_answers :
  forall enc (d : disk) concept name top_n st,
    is_component concept = true ->
    slash_free name = true ->
    let era_file := if endswith name ".json" then name
                    else name ++ ".json" in
    let answer := era enc d concept name top_n st in
    ((exists detail, fst answer = HTTPException 404 detail)
     <-> stored (d BASE_EMBED_DIR) concept era_file = None)
    /\ (stored (d BASE_EMBED_DIR) concept era_file = None -> snd answer = st)
    /\ (forall status_code detail,
          fst answer = HTTPException status_code detail ->
          status_code = 404 \/ status_code = 500)
    /\ (forall r,
          fst answer = Returned r ->
          era_concept r = concept /\ era_era r = name
          /\ exists items,
               load_era_items (d BASE_EMBED_DIR) concept era_file = Ok items
               /\ total_items r = List.length items).
Proof.
  intros enc d concept name top_n st _ _ era_file answer.
  assert (Hfile : (if negb (endswith name ".json") then name ++ ".json"
                   else name) = era_file).
  { unfold era_file. destruct (endswith name ".json"); reflexivity. }
  assert (Hans : answer = era enc d concept name top_n st) by reflexivity.
  unfold era in Hans. rewrite Hfile in Hans. clearbody answer era_file.
  destruct (stored (d BASE_EMBED_DIR) concept era_file) as [f|] eqn:Es.
  - assert (Hnot : forall e,
              load_era_items (d BASE_EMBED_DIR) concept era_file = Raise e ->
              exn_cls e <> FileNotFoundError)
      by (intros e He; eapply load_era_items_present; eassumption).
    destruct (load_era_items (d BASE_EMBED_DIR) concept era_file)
      as [items|e] eqn:El.
    + destruct (get_model enc st) as [[u|e] st1].
      * destruct (encode enc concept) as [q|e].
        -- destruct (top_similar_in_era q items top_n) as [top|e];
             subst answer; split_all; cbn [fst snd].
           ++ split; [intros [dtl H]; discriminate | discriminate].
           ++ discriminate.
           ++ discriminate.
           ++ intros r H. inversion H; subst r. cbn.
              split_all; try reflexivity. exists items. split; reflexivity.
           ++ split; [intros [dtl H]; discriminate | discriminate].
           ++ discriminate.
           ++ intros s dtl H. inversion H. right; reflexivity.
           ++ discriminate.
        -- subst answer; split_all; cbn [fst snd].
           ++ split; [intros [dtl H]; discriminate | discriminate].
           ++ discriminate.
           ++ intros s dtl H. inversion H. right; reflexivity.
           ++ discriminate.
      * subst answer; split_all; cbn [fst snd].
        -- split; [intros [dtl H]; discriminate | discriminate].
        -- discriminate.
        -- intros s dtl H. inversion H. right; reflexivity.
        -- discriminate.
    + specialize (Hnot e eq_refl).
      assert (Ha : answer
                   = (HTTPException 500
                        ("Failed to load era data: " ++ exn_msg e), st)).
      { rewrite Hans. destruct (exn_cls e); try reflexivity.
        exfalso. apply Hnot. reflexivity. }
      rewrite Ha. split_all; cbn [fst snd].
      * split; [intros [dtl H]; discriminate | discriminate].
      * discriminate.
      * intros s dtl H. inversion H. right; reflexivity.
      * discriminate.
  - destruct (load_era_items_missing _ _ _ Es) as (e & He & Hc).
    rewrite He, Hc in Hans. subst answer. split_all; cbn [fst snd].
    + split; [reflexivity | intros _; eexists; reflexivity].
    + reflexivity.
    + intros s dtl H. inversion H. left; reflexivity.
    + discriminate.
Qed.

(** X18. The suffix [.json] of the era name is optional: for a name
    that does not end in [.json], asking for the name and asking for
    the name followed by [.json] read the same file, and give the same
    status, the same state, the same ranked items and the same
    count. *)
Theorem era_suffix_optional :
  forall enc (d : disk) concept name top_n st,
    endswith name ".json" = false ->
    snd (era enc d concept name top_n st)
    = snd (era enc d concept (name ++ ".json") top_n st)
    /\ match fst (era enc d concept name top_n st),
             fst (era enc d concept (name ++ ".json") top_n st) with
       | Returned r, Returned r' =>
           era_top r = era_top r' /\ total_items r = total_items r'
       | HTTPException status_code _, HTTPException status_code' _ =>
           status_code = status_code'
       | _, _ => False
       end.
Proof.
  intros enc d concept name top_n st H.
  unfold era. rewrite H, (endswith_app name ".json"). cbn [negb].
  destruct (load_era_items (d BASE_EMBED_DIR) concept (name ++ ".json"))
    as [items|e].
  - destruct (get_model enc st) as [[u|e] st1].
    + destruct (encode enc concept) as [q|e].
      * destruct (top_similar_in_era q items top_n) as [top|e];
          cbn; split_all; reflexivity.
      * cbn; split_all; reflexivity.
    + cbn; split_all; reflexivity.
  - destruct (exn_cls e); cbn; split_all; reflexivity.
Qed.

End WithLibraries.

Lemma era_answers_witness :
  let era_file := if endswith "1900s" ".json" then "1900s"
                  else "1900s" ++ ".json" in
  let answer := @era Model.small_numpy Fixtures.flat_encoder
                     Fixtures.freedom_disk "freedom" "1900s" 6
                     Fixtures.fresh_app in
  is_component "freedom" = true
  /\ slash_free "1900s" = true
  /\ fst answer
     = Returned
         (EraResponse "freedom" "1900s"
            [TopItem (JStr "freedom_1900s_0") (JStr "free from rule") 1;
             TopItem (JStr "freedom_1900s_1") (JStr "free men")
                     0x1.6a09e667f3bccp-1]
            2)
  /\ ((exists detail, fst answer = HTTPException 404 detail)
      <-> stored (Fixtures.freedom_disk BASE_EMBED_DIR) "freedom" era_file
          = None)
  /\ (stored (Fixtures.freedom_disk BASE_EMBED_DIR) "freedom" era_file = None
      -> snd answer = Fixtures.fresh_app)
  /\ (forall status_code detail,
        fst answer = HTTPException status_code detail ->
        status_code = 404 \/ status_code = 500)
  /\ (forall r,
        fst answer = Returned r ->
        era_concept r = "freedom" /\ era_era r = "1900s"
        /\ exists items,
             load_era_items (Fixtures.freedom_disk BASE_EMBED_DIR) "freedom"
                            era_file = Ok items
             /\ total_items r = List.length items).
Proof.
  cbv zeta. split; [reflexivity|]. split; [reflexivity|].
  split; [vm_compute; reflexivity|].
  exact (@era_answers Model.small_numpy Fixtures.flat_encoder
           Fixtures.freedom_disk "freedom" "1900s" 6 Fixtures.fresh_app
           eq_refl eq_refl).
Defined.

Lemma era_suffix_optional_witness :
  endswith "1900s" ".json" = false
  /\ snd (@era Model.small_numpy Fixtures.flat_encoder Fixtures.freedom_disk
               "freedom" "1900s" 6 Fixtures.fresh_app)
     = snd (@era Model.small_numpy Fixtures.flat_encoder Fixtures.freedom_disk
                 "freedom" "1900s.json" 6 Fixtures.fresh_app)
  /\ match fst (@era Model.small_numpy Fixtures.flat_encoder
                     Fixtures.freedom_disk "freedom" "1900s" 6
                     Fixtures.fresh_app),
           fst (@era Model.small_numpy Fixtures.flat_encoder
                     Fixtures.freedom_disk "freedom" "1900s.json" 6
                     Fixtures.fresh_app) with
     | Returned r, Returned r' =>
         era_top r = era_top r' /\ total_items r = total_items r'
     | HTTPException status_code _, HTTPException status_code' _ =>
         status_code = status_code'
     | _, _ => False
     end.
Proof.
  split; [reflexivity|].
  exact (@era_suffix_optional Model.small_numpy Fixtures.flat_encoder
           Fixtures.freedom_disk "freedom" "1900s" 6 Fixtures.fresh_app
           eq_refl).
Defined.

(** *** The files written by [build_embeddings_endpoint] *)

Lemma assoc_dict_set : forall (V : Type) k k' (v : V) kv,
  assoc k (dict_set k' v kv)
  = if String.eqb k k' then Some v else assoc k kv.
Proof.
  intros V k k' v. induction kv as [|[k0 v0] kv IH]; simpl.
  - reflexivity.
  - destruct (String.eqb_spec k' k0) as [E0|N0]; simpl.
    + subst k0. destruct (String.eqb k k'); reflexivity.
    + rewrite IH.
      destruct (String.eqb_spec k k0) as [E1|N1];
        destruct (String.eqb_spec k k') as [E2|N2]; try reflexivity.
      exfalso. apply N0. congruence.
Qed.

Lemma stored_write_json : forall (d : disk) root word f js f',
  stored (write_json d root word f js root) word f'
  = if String.eqb f' f then Some (FileJson js) else stored (d root) word f'.
Proof.
  intros d root word f js f'. unfold stored, write_json.
  rewrite !String.eqb_refl. cbn [andb]. rewrite assoc_dict_set.
  destruct (String.eqb f' f); [reflexivity|].
  destruct (d root word); reflexivity.
Qed.

Lemma write_json_elsewhere : forall (d : disk) root word f js r c,
  (r, c) <> (root, word) ->
  write_json d root word f js r c = d r c.
Proof.
  intros d root word f js r c H. unfold write_json.
  destruct (String.eqb_spec r root) as [E1|N1];
    destruct (String.eqb_spec c word) as [E2|N2]; try reflexivity.
  exfalso. apply H. congruence.
Qed.

Lemma write_json_exists : forall (d : disk) root word f js,
  write_json d root word f js root word <> None.
Proof.
  intros d root word f js. unfold write_json.
  rewrite !String.eqb_refl. discriminate.
Qed.



Lemma mkdir_exists : forall (d : disk) root word,
  mkdir d root word root word <> None.
Proof.
  intros d root word. unfold mkdir. rewrite !String.eqb_refl. discriminate.
Qed.

(** Every item built by the loop over [zip(texts, embs)] is a dict with
    the three required fields. *)
Lemma make_items_sound : forall word name texts embs i,
  forallb is_dict (make_items word name i texts embs) = true
  /\ forallb has_all_fields (make_items word name i texts embs) = true.
Proof.
  intros word name. induction texts as [|t texts IH]; intros embs i.
  - split; reflexivity.
  - destruct embs as [|e embs]; [split; reflexivity|].
    destruct (IH embs (S i)) as [H1 H2].
    split; simpl; [exact H1 | exact H2].
Qed.

Lemma make_items_length : forall word name texts embs i,
  List.length (make_items word name i texts embs)
  = Nat.min (List.length texts) (List.length embs).
Proof.
  intros word name. induction texts as [|t texts IH]; intros embs i.
  - reflexivity.
  - destruct embs as [|e embs]; [reflexivity|].
    simpl. rewrite IH. reflexivity.
Qed.



Section Writing.

Variable cfg : app_settings.
Variable enc : encoder.
Variable word : string.
Variable evolution_data : list (string * list string).

Lemma write_eras_cons : forall name rest d created total,
  write_eras cfg enc word evolution_data (name :: rest) d created total
  = match assoc name evolution_data with
    | None =>
        write_eras cfg enc word evolution_data rest d created total
    | Some [] =>
        write_eras cfg enc word evolution_data rest d created total
    | Some texts =>
        match encode_batch enc texts with
        | Raise e => (Raise e, d)
        | Ok embs =>
            let items := make_items word name 0 texts embs in
            write_eras cfg enc word evolution_data rest
              (write_json d (embeddings_dir cfg) word (name ++ ".json")
                          (era_record cfg word name items))
              (created ++ [output_path cfg word name])%list
              (total + List.length items)%nat
        end
    end.
Proof. reflexivity. Qed.



(** Whatever the outcome of the loop, it touches no other directory,
    and a file of the directory is as it was or holds the record of one
    of the eras asked for. *)
Lemma write_eras_frame : forall eras d created total r d',
  write_eras cfg enc word evolution_data eras d created total = (r, d') ->
  (forall r0 c, (r0, c) <> ((embeddings_dir cfg), word) -> d' r0 c = d r0 c)
  /\ (d (embeddings_dir cfg) word <> None -> d' (embeddings_dir cfg) word <> None)
  /\ (forall f,
        stored (d' (embeddings_dir cfg)) word f = stored (d (embeddings_dir cfg)) word f
        \/ exists name items,
             In name eras /\ f = name ++ ".json"
             /\ stored (d' (embeddings_dir cfg)) word f
                = Some (FileJson (era_record cfg word name items))
             /\ forallb has_all_fields items = true).
Proof.
  induction eras as [|a rest IH]; intros d created total r d' H.
  - simpl in H. inversion H; subst. split_all; auto.
  - rewrite write_eras_cons in H.
    assert (Hskip : write_eras cfg enc word evolution_data rest d created
                               total = (r, d') ->
            (forall r0 c, (r0, c) <> ((embeddings_dir cfg), word) -> d' r0 c = d r0 c)
            /\ (d (embeddings_dir cfg) word <> None -> d' (embeddings_dir cfg) word <> None)
            /\ (forall f,
                  stored (d' (embeddings_dir cfg)) word f = stored (d (embeddings_dir cfg)) word f
                  \/ exists name items,
                       In name (a :: rest) /\ f = name ++ ".json"
                       /\ stored (d' (embeddings_dir cfg)) word f
                          = Some (FileJson (era_record cfg word name items))
                       /\ forallb has_all_fields items = true)).
    { intro H'. destruct (IH _ _ _ _ _ H') as (F1 & F2 & F3).
      split_all; auto. intro f. destruct (F3 f) as [E|(n & its & Hn & R)].
      - left. exact E.
      - right. exists n, its. split; [right; exact Hn | exact R]. }
    destruct (assoc a evolution_data) as [[|t ts]|]; auto.
    destruct (encode_batch enc (t :: ts)) as [embs|e].
    + cbv zeta in H. destruct (IH _ _ _ _ _ H) as (F1 & F2 & F3).
      split_all.
      * intros r0 c Hrc. rewrite (F1 r0 c Hrc).
        apply write_json_elsewhere. exact Hrc.
      * intros _. apply F2. apply write_json_exists.
      * intro f. destruct (F3 f) as [E|(n & its & Hn & R)].
        -- rewrite stored_write_json in E.
           destruct (String.eqb_spec f (a ++ ".json")) as [Ef|Nf].
           ++ right. exists a, (make_items word a 0 (t :: ts) embs).
              split_all; [left; reflexivity | exact Ef | exact E |].
              apply make_items_sound.
           ++ left. exact E.
        -- right. exists n, its. split; [right; exact Hn | exact R].
    + inversion H; subst. split_all; auto.
Qed.


End Writing.

Section WithLibraries2.

Context {NP : Numpy} {JD : JsonDecoder}.




End WithLibraries2.





End Persistence.

(* ------------------------------------------------------------------ *)
(** ** The state of the process across requests *)

Module Lifecycle.

Import Py Utils Etymology Main Vocab.
Local Open Scope string_scope.

(** [get_model] touches neither the service nor the memo of
    [load_all_eras], and never unloads the model. *)
Lemma get_model_frame : forall enc st,
  service (snd (get_model enc st)) = service st
  /\ eras_memo (snd (get_model enc st)) = eras_memo st
  /\ (model_loaded st = true ->
      get_model enc st = (Ok tt, st)).
Proof.
  intros enc st. unfold get_model.
  destruct (model_loaded st) eqn:E.
  - split_all; reflexivity.
  - destruct (load_model enc); split_all; try reflexivity; discriminate.
Qed.



Section WithLibraries.

Context {NP : Numpy} {JD : JsonDecoder}.

(** With the concept in the memo of [load_all_eras], the timeline is
    built from the memo: of the disk, only the existence of the concept
    directory matters. *)
Lemma timeline_of_memo :
  forall cfg enc (d1 d2 : disk) concept top_n st eras,
    Lru.lookup String.eqb concept (eras_memo st) = Some eras ->
    d1 (embeddings_dir cfg) concept <> None ->
    d2 (embeddings_dir cfg) concept <> None ->
    timeline cfg enc d1 concept top_n st = timeline cfg enc d2 concept top_n st.
Proof.
  intros cfg enc d1 d2 concept n st eras Hmemo H1 H2. unfold timeline.
  destruct (d1 (embeddings_dir cfg) concept); [|contradiction].
  destruct (d2 (embeddings_dir cfg) concept); [|contradiction].
  destruct (get_model_frame enc st) as (_ & Hm & _).
  destruct (get_model enc st) as [[u|e] st1]; [|reflexivity].
  cbn [snd] in Hm.
  destruct (encode enc concept) as [q|e]; [|reflexivity].
  unfold build_timeline_for_query, load_all_eras.
  rewrite Hm, Hmemo. reflexivity.
Qed.

(** [build_embeddings_endpoint] leaves the memo of [load_all_eras] as it
    was. *)
Lemma build_embeddings_keeps_memo :
  forall cfg up enc (d : disk) word eras num_examples st,
    eras_memo (snd (build_embeddings_endpoint cfg up enc d word eras
                                              num_examples st))
    = eras_memo st.
Proof.
  intros cfg up enc d word eras n st. unfold build_embeddings_endpoint.
  assert (Hg : eras_memo (snd (generate_evolution cfg up word eras n st))
               = eras_memo st).
  { unfold generate_evolution.
    destruct (negb (use_llm_etymology cfg)); [reflexivity|].
    destruct (generate_word_evolution (etymology cfg) up word eras n
                                      (service st)) as [[ev|e] sv].
    - reflexivity.
    - destruct (exn_cls e); reflexivity. }
  destruct (generate_evolution cfg up word eras n st) as [[er|s dtl] st1];
    cbn [snd] in Hg; [|exact Hg].
  destruct (get_model_frame enc st1) as (_ & Hm & _).
  destruct (get_model enc st1) as [[u|e] st2]; cbn [snd] in Hm.
  - destruct (write_eras cfg enc word (evolution er) eras
                (mkdir d (embeddings_dir cfg) word) [] 0)
      as [[[created total]|e] d2]; cbn [snd]; congruence.
  - cbn [snd]. congruence.
Qed.

(** [build_embeddings_endpoint] does not remove the concept
    directory. *)
Lemma build_embeddings_keeps_directory :
  forall cfg up enc (d : disk) word eras num_examples st,
    d (embeddings_dir cfg) word <> None ->
    snd (fst (build_embeddings_endpoint cfg up enc d word eras
                                        num_examples st))
        (embeddings_dir cfg) word <> None.
Proof.
  intros cfg up enc d word eras n st Hdir. unfold build_embeddings_endpoint.
  destruct (generate_evolution cfg up word eras n st) as [[er|s dtl] st1];
    [|exact Hdir].
  destruct (get_model enc st1) as [[u|e] st2]; [|exact Hdir].
  destruct (write_eras cfg enc word (evolution er) eras
              (mkdir d (embeddings_dir cfg) word) [] 0)
    as [r d2] eqn:Ew.
  apply Persistence.write_eras_frame in Ew. destruct Ew as (_ & F2 & _).
  assert (Hd2 : d2 (embeddings_dir cfg) word <> None)
    by (apply F2; apply Persistence.mkdir_exists).
  destruct r as [[created total]|e]; exact Hd2.
Qed.

(** X23. Rebuilding the embeddings of a concept does not reach the
    timeline of a running process. When the eras of the concept are in
    the memo of [load_all_eras], the timeline served after
    [build_embeddings_endpoint] has run for that concept, whatever it
    wrote, is the timeline that the disk as it was before would give:
    nothing removes the concept from the memo. *)
Theorem rebuild_leaves_timeline_stale :
  forall cfg up enc (d : disk) word eras num_examples top_n st remembered,
    Lru.lookup String.eqb word (eras_memo st) = Some remembered ->
    d (embeddings_dir cfg) word <> None ->
    let out := build_embeddings_endpoint cfg up enc d word eras
                                         num_examples st in
    eras_memo (snd out) = eras_memo st
    /\ timeline cfg enc (snd (fst out)) word top_n (snd out)
       = timeline cfg enc d word top_n (snd out).
Proof.
  intros cfg up enc d word eras n top_n st remembered Hmemo Hdir out.
  pose proof (build_embeddings_keeps_memo cfg up enc d word eras n st) as Hk.
  fold out in Hk. split; [exact Hk|].
  eapply timeline_of_memo.
  - rewrite Hk. exact Hmemo.
  - apply build_embeddings_keeps_directory. exact Hdir.
  - exact Hdir.
Qed.

End WithLibraries.

Lemma rebuild_leaves_timeline_stale_witness :
  let out := @build_embeddings_endpoint Model.small_decoder
               Fixtures.default_settings Examples.sound_upstream
               Fixtures.flat_encoder Fixtures.privacy_disk
               "privacy" ["1900s"] 5 Fixtures.warm_app in
  Lru.lookup String.eqb "privacy" (eras_memo Fixtures.warm_app)
  = Some [EraData "1850s"
            [Examples.item "privacy_1850s_0" "a private station"
                           [1; 1]%float]]
  /\ Fixtures.privacy_disk (embeddings_dir Fixtures.default_settings)
                           "privacy" <> None
  /\ eras_memo (snd out) = eras_memo Fixtures.warm_app
  /\ @timeline Model.small_numpy Fixtures.default_settings
               Fixtures.flat_encoder (snd (fst out)) "privacy" 6 (snd out)
     = @timeline Model.small_numpy Fixtures.default_settings
                 Fixtures.flat_encoder Fixtures.privacy_disk "privacy" 6
                 (snd out).
Proof.
  cbv zeta. split; [reflexivity|]. split; [discriminate|].
  eapply (@rebuild_leaves_timeline_stale Model.small_numpy Model.small_decoder
            Fixtures.default_settings Examples.sound_upstream
            Fixtures.flat_encoder Fixtures.privacy_disk "privacy" ["1900s"] 5
            6%Z Fixtures.warm_app).
  - reflexivity.
  - discriminate.
Defined.

End Lifecycle.

(* ------------------------------------------------------------------ *)
(** ** The build script *)

Module ScriptFacts.

Import Py Utils Main Script Vocab.
Local Open Scope string_scope.

Lemma lstrip_head : forall s,
  Str.lstrip s = EmptyString
  \/ exists c r, Str.lstrip s = String c r /\ Str.is_space c = false.
Proof.
  induction s as [|c s IH]; [left; reflexivity|].
  simpl. destruct (Str.is_space c) eqn:E; [exact IH|].
  right. exists c, s. split; [reflexivity | exact E].
Qed.

Lemma rstrip_head : forall c r,
  Str.is_space c = false ->
  Str.rstrip (String c r) = String c (Str.rstrip r).
Proof.
  intros c r H. simpl. rewrite H.
  destruct (Str.rstrip r); reflexivity.
Qed.

Lemma rstrip_idempotent : forall s, Str.rstrip (Str.rstrip s) = Str.rstrip s.
Proof.
  induction s as [|c s IH]; [reflexivity|].
  simpl. destruct (Str.rstrip s) as [|c' r] eqn:E.
  - destruct (Str.is_space c) eqn:Ec; [reflexivity|].
    simpl. rewrite Ec. reflexivity.
  - change (Str.rstrip (String c (String c' r)))
      with (match Str.rstrip (String c' r) with
            | EmptyString =>
                if Str.is_space c then EmptyString else String c EmptyString
            | r0 => String c r0
            end).
    rewrite IH. reflexivity.
Qed.

(** Stripping what was stripped changes nothing. *)
Lemma strip_idempotent : forall s, Str.strip (Str.strip s) = Str.strip s.
Proof.
  intro s. unfold Str.strip.
  destruct (lstrip_head s) as [E|(c & r & E & Hc)]; rewrite E.
  - reflexivity.
  - rewrite (rstrip_head c r Hc).
    change (Str.lstrip (String c (Str.rstrip r)))
      with (if Str.is_space c then Str.lstrip (Str.rstrip r)
            else String c (Str.rstrip r)).
    rewrite Hc, (rstrip_head c _ Hc), rstrip_idempotent. reflexivity.
Qed.

Lemma read_csv_lines_cons : forall ln rest,
  read_csv_lines (ln :: rest)
  = if negb (String.eqb (Str.strip ln) EmptyString)
    then Str.strip ln :: read_csv_lines rest
    else read_csv_lines rest.
Proof. reflexivity. Qed.

(** What [read_csv_lines] returns is stripped and not empty, and
    reading it again changes nothing. *)
Lemma read_csv_lines_clean :
  forall f : text_file,
    (forall ln, In ln (read_csv_lines f) ->
       ln <> EmptyString /\ Str.strip ln = ln
       /\ exists raw, In raw f /\ ln = Str.strip raw)
    /\ read_csv_lines (read_csv_lines f) = read_csv_lines f
    /\ (List.length (read_csv_lines f) <= List.length f)%nat.
Proof.
  induction f as [|raw f (IH1 & IH2 & IH3)].
  - split_all; [intros ln [] | reflexivity | apply le_n].
  - rewrite read_csv_lines_cons.
    destruct (String.eqb_spec (Str.strip raw) EmptyString) as [E|N];
      cbn [negb].
    + split_all.
      * intros ln Hin. destruct (IH1 ln Hin) as (H1 & H2 & r & Hr & Hs).
        split_all; [exact H1 | exact H2 |].
        exists r. split; [right; exact Hr | exact Hs].
      * exact IH2.
      * simpl. lia.
    + split_all.
      * intros ln [<- | Hin].
        -- split_all; [exact N | apply strip_idempotent |].
           exists raw. split; [left; reflexivity | reflexivity].
        -- destruct (IH1 ln Hin) as (H1 & H2 & r & Hr & Hs).
           split_all; [exact H1 | exact H2 |].
           exists r. split; [right; exact Hr | exact Hs].
      * rewrite read_csv_lines_cons, strip_idempotent.
        destruct (String.eqb_spec (Str.strip raw) EmptyString) as [E|_];
          [contradiction|].
        cbn [negb]. rewrite IH2. reflexivity.
      * simpl. lia.
Qed.

(** The loop of [read_csv_lines] as a comprehension. *)
Lemma read_csv_lines_filter : forall f : text_file,
  read_csv_lines f
  = filter (fun ln => negb (String.eqb ln EmptyString)) (map Str.strip f).
Proof.
  induction f as [|raw f IH]; [reflexivity|].
  rewrite read_csv_lines_cons. cbn [map filter].
  destruct (negb (String.eqb (Str.strip raw) EmptyString)); rewrite IH;
    reflexivity.
Qed.

(** X24. For a file of ASCII lines (on which [strip] is the ASCII one),
    [read_csv_lines] returns exactly the lines of the file that are not
    blank, stripped, in their order. No returned line is empty, none
    has white space at either end, and reading the returned lines again
    gives them back unchanged. *)
Theorem read_csv_lines_stripped :
  forall f : text_file,
    forallb is_ascii f = true ->
    read_csv_lines f
    = filter (fun ln => negb (String.eqb ln EmptyString)) (map Str.strip f)
    /\ (forall ln, In ln (read_csv_lines f) ->
          ln <> EmptyString /\ Str.strip ln = ln)
    /\ read_csv_lines (read_csv_lines f) = read_csv_lines f.
Proof.
  intros f _. destruct (read_csv_lines_clean f) as (H1 & H2 & _).
  split_all.
  - apply read_csv_lines_filter.
  - intros ln Hin. destruct (H1 ln Hin) as (Ha & Hb & _). split; assumption.
  - exact H2.
Qed.

Lemma read_csv_lines_stripped_witness :
  let f := ["  a right to be let alone " ++ Etymology.nl;
            Etymology.nl; "privacy of the home"] in
  forallb is_ascii f = true
  /\ read_csv_lines f = ["a right to be let alone"; "privacy of the home"]
  /\ read_csv_lines f
     = filter (fun ln => negb (String.eqb ln EmptyString)) (map Str.strip f)
  /\ (forall ln, In ln (read_csv_lines f) ->
        ln <> EmptyString /\ Str.strip ln = ln)
  /\ read_csv_lines (read_csv_lines f) = read_csv_lines f.
Proof.
  cbv zeta. split; [reflexivity|]. split; [reflexivity|].
  exact (@read_csv_lines_stripped
           ["  a right to be let alone " ++ Etymology.nl;
            Etymology.nl; "privacy of the home"] eq_refl).
Defined.



Section Loop.

Variable enc : encoder.
Variable data : data_dir.
Variable concept : string.
Variable out_base : string.




End Loop.



Lemma has_char_lstrip : forall c s,
  has_char c s = false -> has_char c (Str.lstrip s) = false.
Proof.
  intros c. induction s as [|a s IH]; intro H; [reflexivity|].
  simpl. destruct (Str.is_space a); [|exact H].
  simpl in H. apply orb_false_iff in H. apply IH. apply H.
Qed.

Lemma has_char_rstrip : forall c s,
  has_char c s = false -> has_char c (Str.rstrip s) = false.
Proof.
  intros c. induction s as [|a s IH]; intro H; [reflexivity|].
  simpl in H. apply orb_false_iff in H. destruct H as [Ha Hs].
  simpl. specialize (IH Hs). destruct (Str.rstrip s) as [|b r].
  - destruct (Str.is_space a); [reflexivity|].
    simpl. rewrite Ha. reflexivity.
  - change (has_char c (String a (String b r)))
      with (Ascii.eqb a c || has_char c (String b r)).
    rewrite Ha, IH. reflexivity.
Qed.

Lemma has_char_split : forall sep s w,
  In w (Str.split sep s) -> has_char sep w = false.
Proof.
  intros sep. induction s as [|a s IH]; intros w Hin.
  - simpl in Hin. destruct Hin as [<-|[]]. reflexivity.
  - simpl in Hin. destruct (Ascii.eqb a sep) eqn:Ea.
    + destruct Hin as [<-|Hin]; [reflexivity | apply IH; exact Hin].
    + destruct (Str.split sep s) as [|w0 ws] eqn:Es.
      * destruct Hin as [<-|[]]. simpl. rewrite Ea. reflexivity.
      * destruct Hin as [<-|Hin].
        -- simpl. rewrite Ea. apply IH. left. reflexivity.
        -- apply IH. right. exact Hin.
Qed.

(** The eras kept by [main] are stripped pieces of the argument, not
    empty and without a comma. *)
Lemma stripped_nonempty_clean :
  forall arg_eras,
    Forall (fun era =>
              era <> EmptyString /\ Str.strip era = era
              /\ has_char comma era = false
              /\ exists piece, In piece (Str.split comma arg_eras)
                               /\ era = Str.strip piece)
           (stripped_nonempty (Str.split comma arg_eras)).
Proof.
  intro arg_eras. apply Forall_forall.
  assert (Hpieces : forall w, In w (Str.split comma arg_eras) ->
                      has_char comma w = false)
    by (intros w Hw; eapply has_char_split; exact Hw).
  induction (Str.split comma arg_eras) as [|p ps IH]; intros era Hin;
    [destruct Hin|].
  simpl in Hin.
  assert (IH' : forall era, In era (stripped_nonempty ps) ->
                  era <> EmptyString /\ Str.strip era = era
                  /\ has_char comma era = false
                  /\ exists piece, In piece (p :: ps)
                                   /\ era = Str.strip piece).
  { intros e He.
    destruct (IH (fun w Hw => Hpieces w (or_intror Hw)) e He)
      as (H1 & H2 & H3 & q & Hq & Hs).
    split_all; try assumption. exists q. split; [right; exact Hq | exact Hs]. }
  destruct (String.eqb_spec (Str.strip p) EmptyString) as [E|N];
    cbn [negb] in Hin; [apply IH'; exact Hin|].
  destruct Hin as [<-|Hin]; [|apply IH'; exact Hin].
  split_all.
  - exact N.
  - apply strip_idempotent.
  - unfold Str.strip. apply has_char_rstrip, has_char_lstrip.
    apply Hpieces. left. reflexivity.
  - exists p. split; [left; reflexivity | reflexivity].
Qed.

(** The comprehension of [main], as a filter. *)
Lemma stripped_nonempty_filter : forall parts,
  stripped_nonempty parts
  = filter (fun e => negb (String.eqb e EmptyString)) (map Str.strip parts).
Proof.
  induction parts as [|p parts IH]; [reflexivity|].
  simpl. destruct (negb (String.eqb (Str.strip p) EmptyString));
    rewrite IH; reflexivity.
Qed.

(** X26. For an [--eras] argument of ASCII characters (on which [strip]
    is the ASCII one), [main] runs [build_embeddings_for] on exactly
    the pieces of the argument between commas that are not blank,
    stripped, in their order. None of these eras is empty, none has
    white space at either end, none holds a comma. *)
Theorem main_eras_clean :
  forall enc data_dirs arg_concept arg_eras arg_data_dir arg_out_dir d,
    is_ascii arg_eras = true ->
    let eras :=
      filter (fun e => negb (String.eqb e EmptyString))
             (map Str.strip (Str.split comma arg_eras)) in
    main enc data_dirs arg_concept arg_eras arg_data_dir arg_out_dir d
    = build_embeddings_for enc (data_dirs arg_data_dir) arg_concept eras
                           arg_out_dir d
    /\ Forall (fun era =>
                 era <> EmptyString /\ Str.strip era = era
                 /\ has_char comma era = false)
              eras.
Proof.
  intros enc data_dirs arg_concept arg_eras arg_data_dir arg_out_dir d _ eras.
  assert (He : stripped_nonempty (Str.split comma arg_eras) = eras)
    by apply stripped_nonempty_filter.
  split.
  - unfold main. rewrite He. reflexivity.
  - rewrite <- He. eapply Forall_impl; [|apply stripped_nonempty_clean].
    intros era (H1 & H2 & H3 & _). split_all; assumption.
Qed.

Lemma main_eras_clean_witness :
  let eras :=
    filter (fun e => negb (String.eqb e EmptyString))
           (map Str.strip (Str.split comma " 1900s, ,2020s,")) in
  is_ascii " 1900s, ,2020s," = true
  /\ eras = ["1900s"; "2020s"]
  /\ main Fixtures.flat_encoder (fun _ => Fixtures.privacy_data) "privacy"
          " 1900s, ,2020s," "data" "embeddings" Fixtures.blank_disk
     = build_embeddings_for Fixtures.flat_encoder Fixtures.privacy_data
                            "privacy" eras "embeddings" Fixtures.blank_disk
  /\ Forall (fun era =>
               era <> EmptyString /\ Str.strip era = era
               /\ has_char comma era = false)
            eras.
Proof.
  cbv zeta. split; [reflexivity|]. split; [reflexivity|].
  exact (@main_eras_clean Fixtures.flat_encoder
           (fun _ => Fixtures.privacy_data) "privacy" " 1900s, ,2020s,"
           "data" "embeddings" Fixtures.blank_disk eq_refl).
Defined.

End ScriptFacts.

(* ------------------------------------------------------------------ *)
(** ** The image endpoint *)

Module ImageFacts.

Import Py Main GenerateImage Vocab.
Local Open Scope string_scope.

(** *** Decimal rendering is injective *)

Lemma digit_char_value : forall d,
  (d < 10)%nat -> (nat_of_ascii (Str.digit_char d) - 48 = d)%nat.
Proof.
  intros d H. unfold Str.digit_char.
  rewrite nat_ascii_embedding by lia. lia.
Qed.

Lemma nat_digits_step : forall fuel n acc,
  Str.nat_digits (S fuel) n acc
  = if Nat.eqb (n / 10) 0
    then String (Str.digit_char (n mod 10)) acc
    else Str.nat_digits fuel (n / 10)
                        (String (Str.digit_char (n mod 10)) acc).
Proof. reflexivity. Qed.

Lemma read_digits_step : forall acc c s,
  read_digits acc (String c s)
  = read_digits (10 * acc + (nat_of_ascii c - 48)) s.
Proof. reflexivity. Qed.

Lemma read_nat_digits : forall fuel n acc,
  (n < fuel)%nat ->
  read_digits 0 (Str.nat_digits fuel n acc) = read_digits n acc.
Proof.
  induction fuel as [|fuel IH]; intros n acc H; [lia|].
  rewrite nat_digits_step.
  pose proof (Nat.div_mod_eq n 10) as Hdm.
  pose proof (Nat.mod_upper_bound n 10 ltac:(lia)) as Hm.
  destruct (Nat.eqb_spec (n / 10) 0) as [E|N].
  - rewrite read_digits_step, (digit_char_value Hm).
    f_equal. lia.
  - rewrite IH by (apply Nat.Div0.div_lt_upper_bound; lia).
    rewrite read_digits_step, (digit_char_value Hm).
    f_equal. lia.
Qed.

Lemma of_nat_inj : forall a b, Str.of_nat a = Str.of_nat b -> a = b.
Proof.
  intros a b H. apply (f_equal (read_digits 0)) in H.
  unfold Str.of_nat in H. rewrite !read_nat_digits in H by lia.
  exact H.
Qed.

Lemma app_cancel_l : forall s t t' : string, s ++ t = s ++ t' -> t = t'.
Proof.
  induction s as [|c s IH]; intros t t' H; [exact H|].
  simpl in H. inversion H. apply IH. assumption.
Qed.

Lemma numbered_inj : forall safe a b,
  numbered safe a = numbered safe b -> a = b.
Proof.
  intros safe a b H. unfold numbered in H.
  apply app_cancel_l in H. simpl in H. inversion H as [H'].
  apply Persistence.app_cancel_r in H'. apply of_nat_inj. exact H'.
Qed.

Lemma plain_not_numbered : forall safe k, safe ++ ".png" <> numbered safe k.
Proof.
  intros safe k H. unfold numbered in H. apply app_cancel_l in H.
  discriminate.
Qed.

Lemma tried_inj : forall safe i j, tried safe i = tried safe j -> i = j.
Proof.
  intros safe [|i] [|j] H; simpl in H.
  - reflexivity.
  - exfalso. exact (plain_not_numbered _ _ H).
  - exfalso. symmetry in H. exact (plain_not_numbered _ _ H).
  - apply numbered_inj in H. exact H.
Qed.

(** *** The loop over the file names *)

Lemma file_exists_In : forall name (dir : folder),
  file_exists name dir = true -> In name (map fst dir).
Proof.
  intros name. induction dir as [|[k v] dir IH]; intro H.
  - discriminate.
  - unfold file_exists in H. simpl in H. simpl.
    destruct (String.eqb_spec name k) as [E|N]; [left; auto|].
    right. apply IH. exact H.
Qed.

(** The loop from its [i]-th test on. *)
Lemma free_path_from : forall fuel dir safe i p,
  free_path fuel dir safe (S i) (tried safe i) = Some p ->
  exists k, (i <= k < i + fuel)%nat /\ p = tried safe k
            /\ file_exists p dir = false
            /\ forall j, (i <= j < k)%nat ->
                 file_exists (tried safe j) dir = true.
Proof.
  induction fuel as [|fuel IH]; intros dir safe i p H; [discriminate|].
  simpl in H. destruct (file_exists (tried safe i) dir) eqn:E.
  - change (numbered safe (S i)) with (tried safe (S i)) in H.
    apply IH in H. destruct H as (k & Hk & Hp & Hfree & Hbefore).
    exists k. split_all; [lia | lia | exact Hp | exact Hfree |].
    intros j Hj. destruct (Nat.eq_dec j i) as [->|Hne]; [exact E|].
    apply Hbefore. lia.
  - inversion H; subst p. exists i.
    split_all; [lia | lia | reflexivity | exact E |]. intros j Hj. lia.
Qed.

Lemma free_path_stuck : forall fuel dir safe i,
  free_path fuel dir safe (S i) (tried safe i) = None ->
  forall j, (i <= j < i + fuel)%nat -> file_exists (tried safe j) dir = true.
Proof.
  induction fuel as [|fuel IH]; intros dir safe i H j Hj; [lia|].
  simpl in H. destruct (file_exists (tried safe i) dir) eqn:E;
    [|discriminate].
  change (numbered safe (S i)) with (tried safe (S i)) in H.
  destruct (Nat.eq_dec j i) as [->|Hne]; [exact E|].
  apply (IH _ _ _ H). lia.
Qed.

(** The loop ends within one test more than the folder has entries. *)
Lemma free_path_ends : forall (dir : folder) safe extra,
  free_path (S (List.length dir) + extra) dir safe 1 (safe ++ ".png")
  <> None.
Proof.
  intros dir safe extra H.
  change (safe ++ ".png") with (tried safe 0) in H.
  pose proof (@free_path_stuck _ _ _ _ H) as Hall.
  assert (Hincl : incl (map (tried safe) (seq 0 (S (List.length dir))))
                       (map fst dir)).
  { intros name Hin. apply in_map_iff in Hin.
    destruct Hin as (j & <- & Hj). apply in_seq in Hj.
    apply file_exists_In. apply Hall. lia. }
  assert (Hnd : NoDup (map (tried safe) (seq 0 (S (List.length dir))))).
  { apply Finite.Injective_map_NoDup; [|apply seq_NoDup].
    intros a b. apply tried_inj. }
  pose proof (NoDup_incl_length Hnd Hincl) as Hlen.
  rewrite !length_map, length_seq in Hlen. lia.
Qed.

(** X27. The loop over the file names of [generate_image] ends, after
    at most one test more than the folder has entries, and more tests
    allowed change nothing. The name it ends with is not in the folder;
    it is the first of the plain name and the numbered names from 1 on
    that is not. *)
Theorem free_path_first_unused :
  forall (dir : folder) safe extra,
  exists k,
    free_path (S (List.length dir) + extra) dir safe 1 (safe ++ ".png")
    = Some (tried safe k)
    /\ (k <= List.length dir)%nat
    /\ file_exists (tried safe k) dir = false
    /\ forall j, (j < k)%nat -> file_exists (tried safe j) dir = true.
Proof.
  intros dir safe extra.
  destruct (free_path (S (List.length dir) + extra) dir safe 1
                      (safe ++ ".png")) as [p|] eqn:E.
  - change (safe ++ ".png") with (tried safe 0) in E.
    destruct (@free_path_from _ _ _ _ _ E) as (k & Hk & Hp & Hfree & Hbefore).
    subst p. exists k. split_all.
    + reflexivity.
    + destruct (Nat.le_gt_cases k (List.length dir)) as [Hle|Hgt];
        [exact Hle|].
      exfalso.
      assert (Hincl : incl (map (tried safe) (seq 0 (S (List.length dir))))
                           (map fst dir)).
      { intros name Hin. apply in_map_iff in Hin.
        destruct Hin as (j & <- & Hj). apply in_seq in Hj.
        apply file_exists_In. apply Hbefore. lia. }
      assert (Hnd : NoDup (map (tried safe) (seq 0 (S (List.length dir))))).
      { apply Finite.Injective_map_NoDup; [|apply seq_NoDup].
        intros a b. apply tried_inj. }
      pose proof (NoDup_incl_length Hnd Hincl) as Hlen.
      rewrite !length_map, length_seq in Hlen. lia.
    + exact Hfree.
    + intros j Hj. apply Hbefore. lia.
  - exfalso. eapply free_path_ends. exact E.
Qed.

(** *** The file name *)

Lemma slug_char : forall c,
  is_slug_char (if isalnum (Str.lower_char c) then Str.lower_char c else dash)
  = true.
Proof.
  intros [[] [] [] [] [] [] [] []]; vm_compute; reflexivity.
Qed.

(** X28. For a prompt of ASCII characters, [safe_name] has one
    character for each character of the prompt, each a lower-case
    letter, a digit or a dash: no separator of path components and no
    dot is among them. *)
Theorem safe_name_is_slug :
  forall prompt,
    is_ascii prompt = true ->
    String.length (safe_name prompt) = String.length prompt
    /\ all_chars is_slug_char (safe_name prompt) = true
    /\ has_char "/"%char (safe_name prompt) = false
    /\ has_char "."%char (safe_name prompt) = false.
Proof.
  intros prompt _. unfold safe_name.
  induction prompt as [|c s (IH1 & IH2 & IH3 & IH4)].
  - split_all; reflexivity.
  - pose proof (slug_char c) as Hc. cbn [Str.lower dashed].
    split_all.
    + simpl. rewrite IH1. reflexivity.
    + cbn [all_chars]. rewrite Hc, IH2. reflexivity.
    + cbn [has_char]. rewrite IH3, orb_false_r.
      destruct (if isalnum (Str.lower_char c) then Str.lower_char c else dash)
        as [[] [] [] [] [] [] [] []]; try reflexivity; discriminate.
    + cbn [has_char]. rewrite IH4, orb_false_r.
      destruct (if isalnum (Str.lower_char c) then Str.lower_char c else dash)
        as [[] [] [] [] [] [] [] []]; try reflexivity; discriminate.
Qed.

Lemma safe_name_is_slug_witness :
  is_ascii "A Cat/../x.png" = true
  /\ safe_name "A Cat/../x.png" = "a-cat----x-png"
  /\ String.length (safe_name "A Cat/../x.png")
     = String.length "A Cat/../x.png"
  /\ all_chars is_slug_char (safe_name "A Cat/../x.png") = true
  /\ has_char "/"%char (safe_name "A Cat/../x.png") = false
  /\ has_char "."%char (safe_name "A Cat/../x.png") = false.
Proof.
  split; [reflexivity|]. split; [reflexivity|].
  exact (@safe_name_is_slug "A Cat/../x.png" eq_refl).
Defined.

(** *** The endpoint *)

Lemma image_at_mkdir : forall d c c' name,
  image_at (GenerateImage.mkdir d c) c' name = image_at d c' name.
Proof.
  intros d c c' name. unfold image_at, GenerateImage.mkdir.
  destruct (String.eqb_spec c' c) as [->|N]; [|reflexivity].
  destruct (d c); reflexivity.
Qed.

Lemma image_at_write : forall d c name bytes c' name',
  image_at (write_bytes d c name bytes) c' name'
  = if String.eqb c' c && String.eqb name' name then Some bytes
    else image_at d c' name'.
Proof.
  intros d c name bytes c' name'. unfold image_at, write_bytes.
  destruct (String.eqb_spec c' c) as [->|N]; [|reflexivity].
  cbn [andb]. rewrite Persistence.assoc_dict_set.
  destruct (String.eqb name' name); [reflexivity|].
  destruct (d c); reflexivity.
Qed.

Lemma file_exists_image_at : forall d c name,
  file_exists name (match d c with Some dir => dir | None => [] end)
  = match image_at d c name with Some _ => true | None => false end.
Proof.
  intros d c name. unfold file_exists, image_at.
  destruct (d c); reflexivity.
Qed.

Lemma mkdir_folder : forall d c,
  match GenerateImage.mkdir d c c with Some dir => dir | None => [] end
  = match d c with Some dir => dir | None => [] end.
Proof.
  intros d c. unfold GenerateImage.mkdir. rewrite String.eqb_refl.
  reflexivity.
Qed.

(** The branches of [generate_image] that answer 500 before anything
    is written. *)
Ltac answers_500_untouched :=
  eexists; eexists; (split; [reflexivity|]); split_all;
  [ auto
  | split; [intros [? ?]; discriminate | intro; discriminate]
  | intro; discriminate
  | let H := fresh in intros ? ? H; inversion H; right; reflexivity
  | discriminate ].

(** X29. [generate_image] answers, and never overwrites: whatever the
    remote service and the decoder do, every file that was in a folder
    of images is there afterwards with the bytes it had. The answer is
    400 exactly when the category is not one of the five, before
    anything else is looked at, and the disk is then as it was; every
    other failure is a 500. A URL is returned only when both keys are
    set, the service answered 200 with a body that holds an image and
    [base64.b64decode] decoded it; the URL names, under the category,
    the first of the plain name and the numbered names that was not in
    the folder; that file now holds the decoded bytes, and every other
    file of every folder is as it was. *)
Theorem generate_image_never_overwrites :
  forall env req (d : images) extra,
    let dir := match d (category req) with Some dir => dir | None => [] end in
    let name := safe_name (prompt req) in
    exists answer d',
      generate_image env (S (List.length dir) + extra) req d
      = Some (answer, d')
      /\ (forall c file bytes,
            image_at d c file = Some bytes -> image_at d' c file = Some bytes)
      /\ ((exists detail, answer = HTTPException 400 detail)
          <-> existsb (String.eqb (category req)) allowed_categories = false)
      /\ (existsb (String.eqb (category req)) allowed_categories = false ->
          d' = d)
      /\ (forall status detail,
            answer = HTTPException status detail ->
            status = 400 \/ status = 500)
      /\ (forall url,
            answer = Returned url ->
            exists k key model resp img bytes,
              BANANA_API_KEY env = Some key
              /\ BANANA_MODEL_KEY env = Some model
              /\ post env key model (prompt req) = Ok resp
              /\ status_code resp = 200%nat
              /\ bind (json_body resp) image_of = Ok img
              /\ py_truthy img = true
              /\ b64decode env img = Ok bytes
              /\ url = "/images/" ++ category req ++ "/" ++ tried name k
              /\ image_at d (category req) (tried name k) = None
              /\ image_at d' (category req) (tried name k) = Some bytes
              /\ (forall j, (j < k)%nat ->
                    image_at d (category req) (tried name j) <> None)
              /\ (forall c file,
                    (c, file) <> (category req, tried name k) ->
                    image_at d' c file = image_at d c file)).
Proof.
  intros env req d extra dir name.
  unfold generate_image.
  destruct (existsb (String.eqb (category req)) allowed_categories) eqn:Hcat;
    cbn [negb].
  2:{ eexists; eexists. split; [reflexivity|]. split_all.
      - auto.
      - split; [reflexivity | intros _; eexists; reflexivity].
      - reflexivity.
      - intros s d0 H. inversion H. left; reflexivity.
      - discriminate. }
  destruct (BANANA_API_KEY env) as [key|] eqn:Ekey;
    [|cbn [unset orb]; answers_500_untouched].
  destruct (BANANA_MODEL_KEY env) as [model|] eqn:Emodel;
    [|cbn [unset]; rewrite orb_true_r; answers_500_untouched].
  destruct (unset (Some key) || unset (Some model));
    [answers_500_untouched|].
  destruct (post env key model (prompt req)) as [resp|e] eqn:Epost;
    [|answers_500_untouched].
  destruct (Nat.eqb_spec (status_code resp) 200) as [Estatus|_];
    cbn [negb]; [|answers_500_untouched].
  destruct (bind (json_body resp) image_of) as [img|e] eqn:Eimg;
    [|answers_500_untouched].
  destruct (py_truthy img) eqn:Etruthy; cbn [negb];
    [|answers_500_untouched].
  cbv zeta. rewrite mkdir_folder. fold dir. fold name.
  destruct (free_path (S (List.length dir) + extra) dir name 1
                      (name ++ ".png")) as [p|] eqn:E.
  2:{ exfalso. eapply free_path_ends. exact E. }
  change (name ++ ".png") with (tried name 0) in E.
  destruct (@free_path_from _ _ _ _ _ E) as (k & Hk & Hp & Hfree & Hbefore).
  subst p. unfold dir in Hfree, Hbefore.
  rewrite file_exists_image_at in Hfree.
  assert (Hnew : image_at d (category req) (tried name k) = None)
    by (destruct (image_at d (category req) (tried name k));
        [discriminate | reflexivity]).
  assert (Hold : forall j, (j < k)%nat ->
                   image_at d (category req) (tried name j) <> None).
  { intros j Hj Hn. specialize (Hbefore j ltac:(lia)).
    rewrite file_exists_image_at, Hn in Hbefore. discriminate. }
  assert (Hother : forall b c file,
            (c, file) <> (category req, tried name k) ->
            image_at (write_bytes (GenerateImage.mkdir d (category req))
                                  (category req) (tried name k) b)
                     c file = image_at d c file).
  { intros b c file Hne. rewrite image_at_write, image_at_mkdir.
    destruct (String.eqb_spec c (category req)) as [->|Nc];
      [|reflexivity].
    destruct (String.eqb_spec file (tried name k)) as [->|Nf];
      [|reflexivity].
    exfalso. apply Hne. reflexivity. }
  assert (Hkeep : forall b c file bytes,
            image_at d c file = Some bytes ->
            image_at (write_bytes (GenerateImage.mkdir d (category req))
                                  (category req) (tried name k) b)
                     c file = Some bytes).
  { intros b c file bytes H. rewrite Hother; [exact H|].
    intro Heq. inversion Heq; subst. congruence. }
  destruct (b64decode env img) as [bytes|e] eqn:Edec.
  - eexists; eexists. split; [reflexivity|]. split_all.
    + intros c file b H. rewrite image_at_write.
      destruct (String.eqb_spec c (category req)) as [->|Nc];
        [|apply Hkeep; exact H].
      destruct (String.eqb_spec file (tried name k)) as [->|Nf];
        [congruence | apply Hkeep; exact H].
    + split; [intros [d0 H]; discriminate | intro H; discriminate].
    + discriminate.
    + discriminate.
    + intros url H. inversion H; subst url.
      exists k, key, model, resp, img, bytes.
      split_all; try reflexivity; try assumption.
      * rewrite image_at_write, !String.eqb_refl. reflexivity.
      * intros c file Hne. rewrite image_at_write.
        destruct (String.eqb_spec c (category req)) as [->|Nc];
          [|apply Hother; exact Hne].
        destruct (String.eqb_spec file (tried name k)) as [->|Nf];
          [exfalso; apply Hne; reflexivity | apply Hother; exact Hne].
  - eexists; eexists. split; [reflexivity|]. split_all.
    + apply Hkeep.
    + split; [intros [d0 H]; discriminate | intro H; discriminate].
    + discriminate.
    + intros s d0 H. inversion H. right; reflexivity.
    + discriminate.
Qed.

(** X30. An image that does not decode leaves an empty file behind.
    When the service replied with an image and [base64.b64decode]
    raises on it, the answer is 500 with the text of the exception, and
    the file that would have held the image exists and is empty: it was
    opened for writing before the image was decoded. *)
Theorem undecodable_image_leaves_empty_file :
  forall env req (d : images) extra key model resp img e,
    existsb (String.eqb (category req)) allowed_categories = true ->
    BANANA_API_KEY env = Some key -> key <> EmptyString ->
    BANANA_MODEL_KEY env = Some model -> model <> EmptyString ->
    post env key model (prompt req) = Ok resp ->
    status_code resp = 200%nat ->
    bind (json_body resp) image_of = Ok img ->
    py_truthy img = true ->
    b64decode env img = Raise e ->
    let dir := match d (category req) with Some dir => dir | None => [] end in
    exists k d',
      generate_image env (S (List.length dir) + extra) req d
      = Some (HTTPException 500 (exn_msg e), d')
      /\ image_at d (category req) (tried (safe_name (prompt req)) k) = None
      /\ image_at d' (category req) (tried (safe_name (prompt req)) k)
         = Some EmptyString.
Proof.
  intros env req d extra key model resp img e Hcat Hk Hkne Hm Hmne Hpost
         Hstatus Himg Htruthy Hdec dir.
  unfold generate_image. rewrite Hcat, Hk, Hm. cbn [negb unset].
  destruct (String.eqb_spec key EmptyString) as [E|_]; [contradiction|].
  destruct (String.eqb_spec model EmptyString) as [E|_]; [contradiction|].
  cbn [orb]. rewrite Hpost, Hstatus. cbn [Nat.eqb negb].
  rewrite Himg, Htruthy. cbn [negb]. cbv zeta.
  rewrite mkdir_folder. fold dir.
  destruct (free_path (S (List.length dir) + extra) dir
                      (safe_name (prompt req)) 1
                      (safe_name (prompt req) ++ ".png")) as [p|] eqn:E.
  2:{ exfalso. eapply free_path_ends. exact E. }
  change (safe_name (prompt req) ++ ".png")
    with (tried (safe_name (prompt req)) 0) in E.
  destruct (@free_path_from _ _ _ _ _ E) as (k & _ & Hp & Hfree & _).
  subst p. unfold dir in Hfree. rewrite file_exists_image_at in Hfree.
  rewrite Hdec. exists k. eexists. split_all.
  - reflexivity.
  - destruct (image_at d (category req) (tried (safe_name (prompt req)) k));
      [discriminate | reflexivity].
  - rewrite image_at_write, !String.eqb_refl. reflexivity.
Qed.

Lemma undecodable_image_leaves_empty_file_witness :
  let req := Request "A cat" "icons" in
  let e := Exn ValueError "Incorrect padding" in
  b64decode Fixtures.garbled_banana (JStr "a") = Raise e
  /\ py_truthy (JStr "a") = true
  /\ exists k d',
       generate_image Fixtures.garbled_banana
         (S (List.length
               (match Fixtures.cat_images (category req) with
                | Some dir => dir
                | None => []
                end)) + 0)
         req Fixtures.cat_images
       = Some (HTTPException 500 (exn_msg e), d')
       /\ image_at Fixtures.cat_images (category req)
                   (tried (safe_name (prompt req)) k) = None
       /\ image_at d' (category req) (tried (safe_name (prompt req)) k)
          = Some EmptyString.
Proof.
  cbv zeta. split; [reflexivity|]. split; [reflexivity|].
  eapply (@undecodable_image_leaves_empty_file Fixtures.garbled_banana
            (Request "A cat" "icons") Fixtures.cat_images 0%nat
            "key" "model"
            (Response 200 "ok"
               (Ok (JObj [("modelOutputs",
                           JArr [JObj [("image_base64", JStr "a")]])])))
            (JStr "a") (Exn ValueError "Incorrect padding")).
  - reflexivity.
  - reflexivity.
  - discriminate.
  - reflexivity.
  - discriminate.
  - reflexivity.
  - reflexivity.
  - reflexivity.
  - reflexivity.
  - reflexivity.
Defined.

End ImageFacts.

